(** * The payment bot: session store, record store and dialogue engine

    A shallow embedding of [user_manager.py], [google_sheets_helper.py],
    [handlers.py] and the dispatcher that [main.py] sets up.

    - The in-memory session map [UserManager.active_users] is a [gmap]
      from the Telegram user id to a [Session] record, one field per key
      of the session dictionary.
    - The two spreadsheets are tables of rows.  Every remote call
      ([.execute()]) asks the fault schedule of the world whether the
      transport raises, so the [try]/[except] branches of the helper are
      part of the model.
    - Handlers are computations in a state-and-exception monad over the
      [World]: a Python exception leaves the mutations made before it in
      place, exactly as in the source.
    - Python's [float(...)] and [str(...)] on floats are builtins: the
      model takes them as section variables, and uses the kernel's
      binary64 numbers for the arithmetic and the comparisons.
    - Definitions keep the names of the source.  The helper's
      [register_user] is [sheets_register_user] here, next to the
      [register_user] of the user manager.  What only goes to the
      console ([print]) is left out, and so is the [one_time_keyboard]
      flag that every keyboard carries. *)

From Stdlib Require Import ZArith String Ascii List Uint63 PrimFloat SpecFloat FloatOps.
From stdpp Require Import gmap strings list pretty.
From Stdlib Require FloatAxioms.

Local Open Scope string_scope.
Local Open Scope Z_scope.

(** ** Python values *)

(** The values that the withdrawal scratch dictionary and a payment row
    hold: [None], a string, a float, or the integer default [0]. *)
Inductive pyval : Type :=
  | PyNone
  | PyStr (s : string)
  | PyFloat (f : float)
  | PyInt (z : Z).

(** [None] or a string, as a [pyval]. *)
Definition of_opt (o : option string) : pyval :=
  match o with
  | None => PyNone
  | Some s => PyStr s
  end.

(** Truth value of an object, as [if x:] and [not x] test it. *)
Definition truthy (v : pyval) : bool :=
  match v with
  | PyNone => false
  | PyStr s => negb (String.eqb s "")
  | PyFloat f => negb (PrimFloat.eqb f 0%float)
  | PyInt z => negb (z =? 0)
  end.

Definition truthy_opt (o : option string) : bool := truthy (of_opt o).

(** Exceptions a handler can meet.  [HttpError] stands for whatever the
    spreadsheet client raises; its argument is [str(e)]. *)
Inductive exn : Type :=
  | KeyError (key : string)
  | ValueError
  | AttributeError
  | TypeError
  | IndexError
  | HttpError (msg : string).

Definition exn_str (e : exn) : string :=
  match e with
  | KeyError k => k
  | ValueError => "ValueError"
  | AttributeError => "AttributeError"
  | TypeError => "TypeError"
  | IndexError => "list index out of range"
  | HttpError msg => msg
  end.

(** ** Strings *)

Definition lower_ascii (c : ascii) : ascii :=
  let n := nat_of_ascii c in
  if (Nat.leb 65 n && Nat.leb n 90)%bool then ascii_of_nat (n + 32) else c.

Definition upper_ascii (c : ascii) : ascii :=
  let n := nat_of_ascii c in
  if (Nat.leb 97 n && Nat.leb n 122)%bool then ascii_of_nat (n - 32) else c.

Definition is_letter (c : ascii) : bool :=
  let n := nat_of_ascii c in
  ((Nat.leb 65 n && Nat.leb n 90) || (Nat.leb 97 n && Nat.leb n 122))%bool.

(** [str.lower()].  The model lowers the ASCII letters; no other code
    point lowers to the letters of "yes", the only word the handlers
    compare a lowered text with. *)
Fixpoint lower (s : string) : string :=
  match s with
  | EmptyString => EmptyString
  | String c r => String (lower_ascii c) (lower r)
  end.

(** [str.replace('_', ' ')]. *)
Fixpoint replace_underscore (s : string) : string :=
  match s with
  | EmptyString => EmptyString
  | String c r =>
      String (if Ascii.eqb c "_" then " "%char else c) (replace_underscore r)
  end.

(** [str.title()] on ASCII text: a letter that follows a non-letter is
    upper-cased, every other letter lower-cased. *)
Fixpoint title_from (after_letter : bool) (s : string) : string :=
  match s with
  | EmptyString => EmptyString
  | String c r =>
      String (if after_letter then lower_ascii c else upper_ascii c)
             (title_from (is_letter c) r)
  end.

Definition title (s : string) : string := title_from false s.

(** ** config.py *)

Definition USER_HEADERS : list string :=
  ["Username"; "First Name"; "Last Name"; "Preferred Payment Mode";
   "UPI ID"; "Bank Account"; "IFSC Code"; "Balance"].

Definition PAYMENT_HEADERS : list string :=
  ["Username"; "Amount"; "Payment Mode"; "UPI ID/Bank Account";
   "IFSC Code"; "Request Date"; "Status"].

Definition nl : string := String (ascii_of_nat 10) EmptyString.

Definition WELCOME_MESSAGE : string :=
  "Welcome to the Employee Payment System!" +:+ nl +:+
  "Choose an option:" +:+ nl +:+ "1. Signup" +:+ nl +:+ "2. Login".

Definition MAIN_MENU : string :=
  "Main Menu:" +:+ nl +:+ "1. Check Balance" +:+ nl +:+
  "2. Withdraw Funds" +:+ nl +:+ "3. Join Channel" +:+ nl +:+
  "4. Update Profile".

Definition DEFAULT_PAYMENT_DATE : string := "15th of the month".
Definition INVOICE_BOT_USERNAME : string := "invoice_earnifybot".

(** ** The world *)

(** One entry of [UserManager.active_users]. *)
Record Session : Type := mkSession {
  username : option string;
  logged_in : bool;
  registration_state : option string;
  registration_data : gmap string string;
  withdraw_state : option string;
  withdraw_data : gmap string pyval;
  update_profile_state : option string;
  update_field : option string
}.

(** The session [start_session] creates. *)
Definition new_session : Session :=
  {| username := None; logged_in := false;
     registration_state := None; registration_data := ∅;
     withdraw_state := None; withdraw_data := ∅;
     update_profile_state := None; update_field := None |}.

(** The keyboards a reply carries. *)
Inductive Markup : Type :=
  | NoMarkup
  | ReplyKeyboardRemove
  | ReplyKeyboardMarkup (keys : list (list string)).

Record Reply : Type := mkReply {
  chat : Z;
  body : string;
  markup : Markup
}.

(** The state the handlers run in.
    - [active_users]: the session map;
    - [pending_login]: the users whose [context.user_data] holds the key
      [login_username_provided];
    - [users_header], [users_rows]: row 1 and the rows from row 2 on of
      the Users sheet, as the range A:Z returns them;
    - [payments_header], [payments_rows]: the same for the Payments
      sheet, whose cells are the values the bot sent;
    - [clock]: what [datetime.now().strftime(...)] returns;
    - [faults]: for each coming remote call, whether it raises (and with
      what message); an exhausted schedule means the call succeeds;
    - [outbox]: the replies sent so far, oldest first. *)
Record World : Type := mkWorld {
  active_users : gmap Z Session;
  pending_login : gset Z;
  users_header : list string;
  users_rows : list (list string);
  payments_header : list string;
  payments_rows : list (list pyval);
  clock : string;
  faults : list (option string);
  outbox : list Reply
}.

Definition set_active_users (m : gmap Z Session) (w : World) : World :=
  mkWorld m (pending_login w) (users_header w) (users_rows w)
          (payments_header w) (payments_rows w) (clock w) (faults w) (outbox w).

Definition set_pending_login (p : gset Z) (w : World) : World :=
  mkWorld (active_users w) p (users_header w) (users_rows w)
          (payments_header w) (payments_rows w) (clock w) (faults w) (outbox w).

Definition set_users_header (h : list string) (w : World) : World :=
  mkWorld (active_users w) (pending_login w) h (users_rows w)
          (payments_header w) (payments_rows w) (clock w) (faults w) (outbox w).

Definition set_users_rows (r : list (list string)) (w : World) : World :=
  mkWorld (active_users w) (pending_login w) (users_header w) r
          (payments_header w) (payments_rows w) (clock w) (faults w) (outbox w).

Definition set_payments_header (h : list string) (w : World) : World :=
  mkWorld (active_users w) (pending_login w) (users_header w) (users_rows w)
          h (payments_rows w) (clock w) (faults w) (outbox w).

Definition set_payments_rows (r : list (list pyval)) (w : World) : World :=
  mkWorld (active_users w) (pending_login w) (users_header w) (users_rows w)
          (payments_header w) r (clock w) (faults w) (outbox w).

Definition set_faults (f : list (option string)) (w : World) : World :=
  mkWorld (active_users w) (pending_login w) (users_header w) (users_rows w)
          (payments_header w) (payments_rows w) (clock w) f (outbox w).

Definition set_outbox (o : list Reply) (w : World) : World :=
  mkWorld (active_users w) (pending_login w) (users_header w) (users_rows w)
          (payments_header w) (payments_rows w) (clock w) (faults w) o.

(** Storing a session under an id, and sending a reply. *)
Definition put_session (user_id : Z) (s : Session) (w : World) : World :=
  set_active_users (<[user_id := s]> (active_users w)) w.

Definition send (r : Reply) (w : World) : World :=
  set_outbox (outbox w ++ [r])%list w.

(** ** The monad of handlers *)

Inductive res (A : Type) : Type :=
  | Ok (a : A)
  | Raise (e : exn).
Arguments Ok {A} a.
Arguments Raise {A} e.

Definition M (A : Type) : Type := World -> res A * World.

Definition ret {A} (a : A) : M A := fun w => (Ok a, w).

Definition raise {A} (e : exn) : M A := fun w => (Raise e, w).

Definition bind {A B} (m : M A) (k : A -> M B) : M B :=
  fun w =>
    match m w with
    | (Ok a, w') => k a w'
    | (Raise e, w') => (Raise e, w')
    end.

(** [try: m except Exception as e: h e]. *)
Definition try_except {A} (m : M A) (h : exn -> M A) : M A :=
  fun w =>
    match m w with
    | (Ok a, w') => (Ok a, w')
    | (Raise e, w') => h e w'
    end.

(** [try: m except ValueError: h]; any other exception passes. *)
Definition try_except_ValueError {A} (m : M A) (h : M A) : M A :=
  fun w =>
    match m w with
    | (Ok a, w') => (Ok a, w')
    | (Raise ValueError, w') => h w'
    | (Raise e, w') => (Raise e, w')
    end.

Definition get_world : M World := fun w => (Ok w, w).
Definition modify (f : World -> World) : M unit := fun w => (Ok tt, f w).

#[global] Instance M_ret : MRet M := @ret.
#[global] Instance M_bind : MBind M := fun A B k m => bind m k.


(** ** A sample of the builtins

    The theorems hold for any [float] and [str]; the examples run them
    on the following pair.  [sample_float] reads plain decimal literals
    (an optional sign, digits, an optional fraction) of at most 15
    digits, on which it returns the binary64 number [float] returns, and
    declines every other text.  [sample_str] prints the exact decimal
    expansion of a float, which is what [str] prints for the integral
    floats below 1e16. *)

Definition digit_of (c : ascii) : option Z :=
  let n := Z.of_nat (nat_of_ascii c) in
  if (48 <=? n) && (n <=? 57) then Some (n - 48) else None.

(** The digits of [s] before and after the point, as one number, and
    the count of digits after the point. *)
Fixpoint read_decimal (s : string) (seen_point : bool) (mantissa : Z)
    (digits decimals : nat) : option (Z * nat * nat) :=
  match s with
  | EmptyString => Some (mantissa, digits, decimals)
  | String c r =>
      if Ascii.eqb c "." then
        if seen_point then None
        else read_decimal r true mantissa digits decimals
      else
        match digit_of c with
        | Some d =>
            read_decimal r seen_point (10 * mantissa + d) (S digits)
                         (if seen_point then S decimals else decimals)
        | None => None
        end
  end.

Definition float_of_nonneg (z : Z) : float := PrimFloat.of_uint63 (Uint63.of_Z z).

Definition read_unsigned (s : string) : option float :=
  match read_decimal s false 0 0 0 with
  | Some (mantissa, digits, decimals) =>
      if bool_decide (1 <= digits <= 15)%nat then
        Some (float_of_nonneg mantissa / float_of_nonneg (10 ^ Z.of_nat decimals))%float
      else None
  | None => None
  end.

Definition sample_float (s : string) : option float :=
  match s with
  | String "-" r => PrimFloat.opp <$> read_unsigned r
  | String "+" r => read_unsigned r
  | _ => read_unsigned s
  end.

Fixpoint strip_zeros (rev_digits : list ascii) : list ascii :=
  match rev_digits with
  | "0"%char :: r => strip_zeros r
  | _ => rev_digits
  end.

(** [n / 10 ^ k] below one, as the digits after the point. *)
Definition fraction_digits (k : nat) (n : Z) : string :=
  let digits := list_ascii_of_string (pretty n) in
  let padded := (replicate (k - length digits) "0"%char ++ digits)%list in
  match rev (strip_zeros (rev padded)) with
  | [] => "0"
  | ds => string_of_list_ascii ds
  end.

Definition sample_str (f : float) : string :=
  match Prim2SF f with
  | S754_zero false => "0.0"
  | S754_zero true => "-0.0"
  | S754_infinity false => "inf"
  | S754_infinity true => "-inf"
  | S754_nan => "nan"
  | S754_finite sign m e =>
      let sign := if sign then "-" else "" in
      if 0 <=? e then sign +:+ pretty (Z.pos m * 2 ^ e) +:+ ".0"
      else
        let k := Z.to_nat (- e) in
        let n := Z.pos m * 5 ^ (- e) in
        sign +:+ pretty (n / 10 ^ (- e)) +:+ "." +:+
        fraction_digits k (n mod 10 ^ (- e))
  end.

(** ** The builtins the model takes as given *)

Section Bot.

(** [float(text)]: [None] when Python raises [ValueError]. *)
Variable py_float : string -> option float.

(** [str(x)] and the f-string rendering of a float [x]. *)
Variable py_str_float : float -> string.

(** [str(v)], and [v] inside an f-string. *)
Definition py_str (v : pyval) : string :=
  match v with
  | PyNone => "None"
  | PyStr s => s
  | PyFloat f => py_str_float f
  | PyInt z => pretty z
  end.

(** [float(text)] as a computation. *)
Definition float_of (text : string) : M float :=
  match py_float text with
  | Some f => ret f
  | None => raise ValueError
  end.

(** ** google_sheets_helper.py *)

Inductive sheet : Type := UsersSheet | PaymentsSheet.

Definition header_of (sh : sheet) (w : World) : list string :=
  match sh with
  | UsersSheet => users_header w
  | PaymentsSheet => payments_header w
  end.

Definition set_header (sh : sheet) (h : list string) (w : World) : World :=
  match sh with
  | UsersSheet => set_users_header h w
  | PaymentsSheet => set_payments_header h w
  end.

(** One remote call: the head of the fault schedule decides whether the
    client raises. *)
Definition execute : M unit :=
  fun w =>
    match faults w with
    | [] => (Ok tt, w)
    | None :: rest => (Ok tt, set_faults rest w)
    | Some msg :: rest => (Raise (HttpError msg), set_faults rest w)
    end.

(** [values().get(range="<sheet>!A1:Z1")]: the list of the rows of the
    range, which is empty when row 1 is. *)
Definition values_get_header (sh : sheet) : M (list (list string)) :=
  execute;;
  w ← get_world;
  ret (match header_of sh w with [] => [] | h => [h] end).

(** [values().update(range="<sheet>!A1", body=[headers])]: the cells of
    row 1 under the new values are overwritten, the others stay. *)
Definition values_update_header (sh : sheet) (headers : list string) : M unit :=
  execute;;
  modify (fun w =>
    set_header sh (headers ++ drop (length headers) (header_of sh w))%list w).

(** [values().get(range="Users!A2:Z")]. *)
Definition values_get_users : M (list (list string)) :=
  execute;;
  w ← get_world;
  ret (users_rows w).

(** [values().append(range="Users!A2", body=[row])]. *)
Definition values_append_users (row : list string) : M unit :=
  execute;;
  modify (fun w => set_users_rows (users_rows w ++ [row])%list w).

(** [values().append(range="Payments!A2", body=[row])]. *)
Definition values_append_payments (row : list pyval) : M unit :=
  execute;;
  modify (fun w => set_payments_rows (payments_rows w ++ [row])%list w).

(** Writing one cell of a row: a row shorter than the column is padded
    with empty cells, as the sheet does. *)
Definition set_cell (column_index : nat) (value : string) (row : list string)
  : list string :=
  if bool_decide (column_index < length row)%nat
  then <[column_index := value]> row
  else (row ++ replicate (column_index - length row) "" ++ [value])%list.

(** [values().update(range="Users!<letter><row_index>", body=[[value]])],
    the letter being [chr(65 + column_index)].  Sheet row [row_index] is
    data row [row_index - 2]. *)
Definition values_update_users_cell (row_index column_index : nat)
    (value : string) : M unit :=
  execute;;
  modify (fun w =>
    set_users_rows
      (alter (set_cell column_index value) (row_index - 2)%nat (users_rows w)) w).

Definition ensure_headers (sh : sheet) (headers : list string) : M bool :=
  try_except
    (values ← values_get_header sh;
     match values with
     | [] => values_update_header sh headers;; ret true
     | first :: _ =>
         if bool_decide (first = headers) then ret true
         else values_update_header sh headers;; ret true
     end)
    (fun _ => ret false).

Definition get_all_users : M (list (list string)) :=
  try_except
    (ensure_headers UsersSheet USER_HEADERS;;
     values_get_users)
    (fun _ => ret []).

(** The loop of [find_user_by_username]: [i] is the sheet row of the
    head of [users]. *)
Fixpoint find_from (username : option string) (users : list (list string))
    (i : nat) : option (list string * nat) :=
  match users with
  | [] => None
  | user :: rest =>
      match user, username with
      | cell :: _, Some name =>
          if String.eqb cell name then Some (user, i)
          else find_from username rest (S i)
      | _, _ => find_from username rest (S i)
      end
  end.

(** [(None, None)] is [None] here; the username may be [None] when the
    caller took it from a session that is not logged in. *)
Definition find_user_by_username (username : option string)
  : M (option (list string * nat)) :=
  users ← get_all_users;
  ret (find_from username users 2).

Definition sheets_register_user (user_data : list string) : M (bool * string) :=
  try_except
    (ensure_headers UsersSheet USER_HEADERS;;
     name ← match user_data with
            | [] => raise IndexError
            | name :: _ => ret name
            end;
     existing_user ← find_user_by_username (Some name);
     match existing_user with
     | Some _ => ret (false, "Username already exists")
     | None =>
         values_append_users user_data;;
         ret (true, "User registered successfully")
     end)
    (fun e => ret (false, "Error: " +:+ exn_str e)).

(** [len(user_data) >= 8] holds exactly when index 7 exists. *)
Definition get_user_balance (username : option string) : M string :=
  found ← find_user_by_username username;
  match found with
  | Some (user_data, _) =>
      match user_data !! 7%nat with
      | Some balance => ret balance
      | None => ret "0"
      end
  | None => ret "0"
  end.

Definition update_user_balance (username : option string) (new_balance : float)
  : M (bool * string) :=
  try_except
    (found ← find_user_by_username username;
     match found with
     | None => ret (false, "User not found")
     | Some (_, row_index) =>
         values_update_users_cell row_index 7 (py_str_float new_balance);;
         ret (true, "Balance updated successfully")
     end)
    (fun e => ret (false, "Error: " +:+ exn_str e)).

(** The dictionary [get_user_payment_info] builds: a cell the row is
    too short for is [None]. *)
Definition payment_info_of (user_data : list string) : gmap string pyval :=
  <["preferred_mode" := of_opt (user_data !! 3%nat)]>
  (<["upi_id" := of_opt (user_data !! 4%nat)]>
  (<["bank_account" := of_opt (user_data !! 5%nat)]>
  (<["ifsc_code" := of_opt (user_data !! 6%nat)]> ∅))).

Definition get_user_payment_info (username : option string)
  : M (option (gmap string pyval)) :=
  found ← find_user_by_username username;
  match found with
  | None => ret None
  | Some (user_data, _) => ret (Some (payment_info_of user_data))
  end.

Definition field_map : gmap string nat :=
  <["first_name" := 1%nat]>
  (<["last_name" := 2%nat]>
  (<["preferred_payment_mode" := 3%nat]>
  (<["upi_id" := 4%nat]>
  (<["bank_account" := 5%nat]>
  (<["ifsc_code" := 6%nat]> ∅))))).

(** [field in field_map] and [field_map[field]]; [field] is what the
    session holds in [update_field], and [None] is no key of the map. *)
Definition column_of (field : option string) : option nat :=
  match field with
  | Some f => field_map !! f
  | None => None
  end.

Definition update_user_profile (username : option string)
    (field : option string) (value : string) : M (bool * string) :=
  try_except
    (found ← find_user_by_username username;
     match found with
     | None => ret (false, "User not found")
     | Some (_, row_index) =>
         match column_of field with
         | None => ret (false, "Invalid field: " +:+ py_str (of_opt field))
         | Some column_index =>
             values_update_users_cell row_index column_index value;;
             ret (true, title (replace_underscore (py_str (of_opt field)))
                        +:+ " updated successfully")
         end
     end)
    (fun e => ret (false, "Error: " +:+ exn_str e)).

Definition add_payment_request (payment_data : list pyval) : M (bool * string) :=
  try_except
    (ensure_headers PaymentsSheet PAYMENT_HEADERS;;
     w ← get_world;
     let payment_data :=
       ((payment_data ++ [PyStr (clock w)]) ++ [PyStr "Pending"])%list in
     values_append_payments payment_data;;
     ret (true, "Payment request added successfully"))
    (fun e => ret (false, "Error: " +:+ exn_str e)).

(** ** user_manager.py *)

Definition with_username (v : option string) (s : Session) : Session :=
  mkSession v (logged_in s) (registration_state s) (registration_data s)
            (withdraw_state s) (withdraw_data s) (update_profile_state s)
            (update_field s).

Definition with_logged_in (v : bool) (s : Session) : Session :=
  mkSession (username s) v (registration_state s) (registration_data s)
            (withdraw_state s) (withdraw_data s) (update_profile_state s)
            (update_field s).

Definition with_registration_state (v : option string) (s : Session) : Session :=
  mkSession (username s) (logged_in s) v (registration_data s)
            (withdraw_state s) (withdraw_data s) (update_profile_state s)
            (update_field s).

Definition with_registration_data (v : gmap string string) (s : Session)
  : Session :=
  mkSession (username s) (logged_in s) (registration_state s) v
            (withdraw_state s) (withdraw_data s) (update_profile_state s)
            (update_field s).

Definition with_withdraw_state (v : option string) (s : Session) : Session :=
  mkSession (username s) (logged_in s) (registration_state s)
            (registration_data s) v (withdraw_data s)
            (update_profile_state s) (update_field s).

Definition with_withdraw_data (v : gmap string pyval) (s : Session) : Session :=
  mkSession (username s) (logged_in s) (registration_state s)
            (registration_data s) (withdraw_state s) v
            (update_profile_state s) (update_field s).

Definition with_update_profile_state (v : option string) (s : Session)
  : Session :=
  mkSession (username s) (logged_in s) (registration_state s)
            (registration_data s) (withdraw_state s) (withdraw_data s) v
            (update_field s).

Definition with_update_field (v : option string) (s : Session) : Session :=
  mkSession (username s) (logged_in s) (registration_state s)
            (registration_data s) (withdraw_state s) (withdraw_data s)
            (update_profile_state s) v.

(** [if user_id in self.active_users: self.active_users[user_id][...] = ...]:
    the guarded in-place update the setters share. *)
Definition update_session (user_id : Z) (f : Session -> Session) : M unit :=
  modify (fun w =>
    match active_users w !! user_id with
    | Some s => put_session user_id (f s) w
    | None => w
    end).

(** [self.active_users[user_id]] with no guard: [KeyError] when the id
    has no session. *)
Definition session_of (user_id : Z) : M Session :=
  w ← get_world;
  match active_users w !! user_id with
  | Some s => ret s
  | None => raise (KeyError (pretty user_id))
  end.

(** [self.active_users[user_id][...] = ...] with no guard. *)
Definition assign_session (user_id : Z) (f : Session -> Session) : M unit :=
  s ← session_of user_id;
  modify (put_session user_id (f s)).

Definition start_session (user_id : Z) : M unit :=
  modify (fun w =>
    match active_users w !! user_id with
    | Some _ => w
    | None => put_session user_id new_session w
    end).

Definition end_session (user_id : Z) : M unit :=
  modify (fun w =>
    match active_users w !! user_id with
    | Some _ => set_active_users (delete user_id (active_users w)) w
    | None => w
    end).

Definition is_logged_in (user_id : Z) : M bool :=
  w ← get_world;
  match active_users w !! user_id with
  | Some s => ret (logged_in s)
  | None => ret false
  end.

Definition get_username (user_id : Z) : M (option string) :=
  logged ← is_logged_in user_id;
  if (logged : bool) then s ← session_of user_id; ret (username s)
  else ret None.

Definition set_registration_state (user_id : Z) (state : option string)
  : M unit :=
  update_session user_id (with_registration_state state).

Definition get_registration_state (user_id : Z) : M (option string) :=
  w ← get_world;
  match active_users w !! user_id with
  | Some s => ret (registration_state s)
  | None => ret None
  end.

Definition set_registration_data (user_id : Z) (field value : string) : M unit :=
  update_session user_id
    (fun s => with_registration_data (<[field := value]> (registration_data s)) s).

Definition get_registration_data (user_id : Z) : M (gmap string string) :=
  w ← get_world;
  match active_users w !! user_id with
  | Some s => ret (registration_data s)
  | None => ret ∅
  end.

Definition login_user (user_id : Z) (name : string) : M bool :=
  user_data ← find_user_by_username (Some name);
  match user_data with
  | Some _ =>
      assign_session user_id (with_username (Some name));;
      assign_session user_id (with_logged_in true);;
      ret true
  | None => ret false
  end.

(** [data.get(key, "")]. *)
Definition get_or_empty (data : gmap string string) (key : string) : string :=
  default "" (data !! key).

(** The row [register_user] prepares from the registration answers. *)
Definition user_row_of (data : gmap string string) : list string :=
  let username := get_or_empty data "username" in
  let first_name := get_or_empty data "first_name" in
  let last_name := get_or_empty data "last_name" in
  let payment_mode := get_or_empty data "payment_mode" in
  let user_row := [username; first_name; last_name; payment_mode] in
  let user_row :=
    if String.eqb payment_mode "UPI" then
      (user_row ++ [get_or_empty data "upi_id"; ""; ""])%list
    else if String.eqb payment_mode "Bank Account" then
      (user_row ++ [""; get_or_empty data "bank_account";
                    get_or_empty data "ifsc_code"])%list
    else (user_row ++ [""; ""; ""])%list in
  (user_row ++ ["0"])%list.

Definition register_user (user_id : Z) : M (bool * string) :=
  s ← session_of user_id;
  let data := registration_data s in
  let username := get_or_empty data "username" in
  r ← sheets_register_user (user_row_of data);
  let '(success, message) := (r : bool * string) in
  (if success then
     assign_session user_id (with_username (Some username));;
     assign_session user_id (with_logged_in true)
   else ret tt);;
  ret (success, message).

Definition set_withdraw_state (user_id : Z) (state : option string) : M unit :=
  update_session user_id (with_withdraw_state state).

Definition get_withdraw_state (user_id : Z) : M (option string) :=
  w ← get_world;
  match active_users w !! user_id with
  | Some s => ret (withdraw_state s)
  | None => ret None
  end.

Definition set_withdraw_data (user_id : Z) (field : string) (value : pyval)
  : M unit :=
  update_session user_id
    (fun s => with_withdraw_data (<[field := value]> (withdraw_data s)) s).

Definition get_withdraw_data (user_id : Z) : M (gmap string pyval) :=
  w ← get_world;
  match active_users w !! user_id with
  | Some s => ret (withdraw_data s)
  | None => ret ∅
  end.

Definition set_update_profile_state (user_id : Z) (state : option string)
  : M unit :=
  update_session user_id (with_update_profile_state state).

Definition get_update_profile_state (user_id : Z) : M (option string) :=
  w ← get_world;
  match active_users w !! user_id with
  | Some s => ret (update_profile_state s)
  | None => ret None
  end.

Definition set_update_field (user_id : Z) (field : option string) : M unit :=
  update_session user_id (with_update_field field).

Definition get_update_field (user_id : Z) : M (option string) :=
  w ← get_world;
  match active_users w !! user_id with
  | Some s => ret (update_field s)
  | None => ret None
  end.

(** ** handlers.py *)

Definition get_welcome_keyboard : Markup :=
  ReplyKeyboardMarkup [["1. Signup"; "2. Login"]].

Definition get_main_menu_keyboard : Markup :=
  ReplyKeyboardMarkup
    [["1. Check Balance"]; ["2. Withdraw Funds"]; ["3. Join Channel"];
     ["4. Update Profile"]; ["Logout"]].

Definition get_payment_mode_keyboard : Markup :=
  ReplyKeyboardMarkup [["UPI"; "Bank Account"]].

Definition get_yes_no_keyboard : Markup :=
  ReplyKeyboardMarkup [["Yes"; "No"]].

Definition get_profile_update_keyboard : Markup :=
  ReplyKeyboardMarkup
    [["First Name"; "Last Name"]; ["Payment Mode"; "UPI ID"];
     ["Bank Account"; "IFSC Code"]; ["Back to Main Menu"]].

(** [update.message.reply_text(text, reply_markup=markup)]. *)
Definition reply_text (user_id : Z) (text : string) (m : Markup) : M unit :=
  modify (send (mkReply user_id text m)).

(** A state the router and the handlers treat as set: neither [None]
    nor the empty string. *)
Definition if_truthy (o : option string) : option string :=
  match o with
  | Some s => if String.eqb s "" then None else Some s
  | None => None
  end.

(** [v == s] for a string literal [s]. *)
Definition is_str (v : pyval) (s : string) : bool :=
  match v with
  | PyStr t => String.eqb t s
  | _ => false
  end.

(** [payment_info.get(key, dflt)], [payment_info] being a dictionary or
    [None]. *)
Definition info_get (payment_info : option (gmap string pyval)) (key : string)
    (dflt : pyval) : M pyval :=
  match payment_info with
  | Some d => ret (default dflt (d !! key))
  | None => raise AttributeError
  end.

(** An integer as a float; the handlers only ever meet the literal [0]. *)
Definition float_of_int (z : Z) : float :=
  if z <? 0 then (- PrimFloat.of_uint63 (Uint63.of_Z (- z)))%float
  else PrimFloat.of_uint63 (Uint63.of_Z z).

(** [x - v] for a float [x]. *)
Definition float_sub (x : float) (v : pyval) : M float :=
  match v with
  | PyFloat f => ret (x - f)%float
  | PyInt z => ret (x - float_of_int z)%float
  | _ => raise TypeError
  end.

Definition start (user_id : Z) : M unit :=
  start_session user_id;;
  reply_text user_id WELCOME_MESSAGE get_welcome_keyboard.

Definition main_menu (user_id : Z) : M unit :=
  logged ← is_logged_in user_id;
  if negb logged then
    reply_text user_id "You need to login first." get_welcome_keyboard
  else reply_text user_id MAIN_MENU get_main_menu_keyboard.

Definition logout (user_id : Z) : M unit :=
  end_session user_id;;
  reply_text user_id "You have been logged out. Type /start to begin again."
             ReplyKeyboardRemove.

(** *** Registration *)

Definition start_registration (user_id : Z) : M unit :=
  set_registration_state user_id (Some "awaiting_username");;
  reply_text user_id "Please enter your desired username:" ReplyKeyboardRemove.

Definition summary_head (data : gmap string string) : string :=
  "Please confirm your details:" +:+ nl +:+
  "Username: " +:+ get_or_empty data "username" +:+ nl +:+
  "Name: " +:+ get_or_empty data "first_name" +:+ " " +:+
  get_or_empty data "last_name" +:+ nl +:+
  "Payment Mode: " +:+ get_or_empty data "payment_mode" +:+ nl.

Definition handle_registration (user_id : Z) (text state : string) : M unit :=
  if String.eqb state "awaiting_username" then
    existing_user ← find_user_by_username (Some text);
    match existing_user with
    | Some _ =>
        reply_text user_id
          "This username already exists. Please choose another username:"
          NoMarkup
    | None =>
        set_registration_data user_id "username" text;;
        set_registration_state user_id (Some "awaiting_first_name");;
        reply_text user_id "Please enter your first name:" NoMarkup
    end
  else if String.eqb state "awaiting_first_name" then
    set_registration_data user_id "first_name" text;;
    set_registration_state user_id (Some "awaiting_last_name");;
    reply_text user_id "Please enter your last name:" NoMarkup
  else if String.eqb state "awaiting_last_name" then
    set_registration_data user_id "last_name" text;;
    set_registration_state user_id (Some "awaiting_payment_mode");;
    reply_text user_id "Please select your preferred payment mode:"
               get_payment_mode_keyboard
  else if String.eqb state "awaiting_payment_mode" then
    if negb (String.eqb text "UPI" || String.eqb text "Bank Account") then
      reply_text user_id "Please select a valid payment mode:"
                 get_payment_mode_keyboard
    else
      set_registration_data user_id "payment_mode" text;;
      if String.eqb text "UPI" then
        set_registration_state user_id (Some "awaiting_upi_id");;
        reply_text user_id "Please enter your UPI ID:" ReplyKeyboardRemove
      else
        set_registration_state user_id (Some "awaiting_bank_account");;
        reply_text user_id "Please enter your Bank Account Number:"
                   ReplyKeyboardRemove
  else if String.eqb state "awaiting_upi_id" then
    set_registration_data user_id "upi_id" text;;
    set_registration_state user_id (Some "awaiting_confirmation");;
    data ← get_registration_data user_id;
    let summary :=
      summary_head data +:+ "UPI ID: " +:+ get_or_empty data "upi_id" in
    reply_text user_id (summary +:+ nl +:+ nl +:+ "Is this correct?")
               get_yes_no_keyboard
  else if String.eqb state "awaiting_bank_account" then
    set_registration_data user_id "bank_account" text;;
    set_registration_state user_id (Some "awaiting_ifsc_code");;
    reply_text user_id "Please enter your IFSC Code:" NoMarkup
  else if String.eqb state "awaiting_ifsc_code" then
    set_registration_data user_id "ifsc_code" text;;
    set_registration_state user_id (Some "awaiting_confirmation");;
    data ← get_registration_data user_id;
    let summary :=
      summary_head data +:+
      "Bank Account: " +:+ get_or_empty data "bank_account" +:+ nl +:+
      "IFSC Code: " +:+ get_or_empty data "ifsc_code" in
    reply_text user_id (summary +:+ nl +:+ nl +:+ "Is this correct?")
               get_yes_no_keyboard
  else if String.eqb state "awaiting_confirmation" then
    if String.eqb (lower text) "yes" then
      r ← register_user user_id;
      let '(success, message) := (r : bool * string) in
      if success then
        set_registration_state user_id None;;
        name ← get_username user_id;
        reply_text user_id
          ("Registration successful! You are now logged in as " +:+
           py_str (of_opt name) +:+ ".")
          get_main_menu_keyboard
      else
        reply_text user_id
          ("Registration failed: " +:+ message +:+ ". Please try again.")
          get_welcome_keyboard
    else
      set_registration_state user_id None;;
      reply_text user_id
        "Registration cancelled. Please start again if you wish to register."
        get_welcome_keyboard
  else ret tt.

(** *** Login *)

Definition prompt_login_username (user_id : Z) : M unit :=
  reply_text user_id "Please enter your username:" ReplyKeyboardRemove;;
  modify (fun w => set_pending_login ({[user_id]} ∪ pending_login w) w).

(** [del context.user_data["login_username_provided"]]. *)
Definition del_login_username_provided (user_id : Z) : M unit :=
  w ← get_world;
  if bool_decide (user_id ∈ pending_login w) then
    modify (set_pending_login (pending_login w ∖ {[user_id]}))
  else raise (KeyError "login_username_provided").

Definition process_login (user_id : Z) (text : string) : M unit :=
  ok ← login_user user_id text;
  if (ok : bool) then
    del_login_username_provided user_id;;
    reply_text user_id ("Login successful! Welcome back, " +:+ text +:+ ".")
               get_main_menu_keyboard
  else
    del_login_username_provided user_id;;
    reply_text user_id "Login failed. Username not found."
               get_welcome_keyboard.

(** *** Balance *)

Definition check_balance (user_id : Z) : M unit :=
  name ← get_username user_id;
  if negb (truthy_opt name) then
    reply_text user_id "You need to be logged in to check your balance."
               get_welcome_keyboard
  else
    balance ← get_user_balance name;
    reply_text user_id ("Your current balance is: ₹" +:+ balance)
               get_main_menu_keyboard.

(** *** Withdrawal *)

Definition start_withdrawal (user_id : Z) : M unit :=
  name ← get_username user_id;
  if negb (truthy_opt name) then
    reply_text user_id "You need to be logged in to withdraw funds."
               get_welcome_keyboard
  else
    set_withdraw_state user_id (Some "awaiting_amount");;
    reply_text user_id "Please enter the amount you wish to withdraw:"
               ReplyKeyboardRemove.

Definition process_withdrawal_request (user_id : Z) (payment_mode : pyval)
  : M unit :=
  name ← get_username user_id;
  withdraw_data ← get_withdraw_data user_id;
  let amount := default (PyInt 0) (withdraw_data !! "amount") in
  let payment_data := [of_opt name; PyStr (py_str amount); payment_mode] in
  payment_data ←
    (if is_str payment_mode "UPI" then
       let upi_id := default (PyStr "") (withdraw_data !! "upi_id") in
       upi_id ←
         (if negb (truthy upi_id) then
            payment_info ← get_user_payment_info name;
            info_get payment_info "upi_id" (PyStr "")
          else ret upi_id);
       ret (payment_data ++ [upi_id; PyStr ""])%list
     else
       let bank_account := default (PyStr "") (withdraw_data !! "bank_account") in
       let ifsc_code := default (PyStr "") (withdraw_data !! "ifsc_code") in
       details ←
         (if negb (truthy bank_account) || negb (truthy ifsc_code) then
            payment_info ← get_user_payment_info name;
            bank_account ← info_get payment_info "bank_account" (PyStr "");
            ifsc_code ← info_get payment_info "ifsc_code" (PyStr "");
            ret (bank_account, ifsc_code)
          else ret (bank_account, ifsc_code));
       ret (payment_data ++ [fst details; snd details])%list);
  r ← add_payment_request payment_data;
  let '(success, message) := (r : bool * string) in
  if success then
    balance ← get_user_balance name;
    current_balance ← float_of balance;
    new_balance ← float_sub current_balance amount;
    update_user_balance name new_balance;;
    set_withdraw_state user_id None;;
    reply_text user_id
      ("Your payment request for ₹" +:+ py_str amount +:+
       " has been received. It will be processed on " +:+
       DEFAULT_PAYMENT_DATE +:+ "." +:+ nl +:+ nl +:+
       "Please forward a screenshot of this chat to @" +:+
       INVOICE_BOT_USERNAME +:+ " for reference.")
      get_main_menu_keyboard
  else
    set_withdraw_state user_id None;;
    reply_text user_id ("Failed to process withdrawal: " +:+ message)
               get_main_menu_keyboard.

Definition handle_withdrawal (user_id : Z) (text state : string) : M unit :=
  name ← get_username user_id;
  if String.eqb state "awaiting_amount" then
    try_except_ValueError
      (amount ← float_of text;
       if (amount <=? 0)%float then
         reply_text user_id "Please enter a positive amount:" NoMarkup
       else
         set_withdraw_data user_id "amount" (PyFloat amount);;
         balance_text ← get_user_balance name;
         balance ← float_of balance_text;
         if (balance <? amount)%float then
           set_withdraw_state user_id None;;
           reply_text user_id
             ("Insufficient balance. Your current balance is: ₹" +:+
              py_str_float balance)
             get_main_menu_keyboard
         else
           payment_info ← get_user_payment_info name;
           preferred_mode ←
             info_get payment_info "preferred_mode" (PyStr "Unknown");
           set_withdraw_state user_id
             (Some "awaiting_payment_mode_confirmation");;
           reply_text user_id
             ("Your default payment mode is: " +:+ py_str preferred_mode +:+
              nl +:+ "Would you like to use this payment mode?")
             get_yes_no_keyboard)
      (reply_text user_id "Please enter a valid number:" NoMarkup)
  else if String.eqb state "awaiting_payment_mode_confirmation" then
    if String.eqb (lower text) "yes" then
      payment_info ← get_user_payment_info name;
      payment_mode ← info_get payment_info "preferred_mode" (PyStr "Unknown");
      process_withdrawal_request user_id payment_mode
    else
      set_withdraw_state user_id (Some "awaiting_new_payment_mode");;
      reply_text user_id
        "Please select your preferred payment mode for this withdrawal:"
        get_payment_mode_keyboard
  else if String.eqb state "awaiting_new_payment_mode" then
    if negb (String.eqb text "UPI" || String.eqb text "Bank Account") then
      reply_text user_id "Please select a valid payment mode:"
                 get_payment_mode_keyboard
    else if String.eqb text "UPI" then
      set_withdraw_data user_id "payment_mode" (PyStr "UPI");;
      set_withdraw_state user_id (Some "awaiting_upi_id");;
      reply_text user_id "Please enter your UPI ID:" ReplyKeyboardRemove
    else
      set_withdraw_data user_id "payment_mode" (PyStr "Bank Account");;
      set_withdraw_state user_id (Some "awaiting_bank_account");;
      reply_text user_id "Please enter your Bank Account Number:"
                 ReplyKeyboardRemove
  else if String.eqb state "awaiting_upi_id" then
    set_withdraw_data user_id "upi_id" (PyStr text);;
    process_withdrawal_request user_id (PyStr "UPI")
  else if String.eqb state "awaiting_bank_account" then
    set_withdraw_data user_id "bank_account" (PyStr text);;
    set_withdraw_state user_id (Some "awaiting_ifsc_code");;
    reply_text user_id "Please enter your IFSC Code:" NoMarkup
  else if String.eqb state "awaiting_ifsc_code" then
    set_withdraw_data user_id "ifsc_code" (PyStr text);;
    process_withdrawal_request user_id (PyStr "Bank Account")
  else ret tt.

(** *** Channel *)

Definition join_channel (user_id : Z) : M unit :=
  logged ← is_logged_in user_id;
  if negb logged then
    reply_text user_id "You need to be logged in to join the channel."
               get_welcome_keyboard
  else
    reply_text user_id
      ("To join our channel, please click this link: https://t.me/employeechannel"
       +:+ nl +:+
       "This is where we share important announcements and updates.")
      get_main_menu_keyboard.

(** *** Profile update *)

Definition start_profile_update (user_id : Z) : M unit :=
  logged ← is_logged_in user_id;
  if negb logged then
    reply_text user_id "You need to be logged in to update your profile."
               get_welcome_keyboard
  else
    set_update_profile_state user_id (Some "selecting_field");;
    reply_text user_id "Which part of your profile would you like to update?"
               get_profile_update_keyboard.

Definition field_mapping : gmap string string :=
  <["First Name" := "first_name"]>
  (<["Last Name" := "last_name"]>
  (<["Payment Mode" := "payment_mode"]>
  (<["UPI ID" := "upi_id"]>
  (<["Bank Account" := "bank_account"]>
  (<["IFSC Code" := "ifsc_code"]> ∅))))).

Definition handle_profile_update (user_id : Z) (text state : string) : M unit :=
  name ← get_username user_id;
  if String.eqb state "selecting_field" then
    if String.eqb text "Back to Main Menu" then
      set_update_profile_state user_id None;;
      main_menu user_id
    else
      match field_mapping !! text with
      | None =>
          reply_text user_id "Please select a valid field to update:"
                     get_profile_update_keyboard
      | Some field =>
          set_update_field user_id (Some field);;
          if String.eqb field "payment_mode" then
            set_update_profile_state user_id (Some "updating_payment_mode");;
            reply_text user_id "Please select your new preferred payment mode:"
                       get_payment_mode_keyboard
          else
            set_update_profile_state user_id (Some "updating_field");;
            reply_text user_id ("Please enter your new " +:+ text +:+ ":")
                       ReplyKeyboardRemove
      end
  else if String.eqb state "updating_payment_mode" then
    if negb (String.eqb text "UPI" || String.eqb text "Bank Account") then
      reply_text user_id "Please select a valid payment mode:"
                 get_payment_mode_keyboard
    else
      field ← get_update_field user_id;
      r ← update_user_profile name field text;
      let '(success, message) := (r : bool * string) in
      if success then
        set_update_profile_state user_id None;;
        reply_text user_id
          ("Your payment mode has been updated to " +:+ text +:+ "." +:+
           nl +:+ nl +:+
           "You may also want to update your UPI ID or Bank Account details.")
          get_main_menu_keyboard
      else
        set_update_profile_state user_id None;;
        reply_text user_id ("Failed to update profile: " +:+ message)
                   get_main_menu_keyboard
  else if String.eqb state "updating_field" then
    field ← get_update_field user_id;
    r ← update_user_profile name field text;
    let '(success, message) := (r : bool * string) in
    if success then
      set_update_profile_state user_id None;;
      reply_text user_id "Your profile has been updated successfully."
                 get_main_menu_keyboard
    else
      set_update_profile_state user_id None;;
      reply_text user_id ("Failed to update profile: " +:+ message)
                 get_main_menu_keyboard
  else ret tt.

(** *** The router *)

(** [handle_message] from the registration flow on: the part the
    welcome, logout and main-menu keywords did not take. *)
Definition handle_dialogue (user_id : Z) (text : string) : M unit :=
  reg_state ← get_registration_state user_id;
  match if_truthy reg_state with
  | Some state => handle_registration user_id text state
  | None =>
      logged ← is_logged_in user_id;
      w ← get_world;
      if negb logged && bool_decide (user_id ∈ pending_login w) then
        process_login user_id text
      else
        withdraw_state ← get_withdraw_state user_id;
        match if_truthy withdraw_state with
        | Some state => handle_withdrawal user_id text state
        | None =>
            update_state ← get_update_profile_state user_id;
            match if_truthy update_state with
            | Some state => handle_profile_update user_id text state
            | None =>
                logged ← is_logged_in user_id;
                reply_text user_id
                  "I didn't understand that. Please use the menu options."
                  (if negb logged then get_welcome_keyboard
                   else get_main_menu_keyboard)
            end
        end
  end.

Definition handle_message (user_id : Z) (text : string) : M unit :=
  w ← get_world;
  (if bool_decide (is_Some (active_users w !! user_id)) then ret tt
   else start_session user_id);;
  if String.eqb text "1. Signup" || String.eqb text "Signup" then
    start_registration user_id
  else if String.eqb text "2. Login" || String.eqb text "Login" then
    prompt_login_username user_id
  else if String.eqb text "Logout" then
    logout user_id
  else
    logged ← is_logged_in user_id;
    if (logged : bool) then
      if String.eqb text "1. Check Balance" || String.eqb text "Check Balance"
      then check_balance user_id
      else if String.eqb text "2. Withdraw Funds"
              || String.eqb text "Withdraw Funds"
      then start_withdrawal user_id
      else if String.eqb text "3. Join Channel" || String.eqb text "Join Channel"
      then join_channel user_id
      else if String.eqb text "4. Update Profile"
              || String.eqb text "Update Profile"
      then start_profile_update user_id
      else if String.eqb text "Back to Main Menu"
      then main_menu user_id
      else handle_dialogue user_id text
    else handle_dialogue user_id text.

(** ** main.py *)

(** What the updater hands to the dispatcher: the command [/start], an
    update that no handler is registered for (any other command, or a
    message that is no text), or a text that is no command. *)
Inductive update : Type :=
  | StartCommand
  | OtherCommand
  | Message (text : string).

(** The two handlers [main] registers: [CommandHandler("start", start)]
    and [MessageHandler(Filters.text & ~Filters.command, handle_message)].
    Nothing else has a handler. *)
Definition dispatch (user_id : Z) (u : update) : M unit :=
  match u with
  | StartCommand => start user_id
  | OtherCommand => ret tt
  | Message text => handle_message user_id text
  end.

(** * The vocabulary of the properties *)

(** [keeps R m]: whatever the outcome, the world after [m] is related
    by [R] to the world before. *)
Definition keeps (R : relation World) {A} (m : M A) : Prop :=
  forall w, R w (snd (m w)).

(** What a read of the sheets leaves alone: everything but the header
    rows, which it may heal, and the fault schedule, which it consumes. *)
Record reads_only (w w' : World) : Prop := mk_reads_only {
  ro_active : active_users w' = active_users w;
  ro_pending : pending_login w' = pending_login w;
  ro_users : users_rows w' = users_rows w;
  ro_payments : payments_rows w' = payments_rows w;
  ro_clock : clock w' = clock w;
  ro_outbox : outbox w' = outbox w
}.

(** What any call of the sheets helper leaves alone: the sessions, the
    login flags, the clock and the replies. *)
Record store_only (w w' : World) : Prop := mk_store_only {
  so_active : active_users w' = active_users w;
  so_pending : pending_login w' = pending_login w;
  so_clock : clock w' = clock w;
  so_outbox : outbox w' = outbox w
}.

(** What a handler that writes no row leaves alone: the rows of both
    sheets. *)
Record rows_kept (w w' : World) : Prop := mk_rows_kept {
  rk_users : users_rows w' = users_rows w;
  rk_payments : payments_rows w' = payments_rows w
}.

(** [total m]: [m] returns, it never raises. *)
Definition total {A} (m : M A) : Prop :=
  forall w, exists a, fst (m w) = Ok a.


(** The username the handlers work with is a function of the world. *)
Definition current_username (user_id : Z) (w : World) : option string :=
  match active_users w !! user_id with
  | Some s => if logged_in s then username s else None
  | None => None
  end.

(** The test of the loop of [find_user_by_username]. *)
Definition row_is (u : option string) (r : list string) : bool :=
  match r, u with
  | cell :: _, Some name => String.eqb cell name
  | _, _ => false
  end.

(** Some row of the table starts with [name]. *)
Definition has_username (name : string) (rows : list (list string)) : Prop :=
  exists row, row ∈ rows /\ head row = Some name.

(** The balance text [get_user_balance] reads from a table. *)
Definition stored_balance (name : option string) (rows : list (list string))
  : string :=
  match find_from name rows 2 with
  | Some (row, _) => default "0" (row !! 7%nat)
  | None => "0"
  end.

(** The labels the router acts on before it looks at any dialogue: the
    welcome labels and the logout for everybody, the main menu for a
    user who is logged in. *)
Definition welcome_keywords : list string :=
  ["1. Signup"; "Signup"; "2. Login"; "Login"; "Logout"].

Definition menu_keywords : list string :=
  ["1. Check Balance"; "Check Balance"; "2. Withdraw Funds"; "Withdraw Funds";
   "3. Join Channel"; "Join Channel"; "4. Update Profile"; "Update Profile";
   "Back to Main Menu"].

Definition intercepted (logged : bool) (text : string) : bool :=
  existsb (String.eqb text) welcome_keywords
  || logged && existsb (String.eqb text) menu_keywords.

(** The session [handle_message] finds for a user, or the one it
    starts. *)
Definition session_or_new (user_id : Z) (w : World) : Session :=
  default new_session (active_users w !! user_id).

(** A sequence of messages of one user, each handled in the world the
    previous one left (an exception ends a turn, not the sequence). *)
Fixpoint after_messages (user_id : Z) (texts : list string) (w : World) : World :=
  match texts with
  | [] => w
  | text :: rest =>
      after_messages user_id rest (snd (handle_message user_id text w))
  end.







(** Messages of several users, in the order the bot receives them. *)
Fixpoint after_turns (turns : list (Z * string)) (w : World) : World :=
  match turns with
  | [] => w
  | (user_id, text) :: rest =>
      after_turns rest (snd (handle_message user_id text w))
  end.

(** ** What a message may change *)

(** A read of the sheets, with the transport taken into account: it is
    [reads_only], and the fault schedule is only consumed. *)
Definition sheet_read (w w' : World) : Prop :=
  reads_only w w' /\ faults w' `suffix_of` faults w.

(** What the session store and the replies do while a message of
    [user_id] is handled: they change the session and the login flag of
    [user_id] and add replies to [user_id]; the sheets, the clock and the
    fault schedule are as they were. *)
Record session_step (user_id : Z) (w w' : World) : Prop := mk_session_step {
  ss_sessions : forall other, other <> user_id ->
    active_users w' !! other = active_users w !! other;
  ss_pending : forall other, other <> user_id ->
    other ∈ pending_login w' <-> other ∈ pending_login w;
  ss_outbox : exists replies,
    outbox w' = (outbox w ++ replies)%list /\
    Forall (fun r => chat r = user_id) replies;
  ss_users_header : users_header w' = users_header w;
  ss_users : users_rows w' = users_rows w;
  ss_payments_header : payments_header w' = payments_header w;
  ss_payments : payments_rows w' = payments_rows w;
  ss_clock : clock w' = clock w;
  ss_faults : faults w' = faults w
}.

(** What a write into the row of a user does: cells behind the first
    of a row change; the sessions, the login flags, the replies, the
    payment rows and the first cells of the user rows are as they were. *)
Record cell_write (w w' : World) : Prop := mk_cell_write {
  cw_store : store_only w w';
  cw_users : head <$> users_rows w' = head <$> users_rows w;
  cw_payments : payments_rows w' = payments_rows w;
  cw_faults : faults w' `suffix_of` faults w
}.

(** The most a message of [user_id] does to the world: besides a
    [session_step], payment rows are appended, user rows are appended or
    rewritten behind their first cell, headers are healed and the fault
    schedule is consumed. *)
Record message_step (user_id : Z) (w w' : World) : Prop := mk_message_step {
  ms_sessions : forall other, other <> user_id ->
    active_users w' !! other = active_users w !! other;
  ms_pending : forall other, other <> user_id ->
    other ∈ pending_login w' <-> other ∈ pending_login w;
  ms_outbox : exists replies,
    outbox w' = (outbox w ++ replies)%list /\
    Forall (fun r => chat r = user_id) replies;
  ms_users : (head <$> users_rows w) `prefix_of` (head <$> users_rows w');
  ms_payments : payments_rows w `prefix_of` payments_rows w';
  ms_clock : clock w' = clock w;
  ms_faults : faults w' `suffix_of` faults w
}.

(** No two rows of the table start with the same username. *)
Definition unique_usernames (rows : list (list string)) : Prop :=
  forall i j ri rj name,
    rows !! i = Some ri -> rows !! j = Some rj ->
    head ri = Some name -> head rj = Some name -> i = j.

(** With a transport that answers, a message keeps the usernames of the
    table unique (and the transport goes on answering). *)
Definition uniqueness_kept (w w' : World) : Prop :=
  faults w = [] ->
  faults w' = [] /\
  (unique_usernames (users_rows w) -> unique_usernames (users_rows w')).

(** A run of the bot: the updates of several users, in the order they
    arrive, each dispatched in the world the previous one left (an
    exception ends the handling of an update, not the run). *)
Fixpoint after_updates (updates : list (Z * update)) (w : World) : World :=
  match updates with
  | [] => w
  | (user_id, u) :: rest => after_updates rest (snd (dispatch user_id u w))
  end.

(** ** The decision of the router *)

(** The handlers [handle_message] chooses between. *)
Inductive route : Type :=
  | ToStartRegistration
  | ToPromptLogin
  | ToLogout
  | ToCheckBalance
  | ToStartWithdrawal
  | ToJoinChannel
  | ToStartProfileUpdate
  | ToMainMenu
  | ToRegistration (state : string)
  | ToProcessLogin
  | ToWithdrawal (state : string)
  | ToProfileUpdate (state : string)
  | ToDefaultReply.

(** The main-menu labels, which the router knows for a user who is
    logged in. *)
Definition menu_route (text : string) : option route :=
  if String.eqb text "1. Check Balance" || String.eqb text "Check Balance"
  then Some ToCheckBalance
  else if String.eqb text "2. Withdraw Funds" || String.eqb text "Withdraw Funds"
  then Some ToStartWithdrawal
  else if String.eqb text "3. Join Channel" || String.eqb text "Join Channel"
  then Some ToJoinChannel
  else if String.eqb text "4. Update Profile" || String.eqb text "Update Profile"
  then Some ToStartProfileUpdate
  else if String.eqb text "Back to Main Menu"
  then Some ToMainMenu
  else None.

(** The route of a text, for the session of the sender and the login
    flag of the sender: the welcome labels and the logout first, then
    the main menu for a user who is logged in, then the registration
    dialogue, the pending login, the withdrawal dialogue and the profile
    dialogue. *)
Definition route_of (text : string) (s : Session) (pending : bool) : route :=
  if String.eqb text "1. Signup" || String.eqb text "Signup"
  then ToStartRegistration
  else if String.eqb text "2. Login" || String.eqb text "Login"
  then ToPromptLogin
  else if String.eqb text "Logout"
  then ToLogout
  else
    match (if logged_in s then menu_route text else None) with
    | Some r => r
    | None =>
        match if_truthy (registration_state s) with
        | Some state => ToRegistration state
        | None =>
            if negb (logged_in s) && pending then ToProcessLogin
            else
              match if_truthy (withdraw_state s) with
              | Some state => ToWithdrawal state
              | None =>
                  match if_truthy (update_profile_state s) with
                  | Some state => ToProfileUpdate state
                  | None => ToDefaultReply
                  end
              end
        end
    end.

(** The reply to a text that no handler takes. *)
Definition default_reply (user_id : Z) : M unit :=
  logged ← is_logged_in user_id;
  reply_text user_id "I didn't understand that. Please use the menu options."
    (if negb logged then get_welcome_keyboard else get_main_menu_keyboard).

Definition run_route (user_id : Z) (text : string) (r : route) : M unit :=
  match r with
  | ToStartRegistration => start_registration user_id
  | ToPromptLogin => prompt_login_username user_id
  | ToLogout => logout user_id
  | ToCheckBalance => check_balance user_id
  | ToStartWithdrawal => start_withdrawal user_id
  | ToJoinChannel => join_channel user_id
  | ToStartProfileUpdate => start_profile_update user_id
  | ToMainMenu => main_menu user_id
  | ToRegistration state => handle_registration user_id text state
  | ToProcessLogin => process_login user_id text
  | ToWithdrawal state => handle_withdrawal user_id text state
  | ToProfileUpdate state => handle_profile_update user_id text state
  | ToDefaultReply => default_reply user_id
  end.

(** The world once [handle_message] has made sure that the sender has
    a session. *)
Definition with_session (user_id : Z) (w : World) : World :=
  match active_users w !! user_id with
  | Some _ => w
  | None => put_session user_id new_session w
  end.

(** ** The payment row *)

(** The two identifier cells of the payment row of a withdrawal: what
    the withdrawal answers of the session hold for the payment mode when
    that is complete, and the cells of the profile row otherwise. *)
Definition payment_identifiers (payment_mode : pyval) (data : gmap string pyval)
    (row : list string) : pyval * pyval :=
  if is_str payment_mode "UPI" then
    let upi_id := default (PyStr "") (data !! "upi_id") in
    (if negb (truthy upi_id) then of_opt (row !! 4%nat) else upi_id, PyStr "")
  else
    let bank_account := default (PyStr "") (data !! "bank_account") in
    let ifsc_code := default (PyStr "") (data !! "ifsc_code") in
    if negb (truthy bank_account) || negb (truthy ifsc_code)
    then (of_opt (row !! 5%nat), of_opt (row !! 6%nat))
    else (bank_account, ifsc_code).

(** The reply to a withdrawal that went through. *)
Definition payment_received (amount : string) : string :=
  "Your payment request for ₹" +:+ amount +:+
  " has been received. It will be processed on " +:+
  DEFAULT_PAYMENT_DATE +:+ "." +:+ nl +:+ nl +:+
  "Please forward a screenshot of this chat to @" +:+
  INVOICE_BOT_USERNAME +:+ " for reference.".

(** ** The states of the dialogues *)

(** The names the handlers test the three dialogue states against. *)
Definition registration_states : list string :=
  ["awaiting_username"; "awaiting_first_name"; "awaiting_last_name";
   "awaiting_payment_mode"; "awaiting_upi_id"; "awaiting_bank_account";
   "awaiting_ifsc_code"; "awaiting_confirmation"].

Definition withdraw_states : list string :=
  ["awaiting_amount"; "awaiting_payment_mode_confirmation";
   "awaiting_new_payment_mode"; "awaiting_upi_id"; "awaiting_bank_account";
   "awaiting_ifsc_code"].

Definition profile_states : list string :=
  ["selecting_field"; "updating_payment_mode"; "updating_field"].

(** A state is [None] or one of the names. *)
Definition known_state (names : list string) (state : option string) : Prop :=
  match state with
  | Some name => name ∈ names
  | None => True
  end.

Definition known_states (s : Session) : Prop :=
  known_state registration_states (registration_state s) /\
  known_state withdraw_states (withdraw_state s) /\
  known_state profile_states (update_profile_state s).

(** Every session of the store has known states. *)
Definition all_known (w : World) : Prop :=
  forall user_id s, active_users w !! user_id = Some s -> known_states s.

(** ** Replies *)

(** A step that sends nothing. *)
Definition outbox_kept (w w' : World) : Prop := outbox w' = outbox w.

(** [answers_once user_id m]: when [m] returns it has sent exactly one
    reply, to [user_id]; when it raises it has sent none. *)
Definition answers_once (user_id : Z) {A} (m : M A) : Prop :=
  forall w,
    match m w with
    | (Ok _, w') =>
        exists r, outbox w' = (outbox w ++ [r])%list /\ chat r = user_id
    | (Raise _, w') => outbox w' = outbox w
    end.

(** The sessions of all users are as they were. *)
Definition sessions_kept (w w' : World) : Prop := active_users w' = active_users w.

(** If the session of [user_id] had known states (or was missing), it
    has known states (or is missing) afterwards. *)
Definition states_kept (user_id : Z) (w w' : World) : Prop :=
  (forall s, active_users w !! user_id = Some s -> known_states s) ->
  forall s', active_users w' !! user_id = Some s' -> known_states s'.

(** ** Handlers that return *)

(** [returns user_id m]: on a world where [user_id] has a session and
    the given login flags are set, [m] returns, [user_id] still has a
    session and the flags are still set. *)
Definition returns (user_id : Z) (flags : gset Z) {A} (m : M A) : Prop :=
  forall w,
    is_Some (active_users w !! user_id) -> flags ⊆ pending_login w ->
    exists a, fst (m w) = Ok a /\
              is_Some (active_users (snd (m w)) !! user_id) /\
              flags ⊆ pending_login (snd (m w)).

(** What a sender who is not logged in can do to the sheets: append
    user rows. *)
Record guest_step (w w' : World) : Prop := mk_guest_step {
  gs_users : users_rows w `prefix_of` users_rows w';
  gs_payments : payments_rows w' = payments_rows w
}.

(** * The worlds of the examples *)

Definition alice_row (balance : string) : list string :=
  ["alice"; "Alice"; "Lee"; "UPI"; "alice@upi"; ""; ""; balance].

(** A session logged in as alice, with the given dialogue states. *)
Definition alice_session (withdraw update : option string)
    (scratch : gmap string pyval) : Session :=
  {| username := Some "alice"; logged_in := true;
     registration_state := None; registration_data := ∅;
     withdraw_state := withdraw; withdraw_data := scratch;
     update_profile_state := update; update_field := None |}.

(** A world with one session, of user 1, and a transport that answers. *)
Definition world_with (s : Session) (rows : list (list string)) : World :=
  {| active_users := {[1 := s]}; pending_login := ∅;
     users_header := USER_HEADERS; users_rows := rows;
     payments_header := PAYMENT_HEADERS; payments_rows := [];
     clock := "2024-05-01 10:00:00"; faults := []; outbox := [] |}.

(** Alice is registered with a balance of 100; nobody has written to
    the bot yet. *)
Definition registered_world : World :=
  {| active_users := ∅; pending_login := ∅;
     users_header := USER_HEADERS; users_rows := [alice_row "100"];
     payments_header := PAYMENT_HEADERS; payments_rows := [];
     clock := "2024-05-01 10:00:00"; faults := []; outbox := [] |}.

Definition awaiting_amount_world (balance : string) : World :=
  world_with (alice_session (Some "awaiting_amount") None ∅) [alice_row balance].

(** The commit of the example of the specification: balance "100",
    withdrawal of 30. *)
Definition commit_world : World :=
  world_with
    (alice_session (Some "awaiting_payment_mode_confirmation") None
       {["amount" := PyFloat 30%float]})
    [alice_row "100"].

(** The end-to-end scenario of the specification. *)
Definition fresh_world : World :=
  {| active_users := ∅; pending_login := ∅;
     users_header := []; users_rows := [];
     payments_header := []; payments_rows := [];
     clock := "2024-05-01 10:00:00"; faults := []; outbox := [] |}.


(** A registration that waits for its confirmation, with the answers
    collected so far. *)
Definition bob_data : gmap string string :=
  <["username" := "bob"]> (<["first_name" := "Bob"]> (<["last_name" := "Ray"]>
  (<["payment_mode" := "UPI"]> (<["upi_id" := "bob@upi"]> ∅)))).

Definition bob_confirming : Session :=
  {| username := None; logged_in := false;
     registration_state := Some "awaiting_confirmation";
     registration_data := bob_data;
     withdraw_state := None; withdraw_data := ∅;
     update_profile_state := None; update_field := None |}.


(** A user in the profile dialogue, and a user without a session. *)
Definition profile_world : World :=
  world_with (alice_session None (Some "selecting_field") ∅) [alice_row "100"].

(** Bob has a row too, and confirms a registration under his username
    all the same. *)
Definition bob_row : list string :=
  ["bob"; "Bob"; "Ray"; "UPI"; "bob@upi"; ""; ""; "0"].

Definition taken_world : World :=
  world_with bob_confirming [alice_row "100"; bob_row].

(** Alice is registered, and the transport answers two calls, fails the
    third and answers from then on. *)
Definition flaky_world : World :=
  {| active_users := ∅; pending_login := ∅;
     users_header := USER_HEADERS; users_rows := [alice_row "100"];
     payments_header := PAYMENT_HEADERS; payments_rows := [];
     clock := "2024-05-01 10:00:00";
     faults := [None; None; Some "timeout"]; outbox := [] |}.

(** The commit of [commit_world], on a balance cell that is no number. *)
Definition unreadable_commit_world : World :=
  world_with
    (alice_session (Some "awaiting_payment_mode_confirmation") None
       {["amount" := PyFloat 30%float]})
    [alice_row "n/a"].

(** [sample_float], which reads the text "nan" as [float] does. *)
Definition sample_float_nan (s : string) : option float :=
  if String.eqb (lower s) "nan" then Some nan else sample_float s.

(** A second user starts the bot, logs in as alice and asks for the
    balance. *)
Definition second_user_run : list (Z * update) :=
  [(2, StartCommand); (2, Message "Login"); (2, Message "alice");
   (2, Message "Check Balance")].

(** The commit of [commit_world] with a transport that answers five
    calls (the reads of the payment details, the header read and the
    append of the payment row, the header read of the balance), fails
    the sixth (the read of the rows for the balance) and answers from
    then on. *)
Definition failed_read_commit_world : World :=
  set_faults [None; None; None; None; None; Some "timeout"] commit_world.

(** A commit on a balance of "0.3", for the amount that [float] reads
    from "0.1". *)
Definition fraction_commit_world : World :=
  world_with
    (alice_session (Some "awaiting_payment_mode_confirmation") None
       {["amount" := PyFloat (default 0%float (sample_float "0.1"))]})
    [alice_row "0.3"].

(** Alice has a balance of 20 and is asked for an amount; the header
    read is answered and the read of the rows fails. *)
Definition failed_read_amount_world : World :=
  set_faults [None; Some "timeout"] (awaiting_amount_world "20").

(** User 1 is asked for a username while alice is registered; the
    header read is answered and the read of the rows fails. *)
Definition unreadable_table_world : World :=
  set_faults [None; Some "timeout"]
    (world_with (with_registration_state (Some "awaiting_username") new_session)
       [alice_row "100"]).

(** * Properties *)

(** ** Running the monad *)

Lemma bind_run {A B} (m : M A) (k : A -> M B) w a :
  fst (m w) = Ok a -> (m ≫= k) w = k a (snd (m w)).
Proof.
  unfold mbind, M_bind, bind. destruct (m w) as [[b|e] w']; cbn; congruence.
Qed.

Lemma bind_raises {A B} (m : M A) (k : A -> M B) w e :
  fst (m w) = Raise e -> (m ≫= k) w = (Raise e, snd (m w)).
Proof.
  unfold mbind, M_bind, bind. destruct (m w) as [[b|e'] w']; cbn; congruence.
Qed.

Lemma bind_ret {A B} (a : A) (k : A -> M B) w : (ret a ≫= k) w = k a w.
Proof. reflexivity. Qed.

Lemma bind_get_world {B} (k : World -> M B) w : (get_world ≫= k) w = k w w.
Proof. reflexivity. Qed.

Lemma bind_modify {B} (f : World -> World) (k : unit -> M B) w :
  (modify f ≫= k) w = k tt (f w).
Proof. reflexivity. Qed.

Lemma bind_assoc {A B C} (m : M A) (k : A -> M B) (h : B -> M C) w :
  ((m ≫= k) ≫= h) w = (m ≫= (fun a => k a ≫= h)) w.
Proof.
  unfold mbind, M_bind, bind. destruct (m w) as [[a|e] w']; reflexivity.
Qed.

(** ** What a computation leaves alone *)

Section Keeps.

Context (R : relation World) `{!PreOrder R}.

Lemma keeps_ret {A} (a : A) : keeps R (ret a).
Proof. intros w. reflexivity. Qed.

Lemma keeps_raise {A} e : keeps R (raise e : M A).
Proof. intros w. reflexivity. Qed.

Lemma keeps_get_world : keeps R get_world.
Proof. intros w. reflexivity. Qed.

Lemma keeps_modify f : (forall w, R w (f w)) -> keeps R (modify f).
Proof. intros H w. apply H. Qed.

Lemma keeps_bind {A B} (m : M A) (k : A -> M B) :
  keeps R m -> (forall a, keeps R (k a)) -> keeps R (m ≫= k).
Proof.
  intros Hm Hk w. specialize (Hm w).
  unfold mbind, M_bind, bind. destruct (m w) as [[a|e] w']; cbn in *.
  - etransitivity; [exact Hm | apply Hk].
  - exact Hm.
Qed.

Lemma keeps_try_except {A} (m : M A) h :
  keeps R m -> (forall e, keeps R (h e)) -> keeps R (try_except m h).
Proof.
  intros Hm Hh w. specialize (Hm w).
  unfold try_except. destruct (m w) as [[a|e] w']; cbn in *.
  - exact Hm.
  - etransitivity; [exact Hm | apply Hh].
Qed.

Lemma keeps_try_except_ValueError {A} (m h : M A) :
  keeps R m -> keeps R h -> keeps R (try_except_ValueError m h).
Proof.
  intros Hm Hh w. specialize (Hm w).
  unfold try_except_ValueError. destruct (m w) as [[a|[]] w']; cbn in *;
    try exact Hm.
  etransitivity; [exact Hm | apply Hh].
Qed.

End Keeps.

#[local] Instance reads_only_preorder : PreOrder reads_only.
Proof.
  split.
  - intros w. now constructor.
  - intros w1 w2 w3 [] []. constructor; etransitivity; eassumption.
Qed.

#[local] Instance store_only_preorder : PreOrder store_only.
Proof.
  split.
  - intros w. now constructor.
  - intros w1 w2 w3 [] []. constructor; etransitivity; eassumption.
Qed.

Lemma reads_only_store_only w w' : reads_only w w' -> store_only w w'.
Proof. intros []. now constructor. Qed.

#[local] Instance rows_kept_preorder : PreOrder rows_kept.
Proof.
  split.
  - intros w. now constructor.
  - intros w1 w2 w3 [] []. constructor; etransitivity; eassumption.
Qed.

Create HintDb keeps.

(** Breaks a goal [keeps R m] down along the structure of [m]. *)
Ltac keeps_step :=
  first
    [ solve [auto with keeps nocore]
    | apply keeps_ret | apply keeps_raise | apply keeps_get_world
    | apply keeps_bind | apply keeps_try_except_ValueError
    | apply keeps_try_except
    | progress intros
    | match goal with
      | |- PreOrder _ => exact _
      | |- keeps _ (if ?x then _ else _) => destruct x
      | |- keeps _ (match ?x with _ => _ end) => destruct x
      | |- keeps _ (let '(_, _) := ?x in _) => destruct x
      end ].

Ltac keeps_auto := repeat keeps_step; eauto with keeps.

Lemma execute_reads : keeps reads_only execute.
Proof.
  intros w. unfold execute. destruct (faults w) as [|[msg|] rest];
    now constructor.
Qed.

Lemma execute_ok w : faults w = [] -> execute w = (Ok tt, w).
Proof. intros H. unfold execute. now rewrite H. Qed.

#[local] Hint Resolve execute_reads : keeps.

Lemma keeps_weaken (R S : relation World) {A} (m : M A) :
  (forall w w', R w w' -> S w w') -> keeps R m -> keeps S m.
Proof. intros H Hm w. apply H, Hm. Qed.

Lemma reads_keeps_store {A} (m : M A) : keeps reads_only m -> keeps store_only m.
Proof. apply keeps_weaken, reads_only_store_only. Qed.

Lemma reads_keeps_rows {A} (m : M A) : keeps reads_only m -> keeps rows_kept m.
Proof. apply keeps_weaken. intros w w' []. now constructor. Qed.

Lemma values_get_header_reads sh : keeps reads_only (values_get_header sh).
Proof. unfold values_get_header. keeps_auto. Qed.

Lemma values_update_header_reads sh h :
  keeps reads_only (values_update_header sh h).
Proof.
  unfold values_update_header. keeps_auto.
  apply keeps_modify. intros w. destruct sh; now constructor.
Qed.

#[local] Hint Resolve values_get_header_reads values_update_header_reads : keeps.

Lemma ensure_headers_reads sh h : keeps reads_only (ensure_headers sh h).
Proof. unfold ensure_headers. keeps_auto. Qed.

#[local] Hint Resolve ensure_headers_reads : keeps.

Lemma values_get_users_reads : keeps reads_only values_get_users.
Proof. unfold values_get_users. keeps_auto. Qed.

#[local] Hint Resolve values_get_users_reads : keeps.

Lemma get_all_users_reads : keeps reads_only get_all_users.
Proof. unfold get_all_users. keeps_auto. Qed.

#[local] Hint Resolve get_all_users_reads : keeps.

Lemma find_user_by_username_reads u :
  keeps reads_only (find_user_by_username u).
Proof. unfold find_user_by_username. keeps_auto. Qed.

#[local] Hint Resolve find_user_by_username_reads : keeps.

Lemma get_user_balance_reads u : keeps reads_only (get_user_balance u).
Proof. unfold get_user_balance. keeps_auto. Qed.

Lemma get_user_payment_info_reads u :
  keeps reads_only (get_user_payment_info u).
Proof. unfold get_user_payment_info. keeps_auto. Qed.

#[local] Hint Resolve get_user_balance_reads get_user_payment_info_reads : keeps.

(** *** With a transport that answers *)

Lemma values_get_header_ok sh w :
  faults w = [] ->
  values_get_header sh w =
    (Ok (match header_of sh w with [] => [] | h => [h] end), w).
Proof.
  intros H. unfold values_get_header.
  rewrite bind_run with (a := tt) by now rewrite execute_ok.
  now rewrite execute_ok.
Qed.

Lemma ensure_headers_ok sh h w :
  faults w = [] ->
  fst (ensure_headers sh h w) = Ok true /\ faults (snd (ensure_headers sh h w)) = [].
Proof.
  intros H. unfold ensure_headers, try_except.
  rewrite bind_run with (a := match header_of sh w with [] => [] | h => [h] end)
    by now rewrite values_get_header_ok.
  rewrite values_get_header_ok by assumption. cbn [snd].
  assert (U : values_update_header sh h w
              = (Ok tt, set_header sh (h ++ drop (length h) (header_of sh w))%list w)).
  { unfold values_update_header.
    rewrite bind_run with (a := tt) by now rewrite execute_ok.
    now rewrite execute_ok. }
  assert (F : faults (set_header sh (h ++ drop (length h) (header_of sh w))%list w) = []).
  { destruct sh; exact H. }
  destruct (header_of sh w) as [|c hd] eqn:E.
  - rewrite bind_run with (a := tt) by now rewrite U.
    rewrite U. cbn. auto.
  - destruct (bool_decide (c :: hd = h)).
    + cbn. auto.
    + rewrite bind_run with (a := tt) by now rewrite U.
      rewrite U. cbn. auto.
Qed.

Lemma get_all_users_ok w :
  faults w = [] ->
  fst (get_all_users w) = Ok (users_rows w) /\ faults (snd (get_all_users w)) = [].
Proof.
  intros H. unfold get_all_users, try_except.
  destruct (ensure_headers_ok UsersSheet USER_HEADERS w H) as [E F].
  pose proof (ensure_headers_reads UsersSheet USER_HEADERS w) as RO.
  rewrite bind_run with (a := true) by assumption.
  unfold values_get_users.
  rewrite bind_run with (a := tt) by now rewrite execute_ok.
  rewrite execute_ok by assumption. cbn [snd].
  rewrite bind_get_world. cbn.
  split; [|assumption]. f_equal. apply RO.
Qed.

Lemma find_user_by_username_ok u w :
  faults w = [] ->
  fst (find_user_by_username u w) = Ok (find_from u (users_rows w) 2) /\
  faults (snd (find_user_by_username u w)) = [].
Proof.
  intros H. unfold find_user_by_username.
  destruct (get_all_users_ok w H) as [E F].
  rewrite bind_run with (a := users_rows w) by assumption.
  cbn. auto.
Qed.

(** ** The session store on a known session *)

Section KnownSession.

Context (user_id : Z) (s : Session) (w : World).
Hypothesis Hs : active_users w !! user_id = Some s.

Lemma run_update_session {B} f (k : unit -> M B) :
  (update_session user_id f ≫= k) w = k tt (put_session user_id (f s) w).
Proof. unfold update_session. rewrite bind_modify. now rewrite Hs. Qed.

Lemma run_session_of {B} (k : Session -> M B) :
  (session_of user_id ≫= k) w = k s w.
Proof.
  unfold session_of. rewrite bind_assoc, bind_get_world.
  now rewrite Hs.
Qed.

Lemma run_assign_session {B} f (k : unit -> M B) :
  (assign_session user_id f ≫= k) w = k tt (put_session user_id (f s) w).
Proof.
  unfold assign_session. rewrite bind_assoc, run_session_of.
  now rewrite bind_modify.
Qed.

Lemma run_is_logged_in {B} (k : bool -> M B) :
  (is_logged_in user_id ≫= k) w = k (logged_in s) w.
Proof.
  unfold is_logged_in. rewrite bind_assoc, bind_get_world. now rewrite Hs.
Qed.

Lemma run_get_username {B} (k : option string -> M B) :
  (get_username user_id ≫= k) w
  = k (if logged_in s then username s else None) w.
Proof.
  unfold get_username. rewrite bind_assoc, run_is_logged_in.
  destruct (logged_in s).
  - now rewrite bind_assoc, run_session_of.
  - reflexivity.
Qed.

Lemma run_get_registration_state {B} (k : option string -> M B) :
  (get_registration_state user_id ≫= k) w = k (registration_state s) w.
Proof.
  unfold get_registration_state. rewrite bind_assoc, bind_get_world.
  now rewrite Hs.
Qed.

Lemma run_get_registration_data {B} (k : gmap string string -> M B) :
  (get_registration_data user_id ≫= k) w = k (registration_data s) w.
Proof.
  unfold get_registration_data. rewrite bind_assoc, bind_get_world.
  now rewrite Hs.
Qed.

Lemma run_get_withdraw_state {B} (k : option string -> M B) :
  (get_withdraw_state user_id ≫= k) w = k (withdraw_state s) w.
Proof.
  unfold get_withdraw_state. rewrite bind_assoc, bind_get_world.
  now rewrite Hs.
Qed.

Lemma run_get_withdraw_data {B} (k : gmap string pyval -> M B) :
  (get_withdraw_data user_id ≫= k) w = k (withdraw_data s) w.
Proof.
  unfold get_withdraw_data. rewrite bind_assoc, bind_get_world.
  now rewrite Hs.
Qed.

Lemma run_get_update_profile_state {B} (k : option string -> M B) :
  (get_update_profile_state user_id ≫= k) w = k (update_profile_state s) w.
Proof.
  unfold get_update_profile_state. rewrite bind_assoc, bind_get_world.
  now rewrite Hs.
Qed.

Lemma run_get_update_field {B} (k : option string -> M B) :
  (get_update_field user_id ≫= k) w = k (update_field s) w.
Proof.
  unfold get_update_field. rewrite bind_assoc, bind_get_world.
  now rewrite Hs.
Qed.

End KnownSession.

Lemma lookup_put_session user_id s w :
  active_users (put_session user_id s w) !! user_id = Some s.
Proof. cbn. apply lookup_insert_eq. Qed.

Lemma lookup_send user_id s r w :
  active_users w !! user_id = Some s ->
  active_users (send r w) !! user_id = Some s.
Proof. intros H. exact H. Qed.

Lemma run_reply_text {B} user_id text m (k : unit -> M B) w :
  (reply_text user_id text m ≫= k) w = k tt (send (mkReply user_id text m) w).
Proof. reflexivity. Qed.

Lemma get_username_run user_id w :
  get_username user_id w = (Ok (current_username user_id w), w).
Proof.
  unfold get_username, is_logged_in, session_of, current_username.
  unfold mbind, M_bind, bind, get_world, ret. cbn.
  destruct (active_users w !! user_id) as [s|] eqn:E; cbn; [|reflexivity].
  destruct (logged_in s); cbn; [|reflexivity]. now rewrite E.
Qed.

Lemma run_get_username_any {B} user_id (k : option string -> M B) w :
  (get_username user_id ≫= k) w = k (current_username user_id w) w.
Proof.
  rewrite bind_run with (a := current_username user_id w);
    now rewrite get_username_run.
Qed.

(** ** An amount that is not a positive number *)


(** ** Computations that do not raise *)

Lemma total_ret {A} (a : A) : total (ret a).
Proof. intros w. now exists a. Qed.

Lemma total_bind {A B} (m : M A) (k : A -> M B) :
  total m -> (forall a, total (k a)) -> total (m ≫= k).
Proof.
  intros Hm Hk w. destruct (Hm w) as [a Ha].
  rewrite (bind_run _ _ _ _ Ha). apply Hk.
Qed.

Lemma total_try_except {A} (m : M A) h :
  (forall e, total (h e)) -> total (try_except m h).
Proof.
  intros Hh w. unfold try_except. destruct (m w) as [[a|e] w'].
  - now exists a.
  - apply Hh.
Qed.

Lemma total_modify f : total (modify f).
Proof. intros w. now exists tt. Qed.

Lemma get_all_users_total : total get_all_users.
Proof. apply total_try_except. intros _. apply total_ret. Qed.

Lemma find_user_by_username_total u : total (find_user_by_username u).
Proof.
  apply total_bind; [apply get_all_users_total|]. intros a. apply total_ret.
Qed.

Lemma get_user_balance_total u : total (get_user_balance u).
Proof.
  apply total_bind; [apply find_user_by_username_total|].
  intros [[row i]|]; [destruct (row !! 7%nat)|]; apply total_ret.
Qed.

Lemma check_balance_total user_id : total (check_balance user_id).
Proof.
  intros w. unfold check_balance. rewrite run_get_username_any.
  destruct (negb _).
  - now exists tt.
  - apply total_bind; [apply get_user_balance_total|].
    intros b. apply total_modify.
Qed.

Lemma check_balance_sessions user_id w :
  active_users (snd (check_balance user_id w)) = active_users w.
Proof.
  unfold check_balance. rewrite run_get_username_any.
  destruct (negb _); [reflexivity|].
  destruct (get_user_balance_total (current_username user_id w) w) as [b Hb].
  rewrite (bind_run _ _ _ _ Hb). cbn.
  apply (ro_active _ _ (get_user_balance_reads _ w)).
Qed.

(** ** The router *)

(** C8.  A logged-in session in the middle of a withdrawal that sends
    "Check Balance" (or the numbered label) gets the balance handler:
    the message is handled exactly as [check_balance] handles it, which
    returns normally and leaves every session as it was, so
    [withdraw_state] is still [awaiting_amount]. *)
Theorem check_balance_preempts_withdrawal (user_id : Z) (text : string)
    (s : Session) (w : World) :
  active_users w !! user_id = Some s ->
  logged_in s = true ->
  withdraw_state s = Some "awaiting_amount" ->
  text = "Check Balance" \/ text = "1. Check Balance" ->
  handle_message user_id text w = check_balance user_id w /\
  fst (handle_message user_id text w) = Ok tt /\
  active_users (snd (handle_message user_id text w)) = active_users w /\
  exists s', active_users (snd (handle_message user_id text w)) !! user_id = Some s' /\
             withdraw_state s' = Some "awaiting_amount".
Proof.
  intros Hs Hlog Hst Htext.
  assert (E : handle_message user_id text w = check_balance user_id w).
  { unfold handle_message. rewrite bind_get_world.
    rewrite Hs. rewrite bool_decide_eq_true_2 by eauto.
    rewrite bind_ret.
    destruct Htext; subst text; cbn [String.eqb Ascii.eqb Bool.eqb orb];
      rewrite (run_is_logged_in _ _ _ Hs), Hlog; reflexivity. }
  rewrite E. split; [reflexivity|].
  destruct (check_balance_total user_id w) as [[] Ht].
  rewrite check_balance_sessions. repeat split; eauto.
Qed.

(** ** Usernames in the Users table *)

Lemma find_from_None name rows i :
  find_from (Some name) rows i = None <-> ~ has_username name rows.
Proof.
  revert i. induction rows as [|row rows IH]; intros i; cbn.
  - split; [|reflexivity]. intros _ (row & Hin & _). inversion Hin.
  - destruct row as [|cell row].
    + rewrite IH. split; intros H (r & Hin & Hr); apply H.
      * inversion Hin; subst; [discriminate|]. now exists r.
      * exists r. split; [now right | assumption].
    + destruct (String.eqb_spec cell name) as [->|Hne].
      * split; [discriminate|]. intros H. exfalso. apply H.
        eexists. split; [left|]. reflexivity.
      * rewrite IH. split; intros H (r & Hin & Hr); apply H.
        -- inversion Hin; subst; [cbn in Hr; congruence|]. now exists r.
        -- exists r. split; [now right | assumption].
Qed.

Lemma find_from_Some name rows i :
  has_username name rows ->
  exists row j, find_from (Some name) rows i = Some (row, j) /\
                row ∈ rows /\ head row = Some name.
Proof.
  revert i. induction rows as [|row rows IH]; intros i (r & Hin & Hr).
  - inversion Hin.
  - cbn. destruct row as [|cell row].
    + destruct (IH (S i)) as (r' & j & E & Hin' & Hr').
      { inversion Hin; subst; [discriminate|]. now exists r. }
      exists r', j. split; [assumption|]. split; [now right | assumption].
    + destruct (String.eqb_spec cell name) as [->|Hne].
      * eexists _, _. split; [reflexivity|]. split; [left|reflexivity].
      * destruct (IH (S i)) as (r' & j & E & Hin' & Hr').
        { inversion Hin; subst; [cbn in Hr; congruence|]. now exists r. }
        exists r', j. split; [assumption|]. split; [now right | assumption].
Qed.

(** ** Registration *)

(** C6, as the code has it.  In state [awaiting_username], with the
    Users sheet readable (every remote call answered), a username that
    some row of the table already carries is refused: the
    handler only sends the prompt for another username.  No row is
    appended to the Users table, and the sessions are as they were, so
    the registration state is still [awaiting_username]. *)
Theorem duplicate_username_reprompts (user_id : Z) (text : string)
    (s : Session) (w : World) :
  active_users w !! user_id = Some s ->
  registration_state s = Some "awaiting_username" ->
  faults w = [] ->
  has_username text (users_rows w) ->
  exists w',
    handle_registration user_id text "awaiting_username" w = (Ok tt, w') /\
    users_rows w' = users_rows w /\
    active_users w' = active_users w /\
    (exists s', active_users w' !! user_id = Some s' /\
                registration_state s' = Some "awaiting_username") /\
    outbox w' =
      (outbox w ++
       [mkReply user_id
          "This username already exists. Please choose another username:"
          NoMarkup])%list.
Proof.
  intros Hs Hst Hf Hdup. unfold handle_registration.
  cbn [String.eqb Ascii.eqb Bool.eqb].
  destruct (find_user_by_username_ok (Some text) w Hf) as [E F].
  destruct (find_from_Some text (users_rows w) 2 Hdup) as (row & j & Hfind & _).
  rewrite Hfind in E.
  rewrite (bind_run _ _ _ _ E).
  pose proof (find_user_by_username_reads (Some text) w) as RO.
  eexists. split; [reflexivity|]. cbn.
  rewrite (ro_users _ _ RO), (ro_active _ _ RO), (ro_outbox _ _ RO).
  repeat split; eauto.
Qed.

(** What a registration commit can do to the Users table, whatever
    the transport does: nothing, or append the row built from the
    answers in the session. *)
Lemma values_append_users_rows row w :
  store_only w (snd (values_append_users row w)) /\
  (users_rows (snd (values_append_users row w)) = users_rows w \/
   users_rows (snd (values_append_users row w)) = (users_rows w ++ [row])%list).
Proof.
  unfold values_append_users, execute, mbind, M_bind, bind, modify.
  destruct (faults w) as [|[msg|] rest]; cbn; (split; [now constructor|]); auto.
Qed.

Lemma sheets_register_user_rows row w :
  store_only w (snd (sheets_register_user row w)) /\
  (users_rows (snd (sheets_register_user row w)) = users_rows w \/
   users_rows (snd (sheets_register_user row w)) = (users_rows w ++ [row])%list).
Proof.
  pose proof (ensure_headers_reads UsersSheet USER_HEADERS w) as R1.
  unfold sheets_register_user, try_except, mbind, M_bind, bind.
  destruct (ensure_headers UsersSheet USER_HEADERS w) as [[b|e] w1]; cbn in R1.
  2: { cbn. split; [now apply reads_only_store_only | left; apply R1]. }
  destruct row as [|name row].
  { cbn. split; [now apply reads_only_store_only | left; apply R1]. }
  cbn [ret].
  pose proof (find_user_by_username_reads (Some name) w1) as R2.
  destruct (find_user_by_username (Some name) w1) as [[found|e] w2]; cbn in R2.
  2: { cbn. assert (R : reads_only w w2) by (etransitivity; eassumption).
       split; [now apply reads_only_store_only | left; apply R]. }
  assert (R : reads_only w w2) by (etransitivity; eassumption).
  destruct found as [?|].
  { cbn. split; [now apply reads_only_store_only | left; apply R]. }
  destruct (values_append_users_rows (name :: row) w2) as [S3 H3].
  destruct (values_append_users (name :: row) w2) as [[[]|e] w3]; cbn in *.
  - split; [etransitivity; [apply reads_only_store_only|]; eassumption|].
    rewrite <- (ro_users _ _ R). exact H3.
  - split; [etransitivity; [apply reads_only_store_only|]; eassumption|].
    rewrite <- (ro_users _ _ R). exact H3.
Qed.

Lemma register_user_rows user_id w :
  users_rows (snd (register_user user_id w)) = users_rows w \/
  exists s,
    active_users w !! user_id = Some s /\
    users_rows (snd (register_user user_id w))
    = (users_rows w ++ [user_row_of (registration_data s)])%list.
Proof.
  unfold register_user, session_of. rewrite bind_assoc, bind_get_world.
  destruct (active_users w !! user_id) as [s|] eqn:Hs; [|now left].
  rewrite bind_ret.
  destruct (sheets_register_user_rows (user_row_of (registration_data s)) w)
    as [SO H].
  assert (G : forall w1 (r : bool * string),
            users_rows
              (snd ((let '(success, message) := r in
                     (if success then
                        assign_session user_id
                          (with_username
                             (Some (get_or_empty (registration_data s) "username")));;
                        assign_session user_id (with_logged_in true)
                      else ret tt);;
                     ret (success, message)) w1))
            = users_rows w1).
  { intros w1 [[] msg]; [|reflexivity].
    unfold assign_session, session_of, mbind, M_bind, bind, get_world, modify.
    cbn. destruct (active_users w1 !! user_id); cbn; [|reflexivity].
    rewrite lookup_insert_eq. reflexivity. }
  destruct (sheets_register_user (user_row_of (registration_data s)) w)
    as [[r|e] w1] eqn:E; cbn [snd] in *.
  - rewrite bind_run with (a := r) by now rewrite E.
    rewrite E. cbn [snd]. rewrite (G w1 r).
    destruct H as [H|H]; [now left|right; eauto].
  - rewrite bind_raises with (e := e) by now rewrite E.
    rewrite E. cbn [snd].
    destruct H as [H|H]; [now left|right; eauto].
Qed.

(** C10.  The only row a registration commit appends to the Users
    table is the row built from the answers in the session, and that
    row has eight cells and ends with the balance "0".  When the chosen
    payment mode is "UPI", the UPI cell holds the entered id and the
    bank-account and IFSC cells are empty; when it is "Bank Account",
    the UPI cell is empty and the other two hold the entered values. *)
Theorem registration_row_shape (user_id : Z) (w : World)
    (data : gmap string string) :
  (users_rows (snd (register_user user_id w)) = users_rows w \/
   exists s,
     active_users w !! user_id = Some s /\
     users_rows (snd (register_user user_id w))
     = (users_rows w ++ [user_row_of (registration_data s)])%list) /\
  let row := user_row_of data in
  length row = 8%nat /\
  row !! 7%nat = Some "0" /\
  last row = Some "0" /\
  (data !! "payment_mode" = Some "UPI" ->
     row !! 3%nat = Some "UPI" /\
     row !! 4%nat = Some (get_or_empty data "upi_id") /\
     row !! 5%nat = Some "" /\ row !! 6%nat = Some "") /\
  (data !! "payment_mode" = Some "Bank Account" ->
     row !! 3%nat = Some "Bank Account" /\
     row !! 4%nat = Some "" /\
     row !! 5%nat = Some (get_or_empty data "bank_account") /\
     row !! 6%nat = Some (get_or_empty data "ifsc_code")).
Proof.
  split; [apply register_user_rows|].
  unfold user_row_of.
  split; [|split; [|split; [|split]]].
  - destruct (String.eqb _ "UPI"); [reflexivity|].
    destruct (String.eqb _ "Bank Account"); reflexivity.
  - destruct (String.eqb _ "UPI"); [reflexivity|].
    destruct (String.eqb _ "Bank Account"); reflexivity.
  - destruct (String.eqb _ "UPI"); [reflexivity|].
    destruct (String.eqb _ "Bank Account"); reflexivity.
  - intros H.
    assert (get_or_empty data "payment_mode" = "UPI") as ->
      by (unfold get_or_empty; now rewrite H).
    cbn. auto.
  - intros H.
    assert (get_or_empty data "payment_mode" = "Bank Account") as ->
      by (unfold get_or_empty; now rewrite H).
    cbn. auto.
Qed.

(** ** Messages the router hands to a dialogue *)

Lemma handle_message_plain user_id text s w :
  active_users w !! user_id = Some s ->
  intercepted (logged_in s) text = false ->
  handle_message user_id text w = handle_dialogue user_id text w.
Proof.
  intros Hs Hk. unfold intercepted, welcome_keywords, menu_keywords in Hk.
  cbn [existsb] in Hk.
  apply orb_false_elim in Hk as [Hw Hm].
  repeat (apply orb_false_elim in Hw; destruct Hw as [? Hw]).
  unfold handle_message. rewrite bind_get_world, Hs.
  rewrite bool_decide_eq_true_2 by eauto. rewrite bind_ret.
  repeat match goal with H : String.eqb text _ = false |- _ => rewrite H; clear H end.
  cbn [orb]. rewrite (run_is_logged_in _ _ _ Hs).
  destruct (logged_in s); [|reflexivity].
  cbn [andb] in Hm.
  repeat (apply orb_false_elim in Hm; destruct Hm as [? Hm]).
  repeat match goal with H : String.eqb text _ = false |- _ => rewrite H; clear H end.
  reflexivity.
Qed.


(** Runs the session-store calls and the replies at the head of a
    computation, on a world whose session is known. *)
Ltac find_session :=
  first [ eassumption | apply lookup_put_session
        | apply lookup_send; find_session ].

Ltac run_session :=
  unfold set_registration_state, set_registration_data, set_withdraw_state,
    set_withdraw_data, set_update_profile_state, set_update_field;
  repeat first
    [ rewrite bind_ret
    | rewrite run_reply_text
    | erewrite run_update_session by find_session
    | erewrite run_assign_session by find_session
    | erewrite run_is_logged_in by find_session
    | erewrite run_get_username by find_session
    | erewrite run_get_registration_state by find_session
    | erewrite run_get_registration_data by find_session
    | erewrite run_get_withdraw_state by find_session
    | erewrite run_get_withdraw_data by find_session
    | erewrite run_get_update_profile_state by find_session
    | erewrite run_get_update_field by find_session ].





Lemma values_append_users_ok row w :
  faults w = [] ->
  values_append_users row w
  = (Ok tt, set_users_rows (users_rows w ++ [row])%list w).
Proof.
  intros H. unfold values_append_users.
  rewrite bind_run with (a := tt) by now rewrite execute_ok.
  now rewrite execute_ok.
Qed.

Lemma sheets_register_user_ok row name w :
  faults w = [] ->
  head row = Some name ->
  ~ has_username name (users_rows w) ->
  exists w',
    sheets_register_user row w = (Ok (true, "User registered successfully"), w') /\
    users_rows w' = (users_rows w ++ [row])%list /\
    store_only w w' /\
    payments_rows w' = payments_rows w /\
    faults w' = [].
Proof.
  intros Hf Hrow Hfresh. unfold sheets_register_user, try_except.
  destruct (ensure_headers_ok UsersSheet USER_HEADERS w Hf) as [E1 F1].
  pose proof (ensure_headers_reads UsersSheet USER_HEADERS w) as R1.
  rewrite (bind_run _ _ _ _ E1).
  destruct row as [|cell row]; [discriminate|]. injection Hrow as ->.
  rewrite bind_ret.
  set (w1 := snd (ensure_headers UsersSheet USER_HEADERS w)) in *.
  destruct (find_user_by_username_ok (Some name) w1 F1) as [E2 F2].
  pose proof (find_user_by_username_reads (Some name) w1) as R2.
  rewrite (ro_users _ _ R1) in E2.
  apply find_from_None with (i := 2%nat) in Hfresh. rewrite Hfresh in E2.
  rewrite (bind_run _ _ _ _ E2).
  set (w2 := snd (find_user_by_username (Some name) w1)) in *.
  rewrite bind_run with (a := tt) by now rewrite values_append_users_ok.
  rewrite values_append_users_ok by assumption. cbn.
  assert (R : reads_only w w2) by (etransitivity; eassumption).
  eexists. split; [reflexivity|]. cbn.
  rewrite (ro_users _ _ R), (ro_payments _ _ R).
  repeat split; auto; apply R.
Qed.

Lemma head_user_row_of data :
  head (user_row_of data) = Some (get_or_empty data "username").
Proof.
  unfold user_row_of. destruct (String.eqb _ "UPI"); [reflexivity|].
  destruct (String.eqb _ "Bank Account"); reflexivity.
Qed.








(** ** Balances *)

Lemma get_user_balance_ok u w :
  faults w = [] ->
  fst (get_user_balance u w) = Ok (stored_balance u (users_rows w)) /\
  faults (snd (get_user_balance u w)) = [].
Proof.
  intros Hf. unfold get_user_balance, stored_balance.
  destruct (find_user_by_username_ok u w Hf) as [E F].
  rewrite (bind_run _ _ _ _ E).
  destruct (find_from u (users_rows w) 2) as [[row i]|]; cbn; [|auto].
  destruct (row !! 7%nat); cbn; auto.
Qed.

Lemma get_user_payment_info_ok u w :
  faults w = [] ->
  fst (get_user_payment_info u w)
  = Ok (match find_from u (users_rows w) 2 with
        | Some (row, _) => Some (payment_info_of row)
        | None => None
        end) /\
  faults (snd (get_user_payment_info u w)) = [].
Proof.
  intros Hf. unfold get_user_payment_info.
  destruct (find_user_by_username_ok u w Hf) as [E F].
  rewrite (bind_run _ _ _ _ E).
  destruct (find_from u (users_rows w) 2) as [[row i]|]; cbn; auto.
Qed.

Lemma find_from_cons u r rows i :
  find_from u (r :: rows) i
  = if row_is u r then Some (r, i) else find_from u rows (S i).
Proof.
  destruct r as [|cell r], u as [name|]; reflexivity.
Qed.

Lemma row_is_set_cell u r col v :
  (0 < col)%nat -> row_is u r = true -> row_is u (set_cell col v r) = true.
Proof.
  intros Hcol. destruct r as [|cell r]; [discriminate|].
  unfold set_cell. case_bool_decide; [|now intros].
  destruct col; [lia|now intros].
Qed.

(** Where [find_from] finds a row: at its index in the table, counted
    from the sheet row of the head; the row passes the test. *)
Lemma find_from_lookup u rows i row j :
  find_from u rows i = Some (row, j) ->
  (i <= j)%nat /\ rows !! (j - i)%nat = Some row /\ row_is u row = true.
Proof.
  revert i. induction rows as [|r rows IH]; intros i H; [discriminate|].
  rewrite find_from_cons in H. destruct (row_is u r) eqn:E.
  - injection H as <- <-. rewrite Nat.sub_diag. auto.
  - destruct (IH _ H) as (Hle & Hl & Hn). split; [lia|]. split; [|assumption].
    replace (j - i)%nat with (S (j - S i)) by lia. exact Hl.
Qed.

(** Writing a cell other than the first of the found row does not move
    what [find_from] finds. *)
Lemma find_from_set_cell u rows i row j col v :
  find_from u rows i = Some (row, j) ->
  (0 < col)%nat ->
  find_from u (alter (set_cell col v) (j - i)%nat rows) i
  = Some (set_cell col v row, j).
Proof.
  intros H Hcol. revert i H.
  induction rows as [|r rows IH]; intros i H; [discriminate|].
  rewrite find_from_cons in H. destruct (row_is u r) eqn:E.
  - injection H as <- <-. rewrite Nat.sub_diag. cbn [alter list_alter].
    rewrite find_from_cons. now rewrite row_is_set_cell.
  - destruct (find_from_lookup _ _ _ _ _ H) as (Hle & _).
    replace (j - i)%nat with (S (j - S i)) by lia. cbn [alter list_alter].
    rewrite find_from_cons, E. now apply IH.
Qed.

(** ** Withdrawal *)

Lemma float_of_Some text f : py_float text = Some f -> float_of text = ret f.
Proof. intros H. unfold float_of. now rewrite H. Qed.

Lemma insufficient_balance_run (user_id : Z) (text : string)
    (amount balance : float) (s : Session) (w : World) :
  active_users w !! user_id = Some s ->
  faults w = [] ->
  py_float text = Some amount ->
  (amount <=? 0)%float = false ->
  py_float (stored_balance (current_username user_id w) (users_rows w))
    = Some balance ->
  (balance <? amount)%float = true ->
  exists w',
    handle_withdrawal user_id text "awaiting_amount" w = (Ok tt, w') /\
    active_users w' !! user_id
      = Some (with_withdraw_state None
                (with_withdraw_data
                   (<["amount" := PyFloat amount]> (withdraw_data s)) s)) /\
    users_rows w' = users_rows w /\
    payments_rows w' = payments_rows w /\
    outbox w' =
      (outbox w ++
       [mkReply user_id
          ("Insufficient balance. Your current balance is: ₹" +:+
           py_str_float balance)
          get_main_menu_keyboard])%list.
Proof.
  intros Hs Hf Hamt Hpos Hbal Hlt. unfold handle_withdrawal.
  rewrite run_get_username_any. cbn [String.eqb Ascii.eqb Bool.eqb].
  unfold try_except_ValueError.
  rewrite (float_of_Some _ _ Hamt), bind_ret, Hpos.
  run_session.
  set (w1 := put_session user_id _ w).
  assert (Hf1 : faults w1 = []) by exact Hf.
  destruct (get_user_balance_ok (current_username user_id w) w1 Hf1) as [E F].
  pose proof (get_user_balance_reads (current_username user_id w) w1) as RO.
  change (users_rows w1) with (users_rows w) in E.
  rewrite (bind_run _ _ _ _ E).
  rewrite (float_of_Some _ _ Hbal), bind_ret, Hlt.
  assert (Hs1 : active_users
                  (snd (get_user_balance (current_username user_id w) w1))
                  !! user_id
                = Some (with_withdraw_data
                          (<["amount" := PyFloat amount]> (withdraw_data s)) s)).
  { rewrite (ro_active _ _ RO). apply lookup_put_session. }
  run_session. eexists. split; [reflexivity|]. cbn.
  rewrite (ro_users _ _ RO), (ro_payments _ _ RO), (ro_outbox _ _ RO).
  split; [apply lookup_insert_eq|]. auto.
Qed.

(** C5, as the code has it.  In state [awaiting_amount], with the
    Users sheet readable (every remote call answered), an amount that
    is positive and strictly
    greater than the stored balance of the user aborts the withdrawal:
    the withdrawal state is cleared, the rows of both sheets are as they
    were (no payment row, same balance), and the reply reports the
    balance. *)
Theorem insufficient_balance_aborts (user_id : Z) (text : string)
    (amount balance : float) (s : Session) (w : World) :
  active_users w !! user_id = Some s ->
  withdraw_state s = Some "awaiting_amount" ->
  faults w = [] ->
  py_float text = Some amount ->
  (amount <=? 0)%float = false ->
  py_float (stored_balance (current_username user_id w) (users_rows w))
    = Some balance ->
  (balance <? amount)%float = true ->
  exists w',
    handle_withdrawal user_id text "awaiting_amount" w = (Ok tt, w') /\
    (exists s', active_users w' !! user_id = Some s' /\
                withdraw_state s' = None) /\
    users_rows w' = users_rows w /\
    payments_rows w' = payments_rows w /\
    stored_balance (current_username user_id w) (users_rows w')
      = stored_balance (current_username user_id w) (users_rows w) /\
    outbox w' =
      (outbox w ++
       [mkReply user_id
          ("Insufficient balance. Your current balance is: ₹" +:+
           py_str_float balance)
          get_main_menu_keyboard])%list.
Proof.
  intros Hs _ Hf Hamt Hpos Hbal Hlt.
  destruct (insufficient_balance_run _ _ _ _ _ _ Hs Hf Hamt Hpos Hbal Hlt)
    as (w' & E & Hs' & Hrows & Hpay & Hout).
  exists w'. split; [exact E|].
  split; [eexists; split; [exact Hs'|reflexivity]|].
  rewrite Hrows. auto.
Qed.

Lemma add_payment_request_ok payment_data w :
  faults w = [] ->
  exists w',
    add_payment_request payment_data w
      = (Ok (true, "Payment request added successfully"), w') /\
    payments_rows w'
      = (payments_rows w ++
         [(payment_data ++ [PyStr (clock w)]) ++ [PyStr "Pending"]])%list /\
    users_rows w' = users_rows w /\
    store_only w w' /\
    faults w' = [].
Proof.
  intros Hf. unfold add_payment_request, try_except.
  destruct (ensure_headers_ok PaymentsSheet PAYMENT_HEADERS w Hf) as [E1 F1].
  pose proof (ensure_headers_reads PaymentsSheet PAYMENT_HEADERS w) as R1.
  rewrite (bind_run _ _ _ _ E1), bind_get_world.
  unfold values_append_payments.
  rewrite bind_assoc.
  rewrite bind_run with (a := tt) by now rewrite execute_ok.
  rewrite execute_ok by assumption. cbn [snd].
  rewrite bind_modify.
  eexists. split; [reflexivity|]. cbn.
  rewrite (ro_payments _ _ R1), (ro_users _ _ R1), (ro_clock _ _ R1).
  repeat split; auto; apply R1.
Qed.

Lemma update_user_balance_ok u new_balance row i w :
  faults w = [] ->
  find_from u (users_rows w) 2 = Some (row, i) ->
  exists w',
    update_user_balance u new_balance w
      = (Ok (true, "Balance updated successfully"), w') /\
    users_rows w'
      = alter (set_cell 7 (py_str_float new_balance)) (i - 2)%nat (users_rows w) /\
    payments_rows w' = payments_rows w /\
    store_only w w' /\
    faults w' = [].
Proof.
  intros Hf Hfind. unfold update_user_balance, try_except.
  destruct (find_user_by_username_ok u w Hf) as [E F].
  pose proof (find_user_by_username_reads u w) as RO.
  rewrite Hfind in E. rewrite (bind_run _ _ _ _ E).
  unfold values_update_users_cell. rewrite bind_assoc.
  rewrite bind_run with (a := tt) by now rewrite execute_ok.
  rewrite execute_ok by assumption. cbn [snd].
  rewrite bind_modify.
  eexists. split; [reflexivity|]. cbn.
  rewrite (ro_users _ _ RO), (ro_payments _ _ RO).
  repeat split; auto; apply RO.
Qed.

Lemma set_cell_lookup col v (row : list string) :
  set_cell col v row !! col = Some v.
Proof.
  unfold set_cell. case_bool_decide as H.
  - now apply list_lookup_insert_eq.
  - rewrite lookup_app_r by lia.
    rewrite lookup_app_r; rewrite length_replicate; [|lia].
    now replace (col - length row - (col - length row))%nat with 0%nat by lia.
Qed.

Lemma info_get_Some d key dflt :
  info_get (Some d) key dflt = ret (default dflt (d !! key)).
Proof. reflexivity. Qed.

(** The three ways the withdrawal dialogue reaches the commit: the
    user confirms the payment mode of the profile, or has entered a UPI
    id, or has entered the IFSC code after the bank account. *)
Lemma commit_entry_points user_id text s w :
  active_users w !! user_id = Some s ->
  (lower text = "yes" -> faults w = [] ->
   forall row i,
     find_from (current_username user_id w) (users_rows w) 2 = Some (row, i) ->
     handle_withdrawal user_id text "awaiting_payment_mode_confirmation" w
     = process_withdrawal_request user_id (of_opt (row !! 3%nat))
         (snd (get_user_payment_info (current_username user_id w) w))) /\
  handle_withdrawal user_id text "awaiting_upi_id" w
  = process_withdrawal_request user_id (PyStr "UPI")
      (put_session user_id
         (with_withdraw_data (<["upi_id" := PyStr text]> (withdraw_data s)) s) w) /\
  handle_withdrawal user_id text "awaiting_ifsc_code" w
  = process_withdrawal_request user_id (PyStr "Bank Account")
      (put_session user_id
         (with_withdraw_data (<["ifsc_code" := PyStr text]> (withdraw_data s)) s) w).
Proof.
  intros Hs. repeat apply conj.
  - intros Hyes Hf row i Hfind. unfold handle_withdrawal.
    rewrite run_get_username_any. cbn [String.eqb Ascii.eqb Bool.eqb].
    rewrite Hyes. cbn [String.eqb Ascii.eqb Bool.eqb].
    destruct (get_user_payment_info_ok (current_username user_id w) w Hf)
      as [E _].
    rewrite Hfind in E. rewrite (bind_run _ _ _ _ E).
    rewrite info_get_Some, bind_ret. reflexivity.
  - unfold handle_withdrawal. rewrite run_get_username_any.
    cbn [String.eqb Ascii.eqb Bool.eqb]. run_session. reflexivity.
  - unfold handle_withdrawal. rewrite run_get_username_any.
    cbn [String.eqb Ascii.eqb Bool.eqb]. run_session. reflexivity.
Qed.

(** C1, as the code has it.  The commit of a withdrawal, for a
    logged-in user [u] whose row is in the Users table, whose stored
    balance text parses to [B] and whose session holds the amount [A],
    with the sheets answering every call:
    exactly one row is appended to the Payments table, which carries
    [u], the text of [A], the payment mode, two identifier cells, the
    time stamp and the status "Pending"; then the balance cell of the
    row of [u] is overwritten with the text of [B - A] (the binary64
    difference, printed by [str]), which is the balance stored for [u]
    afterwards; every other row is as it was, and the withdrawal state
    is cleared. *)
Theorem withdrawal_commit (user_id : Z) (payment_mode : pyval) (u : string)
    (A B : float) (s : Session) (w : World) :
  active_users w !! user_id = Some s ->
  logged_in s = true ->
  username s = Some u ->
  withdraw_data s !! "amount" = Some (PyFloat A) ->
  faults w = [] ->
  has_username u (users_rows w) ->
  py_float (stored_balance (Some u) (users_rows w)) = Some B ->
  exists w' id1 id2 k row,
    process_withdrawal_request user_id payment_mode w = (Ok tt, w') /\
    payments_rows w'
      = (payments_rows w ++
         [[PyStr u; PyStr (py_str_float A); payment_mode; id1; id2;
           PyStr (clock w); PyStr "Pending"]])%list /\
    users_rows w !! k = Some row /\
    head row = Some u /\
    users_rows w'
      = <[k := set_cell 7 (py_str_float (B - A)) row]> (users_rows w) /\
    stored_balance (Some u) (users_rows w') = py_str_float (B - A) /\
    (exists s', active_users w' !! user_id = Some s' /\
                withdraw_state s' = None /\
                withdraw_data s' = withdraw_data s).
Proof.
  intros Hs Hlog Hu Hamt Hf Hhas HB.
  destruct (find_from_Some u (users_rows w) 2 Hhas) as (row & i & Hfind & _ & Hhead).
  destruct (find_from_lookup _ _ _ _ _ Hfind) as (Hle & Hrow & _).
  unfold process_withdrawal_request.
  run_session. rewrite Hlog, Hu, Hamt. cbn [default from_option id of_opt py_str].
  (* the identifiers: from the scratch data or from the profile *)
  lazymatch goal with
  | |- exists _ _ _ _ _, (?m ≫= ?k) w = _ /\ _ =>
      assert (P : exists id1 id2,
                fst (m w) = Ok [PyStr u; PyStr (py_str_float A); payment_mode;
                                id1; id2] /\
                reads_only w (snd (m w)) /\ faults (snd (m w)) = [])
  end.
  { destruct (get_user_payment_info_ok (Some u) w Hf) as [E F].
    pose proof (get_user_payment_info_reads (Some u) w) as RO.
    rewrite Hfind in E.
    destruct (is_str payment_mode "UPI").
    - destruct (truthy _); cbn [negb].
      + rewrite bind_ret. eexists _, _.
        split; [reflexivity|]. split; [reflexivity|exact Hf].
      + rewrite bind_assoc, (bind_run _ _ _ _ E), info_get_Some, bind_ret.
        eexists _, _. split; [reflexivity|]. split; assumption.
    - destruct (negb (truthy _) || negb (truthy _)).
      + rewrite !bind_assoc, (bind_run _ _ _ _ E).
        repeat (rewrite ?bind_assoc, ?info_get_Some, ?bind_ret).
        eexists _, _. split; [reflexivity|]. split; assumption.
      + rewrite bind_ret. eexists _, _.
        split; [reflexivity|]. split; [reflexivity|exact Hf]. }
  destruct P as (id1 & id2 & E0 & R0 & F0).
  rewrite (bind_run _ _ _ _ E0).
  match type of R0 with reads_only _ ?w0 => set (w1 := w0) in * end.
  clear E0.
  (* the payment row *)
  destruct (add_payment_request_ok
              [PyStr u; PyStr (py_str_float A); payment_mode; id1; id2] w1 F0)
    as (w2 & E2 & Hpay2 & Hrows2 & SO2 & F2).
  rewrite bind_run with (a := (true, "Payment request added successfully"))
    by now rewrite E2.
  rewrite E2. cbn [snd]. clear E2.
  (* the balance *)
  destruct (get_user_balance_ok (Some u) w2 F2) as [E3 F3].
  pose proof (get_user_balance_reads (Some u) w2) as R3.
  rewrite Hrows2, (ro_users _ _ R0) in E3.
  rewrite (bind_run _ _ _ _ E3). clear E3.
  set (w3 := snd (get_user_balance (Some u) w2)) in *.
  rewrite (float_of_Some _ _ HB), bind_ret. cbn [float_sub]. rewrite bind_ret.
  assert (Hrows3 : users_rows w3 = users_rows w)
    by (rewrite (ro_users _ _ R3), Hrows2; apply R0).
  destruct (update_user_balance_ok (Some u) (B - A)%float row i w3 F3)
    as (w4 & E4 & Hrows4 & Hpay4 & SO4 & F4); [now rewrite Hrows3|].
  rewrite bind_run with (a := (true, "Balance updated successfully"))
    by now rewrite E4.
  rewrite E4. cbn [snd]. clear E4.
  assert (Hs4 : active_users w4 !! user_id = Some s).
  { rewrite (so_active _ _ SO4), (ro_active _ _ R3), (so_active _ _ SO2),
      (ro_active _ _ R0). exact Hs. }
  run_session.
  exists (send (mkReply user_id
            ("Your payment request for ₹" +:+ py_str_float A +:+
             " has been received. It will be processed on " +:+
             DEFAULT_PAYMENT_DATE +:+ "." +:+ nl +:+ nl +:+
             "Please forward a screenshot of this chat to @" +:+
             INVOICE_BOT_USERNAME +:+ " for reference.")
            get_main_menu_keyboard)
          (put_session user_id (with_withdraw_state None s) w4)).
  exists id1, id2, (i - 2)%nat, row.
  split; [reflexivity|]. cbn.
  assert (Hrows' : users_rows w4
                   = <[(i - 2)%nat := set_cell 7 (py_str_float (B - A)) row]>
                       (users_rows w)).
  { rewrite Hrows4, Hrows3. apply list_eq. intros j.
    destruct (decide (j = i - 2)%nat) as [->|Hne].
    - rewrite list_lookup_alter_eq, Hrow.
      rewrite list_lookup_insert_eq; [reflexivity|].
      now apply lookup_lt_Some in Hrow.
    - rewrite list_lookup_alter_ne by congruence.
      now rewrite list_lookup_insert_ne by congruence. }
  split.
  { rewrite Hpay4, (ro_payments _ _ R3), Hpay2, (ro_payments _ _ R0).
    now rewrite (ro_clock _ _ R0). }
  split; [exact Hrow|]. split; [exact Hhead|]. split; [exact Hrows'|].
  split.
  { unfold stored_balance. rewrite Hrows4, Hrows3.
    rewrite (find_from_set_cell _ _ _ _ _ 7%nat _ Hfind) by lia.
    now rewrite set_cell_lookup. }
  eexists. split; [apply lookup_insert_eq|]. split; reflexivity.
Qed.

(** ** Profile update *)

Lemma update_user_profile_reads_invalid u field value :
  column_of field = None ->
  keeps reads_only (update_user_profile u field value).
Proof.
  intros Hcol. unfold update_user_profile. rewrite Hcol. keeps_auto.
Qed.

Lemma update_user_profile_invalid u field value w :
  faults w = [] ->
  has_username u (users_rows w) ->
  column_of field = None ->
  fst (update_user_profile (Some u) field value w)
  = Ok (false, "Invalid field: " +:+ py_str (of_opt field)).
Proof.
  intros Hf Hhas Hcol. unfold update_user_profile, try_except.
  destruct (find_user_by_username_ok (Some u) w Hf) as [E F].
  destruct (find_from_Some u (users_rows w) 2 Hhas) as (row & i & Hfind & _).
  rewrite Hfind in E. rewrite (bind_run _ _ _ _ E), Hcol. reflexivity.
Qed.

(** C2, on the code: the update of the payment mode does not succeed.
    A logged-in user whose row is in the Users table, with the sheet
    answering, selects "Payment Mode" and then "UPI" or "Bank Account":
    the dialogue stores the field name [payment_mode], which
    [update_user_profile] does not know (its key is
    [preferred_payment_mode]), so the update is refused as an invalid
    field, no cell of the Users table is written, and the user is told
    of the failure. *)
Theorem payment_mode_update_is_refused (user_id : Z) (text name : string)
    (s : Session) (w : World) :
  active_users w !! user_id = Some s ->
  logged_in s = true ->
  username s = Some name ->
  has_username name (users_rows w) ->
  faults w = [] ->
  text = "UPI" \/ text = "Bank Account" ->
  let w1 := snd (handle_profile_update user_id "Payment Mode" "selecting_field" w) in
  (exists s1, active_users w1 !! user_id = Some s1 /\
              update_profile_state s1 = Some "updating_payment_mode" /\
              update_field s1 = Some "payment_mode") /\
  exists w2,
    handle_profile_update user_id text "updating_payment_mode" w1 = (Ok tt, w2) /\
    users_rows w2 = users_rows w /\
    outbox w2 =
      (outbox w1 ++
       [mkReply user_id "Failed to update profile: Invalid field: payment_mode"
          get_main_menu_keyboard])%list /\
    (exists s2, active_users w2 !! user_id = Some s2 /\
                update_profile_state s2 = None).
Proof.
  intros Hs Hlog Hu Hhas Hf Htext.
  assert (E1 : handle_profile_update user_id "Payment Mode" "selecting_field" w
               = (Ok tt,
                  send (mkReply user_id
                          "Please select your new preferred payment mode:"
                          get_payment_mode_keyboard)
                    (put_session user_id
                       (with_update_profile_state (Some "updating_payment_mode")
                          (with_update_field (Some "payment_mode") s))
                       (put_session user_id
                          (with_update_field (Some "payment_mode") s) w)))).
  { unfold handle_profile_update. run_session.
    cbn [String.eqb Ascii.eqb Bool.eqb].
    change (field_mapping !! "Payment Mode") with (Some "payment_mode").
    cbn [String.eqb Ascii.eqb Bool.eqb]. run_session. reflexivity. }
  cbn zeta. rewrite E1. cbn [snd].
  set (w1 := send _ (put_session _ _ (put_session _ _ w))).
  assert (Hs1 : active_users w1 !! user_id
                = Some (with_update_profile_state (Some "updating_payment_mode")
                          (with_update_field (Some "payment_mode") s)))
    by (apply lookup_send, lookup_put_session).
  split; [eexists; split; [exact Hs1|split; reflexivity]|].
  assert (Hf1 : faults w1 = []) by exact Hf.
  assert (Hhas1 : has_username name (users_rows w1)) by exact Hhas.
  pose proof (update_user_profile_invalid name (Some "payment_mode") text w1
                Hf1 Hhas1 eq_refl) as E2.
  pose proof (update_user_profile_reads_invalid (Some name)
                (Some "payment_mode") text eq_refl w1) as R2.
  unfold handle_profile_update. run_session.
  cbn [logged_in username with_update_profile_state with_update_field].
  rewrite Hlog, Hu.
  cbn [String.eqb Ascii.eqb Bool.eqb].
  assert (Hvalid : negb (String.eqb text "UPI" || String.eqb text "Bank Account")
                   = false) by (destruct Htext; subst text; reflexivity).
  rewrite Hvalid. run_session.
  cbn [update_field with_update_profile_state with_update_field].
  rewrite (bind_run _ _ _ _ E2).
  set (w2 := snd (update_user_profile _ _ _ w1)) in *.
  assert (Hs2 : active_users w2 !! user_id
                = Some (with_update_profile_state (Some "updating_payment_mode")
                          (with_update_field (Some "payment_mode") s)))
    by now rewrite (ro_active _ _ R2).
  run_session. eexists. split; [reflexivity|]. cbn.
  rewrite (ro_users _ _ R2), (ro_outbox _ _ R2).
  split; [reflexivity|]. split; [reflexivity|].
  eexists. split; [apply lookup_insert_eq|reflexivity].
Qed.

(** ** The session store without a session *)

(** The accessors of the session store on an id that has no session:
    the getters return their defaults, the setters and [end_session] do
    nothing, and a login with a username the table does not hold returns
    [False]; none of them raises. *)
Lemma accessors_without_session (user_id : Z) (w : World) :
  active_users w !! user_id = None ->
  is_logged_in user_id w = (Ok false, w) /\
  get_username user_id w = (Ok None, w) /\
  get_registration_state user_id w = (Ok None, w) /\
  get_registration_data user_id w = (Ok ∅, w) /\
  get_withdraw_state user_id w = (Ok None, w) /\
  get_withdraw_data user_id w = (Ok ∅, w) /\
  get_update_profile_state user_id w = (Ok None, w) /\
  get_update_field user_id w = (Ok None, w) /\
  (forall f, update_session user_id f w = (Ok tt, w)) /\
  end_session user_id w = (Ok tt, w) /\
  (forall name, faults w = [] -> ~ has_username name (users_rows w) ->
     fst (login_user user_id name w) = Ok false /\
     active_users (snd (login_user user_id name w)) = active_users w).
Proof.
  intros Hs.
  assert (G : forall {A} (f : Session -> A) (d : A),
            (w0 ← get_world;
             match active_users w0 !! user_id with
             | Some s => ret (f s)
             | None => ret d
             end) w = (Ok d, w)).
  { intros A f d. rewrite bind_get_world. now rewrite Hs. }
  repeat apply conj.
  - apply (G _ logged_in false).
  - rewrite get_username_run. unfold current_username. now rewrite Hs.
  - apply (G _ registration_state None).
  - apply (G _ registration_data ∅).
  - apply (G _ withdraw_state None).
  - apply (G _ withdraw_data ∅).
  - apply (G _ update_profile_state None).
  - apply (G _ update_field None).
  - intros f. unfold update_session, modify. now rewrite Hs.
  - unfold end_session, modify. now rewrite Hs.
  - intros name Hf Hfresh.
    destruct (find_user_by_username_ok (Some name) w Hf) as [E F].
    apply find_from_None with (i := 2%nat) in Hfresh. rewrite Hfresh in E.
    unfold login_user. rewrite (bind_run _ _ _ _ E). cbn.
    split; [reflexivity|].
    apply (ro_active _ _ (find_user_by_username_reads (Some name) w)).
Qed.

(** Login and registration commit on an id that has no session:
    [register_user] raises [KeyError] at its first line, and so does
    [login_user] as soon as the username is found in the table, both of
    them indexing [active_users] without the guard the accessors
    have. *)
Lemma login_and_register_without_session (user_id : Z) (name : string)
    (w : World) :
  active_users w !! user_id = None ->
  register_user user_id w = (Raise (KeyError (pretty user_id)), w) /\
  (faults w = [] -> has_username name (users_rows w) ->
   fst (login_user user_id name w) = Raise (KeyError (pretty user_id))).
Proof.
  intros Hs. split.
  - unfold register_user, session_of.
    rewrite bind_assoc, bind_get_world. now rewrite Hs.
  - intros Hf Hhas.
    destruct (find_user_by_username_ok (Some name) w Hf) as [E F].
    destruct (find_from_Some name (users_rows w) 2 Hhas) as (row & i & Hfind & _).
    rewrite Hfind in E.
    pose proof (find_user_by_username_reads (Some name) w) as RO.
    unfold login_user. rewrite (bind_run _ _ _ _ E).
    unfold assign_session, session_of.
    rewrite !bind_assoc, bind_get_world, (ro_active _ _ RO), Hs.
    reflexivity.
Qed.

(** ** Steps that write no row *)

Lemma update_session_rows user_id f : keeps rows_kept (update_session user_id f).
Proof.
  apply keeps_modify. intros w.
  destruct (active_users w !! user_id); now constructor.
Qed.

Lemma reply_text_rows user_id text m : keeps rows_kept (reply_text user_id text m).
Proof. apply keeps_modify. intros w. now constructor. Qed.

Lemma get_username_rows user_id : keeps rows_kept (get_username user_id).
Proof. intros w. rewrite get_username_run. reflexivity. Qed.

Lemma find_user_by_username_rows u : keeps rows_kept (find_user_by_username u).
Proof. apply reads_keeps_rows, find_user_by_username_reads. Qed.

Lemma get_user_balance_rows u : keeps rows_kept (get_user_balance u).
Proof. apply reads_keeps_rows, get_user_balance_reads. Qed.

Lemma get_user_payment_info_rows u : keeps rows_kept (get_user_payment_info u).
Proof. apply reads_keeps_rows, get_user_payment_info_reads. Qed.

#[local] Hint Resolve update_session_rows reply_text_rows get_username_rows
  find_user_by_username_rows get_user_balance_rows
  get_user_payment_info_rows : keeps.

(** Whatever the text and whatever the transport does, the username
    step of the registration and the amount step of the withdrawal
    leave the rows of both sheets as they were. *)
Lemma awaiting_username_writes_no_row user_id text :
  keeps rows_kept (handle_registration user_id text "awaiting_username").
Proof.
  unfold handle_registration. cbn [String.eqb Ascii.eqb Bool.eqb].
  unfold set_registration_data, set_registration_state. keeps_auto.
Qed.

Lemma awaiting_amount_writes_no_row user_id text :
  keeps rows_kept (handle_withdrawal user_id text "awaiting_amount").
Proof.
  unfold handle_withdrawal. cbn [String.eqb Ascii.eqb Bool.eqb].
  unfold set_withdraw_data, set_withdraw_state, float_of, info_get.
  keeps_auto.
Qed.

(** ** The end of a dialogue *)



Lemma keeps_store_modify_rows f :
  (forall w, active_users (f w) = active_users w /\
             pending_login (f w) = pending_login w /\
             clock (f w) = clock w /\ outbox (f w) = outbox w) ->
  keeps store_only (modify f).
Proof.
  intros H. apply keeps_modify.
  intros w. destruct (H w) as (? & ? & ? & ?). now constructor.
Qed.

Lemma execute_store : keeps store_only execute.
Proof. apply reads_keeps_store, execute_reads. Qed.

#[local] Hint Resolve execute_store : keeps.

Lemma find_user_by_username_store u : keeps store_only (find_user_by_username u).
Proof. apply reads_keeps_store, find_user_by_username_reads. Qed.

Lemma ensure_headers_store sh h : keeps store_only (ensure_headers sh h).
Proof. apply reads_keeps_store, ensure_headers_reads. Qed.

Lemma get_user_balance_store u : keeps store_only (get_user_balance u).
Proof. apply reads_keeps_store, get_user_balance_reads. Qed.

Lemma get_user_payment_info_store u :
  keeps store_only (get_user_payment_info u).
Proof. apply reads_keeps_store, get_user_payment_info_reads. Qed.

#[local] Hint Resolve find_user_by_username_store ensure_headers_store
  get_user_balance_store get_user_payment_info_store : keeps.

Lemma values_append_users_store row : keeps store_only (values_append_users row).
Proof.
  unfold values_append_users. keeps_auto.
  apply keeps_store_modify_rows. now intros w.
Qed.

Lemma values_append_payments_store row :
  keeps store_only (values_append_payments row).
Proof.
  unfold values_append_payments. keeps_auto.
  apply keeps_store_modify_rows. now intros w.
Qed.

Lemma values_update_users_cell_store i c v :
  keeps store_only (values_update_users_cell i c v).
Proof.
  unfold values_update_users_cell. keeps_auto.
  apply keeps_store_modify_rows. now intros w.
Qed.

#[local] Hint Resolve values_append_users_store values_append_payments_store
  values_update_users_cell_store : keeps.

Lemma add_payment_request_store pd : keeps store_only (add_payment_request pd).
Proof. unfold add_payment_request. keeps_auto. Qed.

Lemma update_user_balance_store u b : keeps store_only (update_user_balance u b).
Proof. unfold update_user_balance. keeps_auto. Qed.

Lemma update_user_profile_store u f v : keeps store_only (update_user_profile u f v).
Proof. unfold update_user_profile. keeps_auto. Qed.

Lemma get_username_store user_id : keeps store_only (get_username user_id).
Proof. intros w. rewrite get_username_run. reflexivity. Qed.

Lemma get_withdraw_data_store user_id : keeps store_only (get_withdraw_data user_id).
Proof. unfold get_withdraw_data. keeps_auto. Qed.

Lemma get_update_field_store user_id : keeps store_only (get_update_field user_id).
Proof. unfold get_update_field. keeps_auto. Qed.

Lemma info_get_store pi key d : keeps store_only (info_get pi key d).
Proof. unfold info_get. keeps_auto. Qed.

Lemma float_of_store t : keeps store_only (float_of t).
Proof. unfold float_of. keeps_auto. Qed.

Lemma float_sub_store x v : keeps store_only (float_sub x v).
Proof. unfold float_sub. keeps_auto. Qed.

#[local] Hint Resolve add_payment_request_store update_user_balance_store
  update_user_profile_store get_username_store get_withdraw_data_store
  get_update_field_store info_get_store float_of_store float_sub_store : keeps.


Lemma update_user_profile_total u f v : total (update_user_profile u f v).
Proof.
  apply total_try_except. intros e. apply total_ret.
Qed.


Lemma main_menu_run user_id w :
  exists r, main_menu user_id w = (Ok tt, send r w).
Proof.
  unfold main_menu, is_logged_in. rewrite bind_assoc, bind_get_world.
  destruct (active_users w !! user_id) as [s|]; rewrite bind_ret.
  - destruct (logged_in s); eexists; reflexivity.
  - eexists; reflexivity.
Qed.


(** * The record store, whatever the transport does *)

#[local] Instance sheet_read_preorder : PreOrder sheet_read.
Proof.
  split.
  - intros w. split; reflexivity.
  - intros w1 w2 w3 [R1 S1] [R2 S2]. split; etransitivity; eassumption.
Qed.

#[local] Instance cell_write_preorder : PreOrder cell_write.
Proof.
  split.
  - intros w. constructor; reflexivity.
  - intros w1 w2 w3 [] []. constructor; etransitivity; eassumption.
Qed.

Lemma sheet_read_cell_write w w' : sheet_read w w' -> cell_write w w'.
Proof.
  intros [RO S]. constructor; [now apply reads_only_store_only| | |exact S].
  - now rewrite (ro_users _ _ RO).
  - apply RO.
Qed.

Lemma execute_sheet_read : keeps sheet_read execute.
Proof.
  intros w. unfold execute.
  destruct (faults w) as [|[msg|] rest] eqn:E; cbn; (split; [now constructor|]);
    cbn; rewrite E; try reflexivity; apply suffix_cons_r; reflexivity.
Qed.

#[local] Hint Resolve execute_sheet_read : keeps.

Lemma values_update_header_sheet_read sh h :
  keeps sheet_read (values_update_header sh h).
Proof.
  unfold values_update_header. keeps_auto.
  apply keeps_modify. intros w. destruct sh; (split; [now constructor|reflexivity]).
Qed.

#[local] Hint Resolve values_update_header_sheet_read : keeps.

Lemma ensure_headers_sheet_read sh h : keeps sheet_read (ensure_headers sh h).
Proof. unfold ensure_headers, values_get_header. keeps_auto. Qed.

#[local] Hint Resolve ensure_headers_sheet_read : keeps.

Lemma get_all_users_sheet_read : keeps sheet_read get_all_users.
Proof. unfold get_all_users, values_get_users. keeps_auto. Qed.

#[local] Hint Resolve get_all_users_sheet_read : keeps.

Lemma find_user_by_username_sheet_read u :
  keeps sheet_read (find_user_by_username u).
Proof. unfold find_user_by_username. keeps_auto. Qed.

#[local] Hint Resolve find_user_by_username_sheet_read : keeps.

Lemma get_user_balance_sheet_read u : keeps sheet_read (get_user_balance u).
Proof. unfold get_user_balance. keeps_auto. Qed.

Lemma get_user_payment_info_sheet_read u :
  keeps sheet_read (get_user_payment_info u).
Proof. unfold get_user_payment_info. keeps_auto. Qed.

#[local] Hint Resolve get_user_balance_sheet_read
  get_user_payment_info_sheet_read : keeps.

(** A read that fails is a read of an empty table. *)
Lemma get_all_users_soft w :
  exists rows, fst (get_all_users w) = Ok rows /\ (rows = users_rows w \/ rows = []).
Proof.
  pose proof (ensure_headers_reads UsersSheet USER_HEADERS w) as R1.
  unfold get_all_users, try_except, mbind, M_bind, bind.
  destruct (ensure_headers UsersSheet USER_HEADERS w) as [[b|e] w1]; cbn in R1.
  2: { exists []. auto. }
  unfold values_get_users, execute, mbind, M_bind, bind.
  destruct (faults w1) as [|[msg|] rest]; cbn.
  - exists (users_rows w1). rewrite (ro_users _ _ R1). auto.
  - exists []. auto.
  - exists (users_rows w1). rewrite (ro_users _ _ R1). auto.
Qed.

Lemma find_user_by_username_soft u w :
  exists r, fst (find_user_by_username u w) = Ok r /\
            (r = find_from u (users_rows w) 2 \/ r = None).
Proof.
  destruct (get_all_users_soft w) as (rows & E & Hrows).
  unfold find_user_by_username. rewrite (bind_run _ _ _ _ E).
  eexists. split; [reflexivity|]. destruct Hrows as [->| ->]; auto.
Qed.

Lemma get_user_balance_soft u w :
  exists b, fst (get_user_balance u w) = Ok b /\
            (b = stored_balance u (users_rows w) \/ b = "0").
Proof.
  destruct (find_user_by_username_soft u w) as (r & E & Hr).
  unfold get_user_balance, stored_balance. rewrite (bind_run _ _ _ _ E).
  destruct Hr as [->| ->]; [|eexists; split; [reflexivity|auto]].
  destruct (find_from u (users_rows w) 2) as [[row i]|]; cbn;
    [destruct (row !! 7%nat)|]; eexists; (split; [reflexivity|auto]).
Qed.

Lemma get_user_payment_info_soft u w :
  exists info, fst (get_user_payment_info u w) = Ok info /\
    (info = (fun found => payment_info_of (fst found))
              <$> find_from u (users_rows w) 2 \/
     info = None).
Proof.
  destruct (find_user_by_username_soft u w) as (r & E & Hr).
  unfold get_user_payment_info. rewrite (bind_run _ _ _ _ E).
  destruct Hr as [->| ->]; [|eexists; split; [reflexivity|auto]].
  destruct (find_from u (users_rows w) 2) as [[row i]|]; cbn;
    eexists; (split; [reflexivity|auto]).
Qed.

(** X1.  The reads of the helper never raise and never change a data
    row, a session, a login flag or a reply: when the transport fails
    they answer as an empty table would.  (The header row is not among
    the things they keep: [ensure_headers] runs first and rewrites it
    when it differs.) *)
Theorem sheet_reads_fail_soft (u : option string) (w : World) :
  (exists rows w1,
     get_all_users w = (Ok rows, w1) /\ sheet_read w w1 /\
     (rows = users_rows w \/ rows = [])) /\
  (exists found w1,
     find_user_by_username u w = (Ok found, w1) /\ sheet_read w w1 /\
     (found = find_from u (users_rows w) 2 \/ found = None)) /\
  (exists balance w1,
     get_user_balance u w = (Ok balance, w1) /\ sheet_read w w1 /\
     (balance = stored_balance u (users_rows w) \/ balance = "0")) /\
  (exists info w1,
     get_user_payment_info u w = (Ok info, w1) /\ sheet_read w w1 /\
     (info = (fun found => payment_info_of (fst found))
               <$> find_from u (users_rows w) 2 \/
      info = None)).
Proof.
  repeat apply conj.
  - destruct (get_all_users_soft w) as (rows & E & H).
    pose proof (get_all_users_sheet_read w) as SR.
    destruct (get_all_users w) as [r w1]. cbn in *. subst r. eauto.
  - destruct (find_user_by_username_soft u w) as (found & E & H).
    pose proof (find_user_by_username_sheet_read u w) as SR.
    destruct (find_user_by_username u w) as [r w1]. cbn in *. subst r. eauto.
  - destruct (get_user_balance_soft u w) as (b & E & H).
    pose proof (get_user_balance_sheet_read u w) as SR.
    destruct (get_user_balance u w) as [r w1]. cbn in *. subst r. eauto.
  - destruct (get_user_payment_info_soft u w) as (info & E & H).
    pose proof (get_user_payment_info_sheet_read u w) as SR.
    destruct (get_user_payment_info u w) as [r w1]. cbn in *. subst r. eauto.
Qed.

(** ** Rows found and rows written *)

Lemma row_is_head name r : row_is (Some name) r = true <-> head r = Some name.
Proof.
  destruct r as [|cell r]; cbn; [easy|].
  rewrite String.eqb_eq. split; congruence.
Qed.

Lemma row_is_nonempty u r : row_is u r = true -> r <> [].
Proof. now destruct r. Qed.

Lemma head_set_cell col v (r : list string) :
  (0 < col)%nat -> r <> [] -> head (set_cell col v r) = head r.
Proof.
  intros Hcol Hr. destruct r as [|cell r]; [contradiction|].
  unfold set_cell. case_bool_decide; [|reflexivity].
  destruct col; [lia|reflexivity].
Qed.

Lemma lookup_set_cell_ne col v (r : list string) k :
  k <> col -> (k < length r \/ col < k)%nat -> set_cell col v r !! k = r !! k.
Proof.
  intros Hne Hk. unfold set_cell. case_bool_decide as Hlen.
  - now apply list_lookup_insert_ne.
  - destruct Hk as [Hk|Hk].
    + now apply lookup_app_l.
    + rewrite (lookup_ge_None_2 r) by lia.
      apply lookup_ge_None_2. rewrite !length_app, length_replicate. cbn. lia.
Qed.

Lemma find_from_first name rows k row n :
  find_from (Some name) rows k = Some (row, n) ->
  exists i, n = (i + k)%nat /\ rows !! i = Some row /\ head row = Some name /\
            forall j r, (j < i)%nat -> rows !! j = Some r -> head r <> Some name.
Proof.
  revert k. induction rows as [|r rows IH]; intros k H; [discriminate|].
  rewrite find_from_cons in H. destruct (row_is (Some name) r) eqn:E.
  - injection H as <- <-. exists 0%nat.
    split; [reflexivity|]. split; [reflexivity|].
    split; [now apply row_is_head|]. intros j r' Hj. lia.
  - destruct (IH _ H) as (i & -> & Hl & Hh & Hfirst). exists (S i).
    split; [lia|]. split; [exact Hl|]. split; [exact Hh|].
    intros [|j] r' Hj Hr'.
    + injection Hr' as <-. intros Hhead. apply row_is_head in Hhead. congruence.
    + apply (Hfirst j r'); [lia|exact Hr'].
Qed.

Lemma heads_alter_found u rows row i col v :
  find_from u rows 2 = Some (row, i) -> (0 < col)%nat ->
  head <$> alter (set_cell col v) (i - 2)%nat rows = head <$> rows.
Proof.
  intros H Hcol. destruct (find_from_lookup _ _ _ _ _ H) as (_ & Hl & Hr).
  apply list_eq. intros j. rewrite !list_lookup_fmap.
  destruct (decide (j = (i - 2)%nat)) as [->|Hne].
  - rewrite list_lookup_alter_eq, Hl. cbn. f_equal.
    apply head_set_cell; [assumption|]. now apply row_is_nonempty with (u := u).
  - now rewrite list_lookup_alter_ne by congruence.
Qed.

(** The world after the write of a cell of a row that was found. *)
Lemma values_update_users_cell_found u row i col v w :
  find_from u (users_rows w) 2 = Some (row, i) -> (0 < col)%nat ->
  cell_write w (snd (values_update_users_cell i col v w)) /\
  (users_rows (snd (values_update_users_cell i col v w)) = users_rows w \/
   users_rows (snd (values_update_users_cell i col v w))
   = alter (set_cell col v) (i - 2)%nat (users_rows w)).
Proof.
  intros H Hcol. pose proof (heads_alter_found _ _ _ _ col v H Hcol) as Hh.
  unfold values_update_users_cell, execute, mbind, M_bind, bind, modify.
  destruct (faults w) as [|[msg|] rest] eqn:E; cbn.
  - split; [|now right]. constructor; cbn; [now constructor|exact Hh|reflexivity|].
    now rewrite E.
  - split; [|now left]. constructor; cbn; [now constructor|reflexivity|reflexivity|].
    rewrite E. apply suffix_cons_r. reflexivity.
  - split; [|now right]. constructor; cbn; [now constructor|exact Hh|reflexivity|].
    rewrite E. apply suffix_cons_r. reflexivity.
Qed.

Lemma column_of_bounds field col :
  column_of field = Some col -> (1 <= col <= 6)%nat.
Proof.
  destruct field as [f|]; [|discriminate]. unfold column_of, field_map.
  intros H.
  repeat (apply lookup_insert_Some in H as [[_ <-]|[_ H]]; [lia|]).
  now rewrite lookup_empty in H.
Qed.

Lemma snd_try_ret {A B} (m : M A) (y : B) (z : exn -> B) w :
  snd (try_except (m;; ret y) (fun e => ret (z e)) w) = snd (m w).
Proof.
  unfold try_except, mbind, M_bind, bind. now destruct (m w) as [[a|e] w1].
Qed.

Lemma update_user_balance_cell_write u b :
  keeps cell_write (update_user_balance u b).
Proof.
  intros w. unfold update_user_balance.
  destruct (find_user_by_username_soft u w) as (r & E & Hr).
  pose proof (find_user_by_username_sheet_read u w) as SR.
  apply sheet_read_cell_write in SR.
  unfold try_except. rewrite (bind_run _ _ _ _ E).
  set (w1 := snd (find_user_by_username u w)) in *.
  destruct Hr as [->| ->]; [|exact SR].
  destruct (find_from u (users_rows w) 2) as [[row i]|] eqn:Hfind; [|exact SR].
  assert (Hfind1 : find_from u (users_rows w1) 2 = Some (row, i)).
  { rewrite <- Hfind. f_equal.
    apply (ro_users _ _ (find_user_by_username_reads u w)). }
  destruct (values_update_users_cell_found u row i 7 (py_str_float b) w1 Hfind1)
    as [CW _]; [lia|].
  etransitivity; [exact SR|].
  change (cell_write w1 (snd (try_except
            (values_update_users_cell i 7 (py_str_float b);;
             ret (true, "Balance updated successfully"))
            (fun e => ret (false, "Error: " +:+ exn_str e)) w1))).
  now rewrite snd_try_ret.
Qed.

Lemma update_user_profile_cell_write u field value :
  keeps cell_write (update_user_profile u field value).
Proof.
  intros w. unfold update_user_profile.
  destruct (find_user_by_username_soft u w) as (r & E & Hr).
  pose proof (find_user_by_username_sheet_read u w) as SR.
  apply sheet_read_cell_write in SR.
  unfold try_except. rewrite (bind_run _ _ _ _ E).
  set (w1 := snd (find_user_by_username u w)) in *.
  destruct Hr as [->| ->]; [|exact SR].
  destruct (find_from u (users_rows w) 2) as [[row i]|] eqn:Hfind; [|exact SR].
  destruct (column_of field) as [col|] eqn:Hcol; [|exact SR].
  assert (Hfind1 : find_from u (users_rows w1) 2 = Some (row, i)).
  { rewrite <- Hfind. f_equal.
    apply (ro_users _ _ (find_user_by_username_reads u w)). }
  destruct (values_update_users_cell_found u row i col value w1 Hfind1)
    as [CW _]; [apply column_of_bounds in Hcol; lia|].
  etransitivity; [exact SR|].
  change (cell_write w1 (snd (try_except
            (values_update_users_cell i col value;;
             ret (true, title (replace_underscore (py_str (of_opt field)))
                        +:+ " updated successfully"))
            (fun e => ret (false, "Error: " +:+ exn_str e)) w1))).
  now rewrite snd_try_ret.
Qed.

(** ** What every message keeps *)

#[local] Instance session_step_preorder user_id : PreOrder (session_step user_id).
Proof.
  split.
  - intros w. constructor; try reflexivity; try (intros; reflexivity).
    exists []. split; [now rewrite app_nil_r|constructor].
  - intros w1 w2 w3 [] [].
    constructor; try (etransitivity; eassumption).
    + intros other Hne. now rewrite ss_sessions1, ss_sessions0.
    + intros other Hne. now rewrite ss_pending1, ss_pending0.
    + destruct ss_outbox0 as (r1 & E1 & F1), ss_outbox1 as (r2 & E2 & F2).
      exists (r1 ++ r2)%list. split; [|now apply Forall_app].
      now rewrite E2, E1, <- app_assoc.
Qed.

#[local] Instance message_step_preorder user_id : PreOrder (message_step user_id).
Proof.
  split.
  - intros w. constructor; try reflexivity; try (intros; reflexivity).
    exists []. split; [now rewrite app_nil_r|constructor].
  - intros w1 w2 w3 [] [].
    constructor; try (etransitivity; eassumption).
    + intros other Hne. now rewrite ms_sessions1, ms_sessions0.
    + intros other Hne. now rewrite ms_pending1, ms_pending0.
    + destruct ms_outbox0 as (r1 & E1 & F1), ms_outbox1 as (r2 & E2 & F2).
      exists (r1 ++ r2)%list. split; [|now apply Forall_app].
      now rewrite E2, E1, <- app_assoc.
Qed.

Lemma session_step_message_step user_id w w' :
  session_step user_id w w' -> message_step user_id w w'.
Proof.
  intros []. constructor; try assumption.
  - now rewrite ss_users0.
  - now rewrite ss_payments0.
  - now rewrite ss_faults0.
Qed.

Lemma cell_write_message_step user_id w w' :
  cell_write w w' -> message_step user_id w w'.
Proof.
  intros [[] Hu Hp Hf]. constructor; try assumption.
  - intros other _. now rewrite so_active0.
  - intros other _. now rewrite so_pending0.
  - exists []. split; [now rewrite app_nil_r|constructor].
  - now rewrite Hu.
  - now rewrite Hp.
Qed.

(** The session store and the replies. *)
Lemma update_session_step user_id f :
  keeps (session_step user_id) (update_session user_id f).
Proof.
  apply keeps_modify. intros w.
  destruct (active_users w !! user_id); [|reflexivity].
  constructor; try reflexivity; cbn.
  - intros other Hne. now apply lookup_insert_ne.
  - exists []. split; [now rewrite app_nil_r|constructor].
Qed.

Lemma assign_session_step user_id f :
  keeps (session_step user_id) (assign_session user_id f).
Proof.
  unfold assign_session, session_of. keeps_auto.
  apply keeps_modify. intros w. constructor; try reflexivity; cbn.
  - intros other Hne. now apply lookup_insert_ne.
  - exists []. split; [now rewrite app_nil_r|constructor].
Qed.

Lemma start_session_step user_id :
  keeps (session_step user_id) (start_session user_id).
Proof.
  apply keeps_modify. intros w.
  destruct (active_users w !! user_id); [reflexivity|].
  constructor; try reflexivity; cbn.
  - intros other Hne. now apply lookup_insert_ne.
  - exists []. split; [now rewrite app_nil_r|constructor].
Qed.

Lemma end_session_step user_id :
  keeps (session_step user_id) (end_session user_id).
Proof.
  apply keeps_modify. intros w.
  destruct (active_users w !! user_id); [|reflexivity].
  constructor; try reflexivity; cbn.
  - intros other Hne. now apply lookup_delete_ne.
  - exists []. split; [now rewrite app_nil_r|constructor].
Qed.

Lemma reply_text_step user_id text m :
  keeps (session_step user_id) (reply_text user_id text m).
Proof.
  apply keeps_modify. intros w. constructor; try reflexivity; cbn.
  eexists. split; [reflexivity|]. now repeat constructor.
Qed.

Lemma prompt_login_username_step user_id :
  keeps (session_step user_id) (prompt_login_username user_id).
Proof.
  unfold prompt_login_username.
  apply keeps_bind; [exact _|apply reply_text_step|]. intros _.
  apply keeps_modify. intros w. constructor; try reflexivity; cbn.
  - intros other Hne. rewrite elem_of_union, elem_of_singleton. tauto.
  - exists []. split; [now rewrite app_nil_r|constructor].
Qed.

Lemma del_login_username_provided_step user_id :
  keeps (session_step user_id) (del_login_username_provided user_id).
Proof.
  intros w. unfold del_login_username_provided. rewrite bind_get_world.
  case_bool_decide; [|reflexivity].
  constructor; try reflexivity; cbn.
  - intros other Hne. rewrite elem_of_difference, elem_of_singleton. tauto.
  - exists []. split; [now rewrite app_nil_r|constructor].
Qed.

Lemma getters_step user_id :
  keeps (session_step user_id) (is_logged_in user_id) /\
  keeps (session_step user_id) (get_username user_id) /\
  keeps (session_step user_id) (get_registration_state user_id) /\
  keeps (session_step user_id) (get_registration_data user_id) /\
  keeps (session_step user_id) (get_withdraw_state user_id) /\
  keeps (session_step user_id) (get_withdraw_data user_id) /\
  keeps (session_step user_id) (get_update_profile_state user_id) /\
  keeps (session_step user_id) (get_update_field user_id).
Proof.
  repeat apply conj;
    try (intros w; rewrite get_username_run; reflexivity);
    unfold is_logged_in, get_registration_state, get_registration_data,
      get_withdraw_state, get_withdraw_data, get_update_profile_state,
      get_update_field; keeps_auto.
Qed.

(** A relation that the session store, the reads and the four writes
    of the helper keep is kept by the handling of any message. *)
Section Frame.

Context (R : relation World) `{!PreOrder R} (user_id : Z).

Hypothesis R_session : forall w w', session_step user_id w w' -> R w w'.
Hypothesis R_read : forall w w', sheet_read w w' -> R w w'.
Hypothesis R_register : forall row, keeps R (sheets_register_user row).
Hypothesis R_payment : forall row, keeps R (add_payment_request row).
Hypothesis R_balance : forall u b, keeps R (update_user_balance u b).
Hypothesis R_profile : forall u f v, keeps R (update_user_profile u f v).

Lemma frame_session {A} (m : M A) : keeps (session_step user_id) m -> keeps R m.
Proof. apply keeps_weaken, R_session. Qed.

Lemma frame_read {A} (m : M A) : keeps sheet_read m -> keeps R m.
Proof. apply keeps_weaken, R_read. Qed.

Lemma frame_update_session f : keeps R (update_session user_id f).
Proof. apply frame_session, update_session_step. Qed.

Lemma frame_assign_session f : keeps R (assign_session user_id f).
Proof. apply frame_session, assign_session_step. Qed.

Lemma frame_session_of : keeps R (session_of user_id).
Proof. unfold session_of. keeps_auto. Qed.

Lemma frame_start_session : keeps R (start_session user_id).
Proof. apply frame_session, start_session_step. Qed.

Lemma frame_end_session : keeps R (end_session user_id).
Proof. apply frame_session, end_session_step. Qed.

Lemma frame_reply_text text m : keeps R (reply_text user_id text m).
Proof. apply frame_session, reply_text_step. Qed.

Lemma frame_prompt_login_username : keeps R (prompt_login_username user_id).
Proof. apply frame_session, prompt_login_username_step. Qed.

Lemma frame_del_login_username_provided :
  keeps R (del_login_username_provided user_id).
Proof. apply frame_session, del_login_username_provided_step. Qed.

Lemma frame_is_logged_in : keeps R (is_logged_in user_id).
Proof. apply frame_session, getters_step. Qed.

Lemma frame_get_username : keeps R (get_username user_id).
Proof. apply frame_session, getters_step. Qed.

Lemma frame_get_registration_state : keeps R (get_registration_state user_id).
Proof. apply frame_session, getters_step. Qed.

Lemma frame_get_registration_data : keeps R (get_registration_data user_id).
Proof. apply frame_session, getters_step. Qed.

Lemma frame_get_withdraw_state : keeps R (get_withdraw_state user_id).
Proof. apply frame_session, getters_step. Qed.

Lemma frame_get_withdraw_data : keeps R (get_withdraw_data user_id).
Proof. apply frame_session, getters_step. Qed.

Lemma frame_get_update_profile_state : keeps R (get_update_profile_state user_id).
Proof. apply frame_session, getters_step. Qed.

Lemma frame_get_update_field : keeps R (get_update_field user_id).
Proof. apply frame_session, getters_step. Qed.

Lemma frame_find_user_by_username u : keeps R (find_user_by_username u).
Proof. apply frame_read, find_user_by_username_sheet_read. Qed.

Lemma frame_get_user_balance u : keeps R (get_user_balance u).
Proof. apply frame_read, get_user_balance_sheet_read. Qed.

Lemma frame_get_user_payment_info u : keeps R (get_user_payment_info u).
Proof. apply frame_read, get_user_payment_info_sheet_read. Qed.

#[local] Hint Resolve frame_update_session frame_assign_session frame_session_of
  frame_start_session frame_end_session frame_reply_text
  frame_prompt_login_username frame_del_login_username_provided
  frame_is_logged_in frame_get_username frame_get_registration_state
  frame_get_registration_data frame_get_withdraw_state frame_get_withdraw_data
  frame_get_update_profile_state frame_get_update_field
  frame_find_user_by_username frame_get_user_balance
  frame_get_user_payment_info R_register R_payment R_balance R_profile : keeps.

Ltac frame_auto :=
  unfold set_registration_state, set_registration_data, set_withdraw_state,
    set_withdraw_data, set_update_profile_state, set_update_field,
    info_get, float_of, float_sub;
  keeps_auto.

Lemma frame_main_menu : keeps R (main_menu user_id).
Proof. unfold main_menu. frame_auto. Qed.

Lemma frame_register_user : keeps R (register_user user_id).
Proof. unfold register_user. frame_auto. Qed.

Lemma frame_login_user name : keeps R (login_user user_id name).
Proof. unfold login_user. frame_auto. Qed.

#[local] Hint Resolve frame_main_menu frame_register_user frame_login_user : keeps.

Lemma frame_handle_registration text state :
  keeps R (handle_registration user_id text state).
Proof. unfold handle_registration. frame_auto. Qed.

Lemma frame_process_login text : keeps R (process_login user_id text).
Proof. unfold process_login. frame_auto. Qed.

Lemma frame_process_withdrawal_request payment_mode :
  keeps R (process_withdrawal_request user_id payment_mode).
Proof. unfold process_withdrawal_request. frame_auto. Qed.

#[local] Hint Resolve frame_process_withdrawal_request : keeps.

Lemma frame_handle_withdrawal text state :
  keeps R (handle_withdrawal user_id text state).
Proof. unfold handle_withdrawal. frame_auto. Qed.

Lemma frame_handle_profile_update text state :
  keeps R (handle_profile_update user_id text state).
Proof. unfold handle_profile_update. frame_auto. Qed.

#[local] Hint Resolve frame_handle_registration frame_process_login
  frame_handle_withdrawal frame_handle_profile_update : keeps.

Lemma frame_handle_dialogue text : keeps R (handle_dialogue user_id text).
Proof. unfold handle_dialogue. frame_auto. Qed.

#[local] Hint Resolve frame_handle_dialogue : keeps.

Lemma handle_message_keeps text : keeps R (handle_message user_id text).
Proof.
  unfold handle_message, start, logout, start_registration, check_balance,
    start_withdrawal, join_channel, start_profile_update.
  frame_auto.
Qed.

Lemma dispatch_keeps u : keeps R (dispatch user_id u).
Proof.
  destruct u; cbn [dispatch]; [unfold start; frame_auto|keeps_auto|].
  apply handle_message_keeps.
Qed.

End Frame.

(** *** The steps of a message *)

Lemma sheet_read_message_step user_id w w' :
  sheet_read w w' -> message_step user_id w w'.
Proof. intros H. now apply cell_write_message_step, sheet_read_cell_write. Qed.

Lemma values_append_users_step user_id row :
  keeps (message_step user_id) (values_append_users row).
Proof.
  intros w. unfold values_append_users, execute, mbind, M_bind, bind, modify.
  destruct (faults w) as [|[msg|] rest] eqn:E; cbn;
    (constructor; cbn; try reflexivity; try (intros; reflexivity);
     [exists []; split; [now rewrite app_nil_r|constructor]|..]);
    rewrite ?fmap_app, ?E;
    try apply prefix_app_r; try reflexivity; apply suffix_cons_r; reflexivity.
Qed.

Lemma values_append_payments_step user_id row :
  keeps (message_step user_id) (values_append_payments row).
Proof.
  intros w. unfold values_append_payments, execute, mbind, M_bind, bind, modify.
  destruct (faults w) as [|[msg|] rest] eqn:E; cbn;
    (constructor; cbn; try reflexivity; try (intros; reflexivity);
     [exists []; split; [now rewrite app_nil_r|constructor]|..]);
    rewrite ?E;
    try apply prefix_app_r; try reflexivity; apply suffix_cons_r; reflexivity.
Qed.

Lemma ensure_headers_step user_id sh h :
  keeps (message_step user_id) (ensure_headers sh h).
Proof.
  eapply keeps_weaken; [apply sheet_read_message_step|].
  apply ensure_headers_sheet_read.
Qed.

Lemma find_user_by_username_step user_id u :
  keeps (message_step user_id) (find_user_by_username u).
Proof.
  eapply keeps_weaken; [apply sheet_read_message_step|].
  apply find_user_by_username_sheet_read.
Qed.

#[local] Hint Resolve values_append_users_step values_append_payments_step
  ensure_headers_step find_user_by_username_step : keeps.

Lemma sheets_register_user_step user_id row :
  keeps (message_step user_id) (sheets_register_user row).
Proof. unfold sheets_register_user. keeps_auto. Qed.

Lemma add_payment_request_step user_id row :
  keeps (message_step user_id) (add_payment_request row).
Proof. unfold add_payment_request. keeps_auto. Qed.

Lemma dispatch_step user_id u :
  keeps (message_step user_id) (dispatch user_id u).
Proof.
  apply dispatch_keeps; try exact _.
  - apply session_step_message_step.
  - apply sheet_read_message_step.
  - apply sheets_register_user_step.
  - apply add_payment_request_step.
  - intros name b. eapply keeps_weaken; [apply cell_write_message_step|].
    apply update_user_balance_cell_write.
  - intros name f v. eapply keeps_weaken; [apply cell_write_message_step|].
    apply update_user_profile_cell_write.
Qed.

(** X2.  A run of the bot leaves alone the session and the login flag of
    every user who sends nothing in it. *)
Theorem updates_leave_other_users_alone (other : Z)
    (updates : list (Z * update)) (w : World) :
  Forall (fun turn => fst turn <> other) updates ->
  active_users (after_updates updates w) !! other = active_users w !! other /\
  (other ∈ pending_login (after_updates updates w) <-> other ∈ pending_login w).
Proof.
  intros H. revert w. induction H as [|[user_id u] updates Hne _ IH]; intros w.
  - now split.
  - cbn [after_updates]. destruct (IH (snd (dispatch user_id u w))) as [-> ->].
    destruct (dispatch_step user_id u w).
    split; [apply ms_sessions0|apply ms_pending0]; cbn in Hne; congruence.
Qed.

(** X3.  The outbox only grows, and every reply of a run goes to a user
    who sent an update in it. *)
Theorem replies_go_to_the_senders (updates : list (Z * update)) (w : World) :
  exists replies,
    outbox (after_updates updates w) = (outbox w ++ replies)%list /\
    Forall (fun r => chat r ∈ (fst <$> updates)) replies.
Proof.
  revert w. induction updates as [|[user_id u] updates IH]; intros w.
  - exists []. split; [now rewrite app_nil_r|constructor].
  - cbn [after_updates]. destruct (IH (snd (dispatch user_id u w))) as (r2 & -> & F2).
    destruct (dispatch_step user_id u w) as [_ _ (r1 & -> & F1) _ _ _ _].
    exists (r1 ++ r2)%list. split; [now rewrite app_assoc|].
    apply Forall_app. split.
    + eapply Forall_impl; [exact F1|]. cbn. intros r ->. left.
    + eapply Forall_impl; [exact F2|]. cbn. intros r Hr. now right.
Qed.

(** X4.  The Payments table is append-only: a run of the bot never
    removes or rewrites a payment row. *)
Theorem payments_are_append_only (updates : list (Z * update)) (w : World) :
  payments_rows w `prefix_of` payments_rows (after_updates updates w).
Proof.
  revert w. induction updates as [|[user_id u] updates IH]; intros w; [reflexivity|].
  cbn [after_updates]. etransitivity; [|apply IH].
  apply (ms_payments _ _ _ (dispatch_step user_id u w)).
Qed.

(** X5.  No account is ever removed or renamed: every row of the Users
    table is still there after a run of the bot, at its place and with
    its first cell, the username. *)
Theorem accounts_are_never_removed_or_renamed (updates : list (Z * update))
    (w : World) (i : nat) (row : list string) :
  users_rows w !! i = Some row ->
  exists row',
    users_rows (after_updates updates w) !! i = Some row' /\ head row' = head row.
Proof.
  assert (P : (head <$> users_rows w)
                `prefix_of` (head <$> users_rows (after_updates updates w))).
  { revert w. induction updates as [|[user_id u] updates IH]; intros w; [reflexivity|].
    cbn [after_updates]. etransitivity; [|apply IH].
    apply (ms_users _ _ _ (dispatch_step user_id u w)). }
  intros Hrow.
  assert (L : (head <$> users_rows w) !! i = Some (head row))
    by now rewrite list_lookup_fmap, Hrow.
  eapply prefix_lookup_Some in L; [|exact P].
  rewrite list_lookup_fmap in L.
  destruct (users_rows (after_updates updates w) !! i) as [row'|]; [|discriminate].
  exists row'. split; [reflexivity|]. cbn in L. congruence.
Qed.

(** ** Unique usernames *)

Lemma unique_usernames_heads rows rows' :
  head <$> rows' = head <$> rows ->
  unique_usernames rows -> unique_usernames rows'.
Proof.
  intros Hh U i j ri rj name Hi Hj Hri Hrj.
  assert (L : forall k r, rows' !! k = Some r ->
                exists r0, rows !! k = Some r0 /\ head r0 = head r).
  { intros k r Hk.
    assert (E : (head <$> rows') !! k = Some (head r))
      by now rewrite list_lookup_fmap, Hk.
    rewrite Hh, list_lookup_fmap in E.
    destruct (rows !! k) as [r0|]; [|discriminate].
    exists r0. split; [reflexivity|]. cbn in E. congruence. }
  destruct (L _ _ Hi) as (ri0 & Hi0 & Ei), (L _ _ Hj) as (rj0 & Hj0 & Ej).
  apply (U i j ri0 rj0 name); congruence.
Qed.

Lemma unique_usernames_app rows row name :
  head row = Some name -> ~ has_username name rows ->
  unique_usernames rows -> unique_usernames (rows ++ [row])%list.
Proof.
  intros Hrow Hfresh U i j ri rj n Hi Hj Hri Hrj.
  assert (Old : forall k r, (rows ++ [row])%list !! k = Some r -> head r = Some n ->
                  (k < length rows)%nat ->
                  rows !! k = Some r).
  { intros k r Hk _ Hlt. now rewrite lookup_app_l in Hk. }
  assert (New : forall k r, (rows ++ [row])%list !! k = Some r ->
                  (length rows <= k)%nat -> k = length rows /\ r = row).
  { intros k r Hk Hge. rewrite lookup_app_r in Hk by assumption.
    destruct (k - length rows)%nat as [|d] eqn:Ed; cbn in Hk; [|discriminate].
    split; [lia|congruence]. }
  destruct (Nat.lt_ge_cases i (length rows)) as [Hil|Hig],
           (Nat.lt_ge_cases j (length rows)) as [Hjl|Hjg].
  - eapply U; eauto.
  - destruct (New _ _ Hj Hjg) as [-> ->]. exfalso. apply Hfresh.
    exists ri. split; [eapply list_elem_of_lookup_2; eauto|congruence].
  - destruct (New _ _ Hi Hig) as [-> ->]. exfalso. apply Hfresh.
    exists rj. split; [eapply list_elem_of_lookup_2; eauto|congruence].
  - destruct (New _ _ Hi Hig) as [-> _], (New _ _ Hj Hjg) as [-> _]. reflexivity.
Qed.

Lemma has_username_dec name rows :
  has_username name rows \/ ~ has_username name rows.
Proof.
  destruct (find_from (Some name) rows 2) as [[row j]|] eqn:E.
  - left. destruct (find_from_lookup _ _ _ _ _ E) as (_ & Hl & Hr).
    exists row. split; [eapply list_elem_of_lookup_2; eauto|].
    now apply row_is_head.
  - right. now apply find_from_None in E.
Qed.

Lemma sheets_register_user_taken row name w :
  faults w = [] ->
  head row = Some name ->
  has_username name (users_rows w) ->
  exists w',
    sheets_register_user row w = (Ok (false, "Username already exists"), w') /\
    reads_only w w' /\
    faults w' = [].
Proof.
  intros Hf Hrow Hhas. unfold sheets_register_user, try_except.
  destruct (ensure_headers_ok UsersSheet USER_HEADERS w Hf) as [E1 F1].
  pose proof (ensure_headers_reads UsersSheet USER_HEADERS w) as R1.
  rewrite (bind_run _ _ _ _ E1).
  destruct row as [|cell row]; [discriminate|]. injection Hrow as ->.
  rewrite bind_ret.
  set (w1 := snd (ensure_headers UsersSheet USER_HEADERS w)) in *.
  destruct (find_user_by_username_ok (Some name) w1 F1) as [E2 F2].
  pose proof (find_user_by_username_reads (Some name) w1) as R2.
  rewrite (ro_users _ _ R1) in E2.
  destruct (find_from_Some name (users_rows w) 2 Hhas) as (r & j & Hfind & _).
  rewrite Hfind in E2. rewrite (bind_run _ _ _ _ E2). cbn.
  eexists. split; [reflexivity|]. split; [etransitivity; eassumption|exact F2].
Qed.

#[local] Instance uniqueness_kept_preorder : PreOrder uniqueness_kept.
Proof.
  split.
  - intros w Hf. auto.
  - intros w1 w2 w3 H1 H2 Hf.
    destruct (H1 Hf) as [F2 U2]. destruct (H2 F2) as [F3 U3]. auto.
Qed.

Lemma cell_write_uniqueness_kept w w' : cell_write w w' -> uniqueness_kept w w'.
Proof.
  intros [_ Hh _ Hs] Hf. rewrite Hf in Hs. apply suffix_nil_inv in Hs.
  split; [exact Hs|]. now apply unique_usernames_heads.
Qed.

Lemma sheets_register_user_uniqueness_kept row :
  keeps uniqueness_kept (sheets_register_user row).
Proof.
  intros w Hf.
  destruct row as [|name rest].
  { assert (SR : sheet_read w (snd (sheets_register_user [] w))).
    { apply (keeps_weaken sheet_read sheet_read); [auto|].
      unfold sheets_register_user. keeps_auto. }
    now apply (cell_write_uniqueness_kept _ _ (sheet_read_cell_write _ _ SR)). }
  destruct (has_username_dec name (users_rows w)) as [Hhas|Hfresh].
  - destruct (sheets_register_user_taken (name :: rest) name w Hf eq_refl Hhas)
      as (w' & -> & RO & F). cbn. split; [exact F|].
    now rewrite (ro_users _ _ RO).
  - destruct (sheets_register_user_ok (name :: rest) name w Hf eq_refl Hfresh)
      as (w' & -> & Hrows & _ & _ & F). cbn. split; [exact F|].
    rewrite Hrows. now apply unique_usernames_app with (name := name).
Qed.

Lemma dispatch_uniqueness_kept user_id u :
  keeps uniqueness_kept (dispatch user_id u).
Proof.
  apply dispatch_keeps; try exact _.
  - intros w w' [] Hf. split; [congruence|]. now rewrite ss_users0.
  - intros w w' SR. now apply cell_write_uniqueness_kept, sheet_read_cell_write.
  - apply sheets_register_user_uniqueness_kept.
  - intros row w Hf.
    destruct (add_payment_request_ok row w Hf) as (w' & -> & _ & Hrows & _ & F).
    cbn. split; [exact F|]. now rewrite Hrows.
  - intros name b. eapply keeps_weaken; [apply cell_write_uniqueness_kept|].
    apply update_user_balance_cell_write.
  - intros name f v. eapply keeps_weaken; [apply cell_write_uniqueness_kept|].
    apply update_user_profile_cell_write.
Qed.

(** X6.  With a transport that answers, usernames stay unique: if no
    two rows of the Users table start with the same username, the same
    holds after any run of the bot. *)
Theorem usernames_stay_unique (updates : list (Z * update)) (w : World) :
  faults w = [] ->
  unique_usernames (users_rows w) ->
  unique_usernames (users_rows (after_updates updates w)).
Proof.
  revert w. induction updates as [|[user_id u] updates IH]; intros w Hf U;
    [exact U|].
  cbn [after_updates].
  destruct (dispatch_uniqueness_kept user_id u w Hf) as [F U'].
  apply IH; auto.
Qed.

(** * The record store, with a transport that answers *)

Lemma values_update_header_ok sh h w :
  faults w = [] ->
  values_update_header sh h w
  = (Ok tt, set_header sh (h ++ drop (length h) (header_of sh w))%list w).
Proof.
  intros Hf. unfold values_update_header.
  rewrite bind_run with (a := tt) by now rewrite execute_ok.
  now rewrite execute_ok.
Qed.

Lemma ensure_headers_run sh h w :
  faults w = [] ->
  ensure_headers sh h w
  = (Ok true,
     if match header_of sh w with [] => false | hd => bool_decide (hd = h) end
     then w
     else set_header sh (h ++ drop (length h) (header_of sh w))%list w).
Proof.
  intros Hf. unfold ensure_headers, try_except.
  rewrite bind_run with (a := match header_of sh w with [] => [] | h => [h] end)
    by now rewrite values_get_header_ok.
  rewrite values_get_header_ok by assumption. cbn [snd].
  destruct (header_of sh w) as [|c hd] eqn:E.
  - rewrite bind_run with (a := tt) by now rewrite values_update_header_ok.
    rewrite values_update_header_ok by assumption. now rewrite E.
  - case_bool_decide; [reflexivity|].
    rewrite bind_run with (a := tt) by now rewrite values_update_header_ok.
    rewrite values_update_header_ok by assumption. now rewrite E.
Qed.

Lemma header_of_set_header sh h w : header_of sh (set_header sh h w) = h.
Proof. now destruct sh. Qed.

Lemma set_header_same sh w : set_header sh (header_of sh w) w = w.
Proof. now destruct sh, w. Qed.

(** X7.  With a transport that answers, [ensure_headers] returns [True]
    and leaves the first row of the sheet starting with the expected
    headers: it writes them over the cells they cover and keeps the cells
    behind them.  Nothing else changes, and a second run changes nothing
    at all. *)
Theorem ensure_headers_heals (sh : sheet) (headers : list string) (w : World) :
  faults w = [] ->
  exists w',
    ensure_headers sh headers w = (Ok true, w') /\
    header_of sh w' = (headers ++ drop (length headers) (header_of sh w))%list /\
    (forall other, other <> sh -> header_of other w' = header_of other w) /\
    reads_only w w' /\
    faults w' = [] /\
    ensure_headers sh headers w' = (Ok true, w').
Proof.
  intros Hf. rewrite (ensure_headers_run sh headers w Hf).
  eexists. split; [reflexivity|].
  match goal with |- context [if ?c then w else ?w1] =>
    set (w' := if c then w else w1);
    assert (Hh : header_of sh w'
                 = (headers ++ drop (length headers) (header_of sh w))%list);
    [|assert (Hrest : w' = w \/ w' = w1) by (subst w'; destruct c; auto)]
  end.
  { subst w'. destruct (header_of sh w) as [|c hd] eqn:E.
    - now rewrite header_of_set_header.
    - case_bool_decide as Heq.
      + rewrite E, <- Heq. now rewrite drop_all, app_nil_r.
      + now rewrite header_of_set_header. }
  assert (Hf' : faults w' = []).
  { destruct Hrest as [->| ->]; [assumption|]. now destruct sh. }
  split; [exact Hh|]. split; [|split; [|split; [exact Hf'|]]].
  - intros other Hne. destruct Hrest as [->| ->]; [reflexivity|].
    destruct other, sh; try contradiction; reflexivity.
  - destruct Hrest as [->| ->]; [reflexivity|]. destruct sh; now constructor.
  - rewrite (ensure_headers_run sh headers w' Hf'). f_equal.
    assert (Hd : (headers ++ drop (length headers) (header_of sh w'))%list
                 = header_of sh w').
    { rewrite Hh at 2. f_equal. rewrite Hh.
      now rewrite drop_app_length. }
    rewrite Hd, set_header_same.
    match goal with |- (if ?c then _ else _) = _ => now destruct c end.
Qed.

(** X8.  [find_user_by_username] returns the first row of the table
    whose first cell is the username, with its sheet row number (the
    index in the table plus 2, row 1 being the header), and [None] when
    no row starts with the username.  It changes no data row, session,
    login flag or reply (the header row may be healed on the way). *)
Theorem find_user_by_username_first_match (name : string) (w : World) :
  faults w = [] ->
  exists found w',
    find_user_by_username (Some name) w = (Ok found, w') /\
    reads_only w w' /\
    match found with
    | Some (row, n) =>
        exists i, n = (i + 2)%nat /\ users_rows w !! i = Some row /\
                  head row = Some name /\
                  forall j r, (j < i)%nat -> users_rows w !! j = Some r ->
                              head r <> Some name
    | None => ~ has_username name (users_rows w)
    end.
Proof.
  intros Hf. destruct (find_user_by_username_ok (Some name) w Hf) as [E _].
  pose proof (find_user_by_username_reads (Some name) w) as RO.
  destruct (find_user_by_username (Some name) w) as [r w']. cbn in *. subst r.
  eexists _, _. split; [reflexivity|]. split; [exact RO|].
  destruct (find_from (Some name) (users_rows w) 2) as [[row n]|] eqn:Hfind.
  - now apply find_from_first.
  - now apply find_from_None in Hfind.
Qed.

(** X9.  With a transport that answers, the helper's [register_user]
    accepts a row exactly when no row of the table starts with its
    username: it then appends the row, and otherwise answers "Username
    already exists" and writes nothing.  The sessions, the replies and
    the Payments table are untouched either way. *)
Theorem sheets_register_user_accepts_fresh_names (name : string)
    (rest : list string) (w : World) :
  faults w = [] ->
  exists w',
    store_only w w' /\ payments_rows w' = payments_rows w /\ faults w' = [] /\
    ((has_username name (users_rows w) /\
      sheets_register_user (name :: rest) w
        = (Ok (false, "Username already exists"), w') /\
      users_rows w' = users_rows w) \/
     (~ has_username name (users_rows w) /\
      sheets_register_user (name :: rest) w
        = (Ok (true, "User registered successfully"), w') /\
      users_rows w' = (users_rows w ++ [name :: rest])%list)).
Proof.
  intros Hf. destruct (has_username_dec name (users_rows w)) as [Hhas|Hfresh].
  - destruct (sheets_register_user_taken (name :: rest) name w Hf eq_refl Hhas)
      as (w' & E & RO & F).
    exists w'. split; [now apply reads_only_store_only|].
    split; [apply RO|]. split; [exact F|]. left.
    split; [exact Hhas|]. split; [exact E|apply RO].
  - destruct (sheets_register_user_ok (name :: rest) name w Hf eq_refl Hfresh)
      as (w' & E & Hrows & SO & Hpay & F).
    exists w'. split; [exact SO|]. split; [exact Hpay|]. split; [exact F|].
    right. auto.
Qed.

(** X10.  [add_payment_request] never raises.  Whatever the transport
    does, it either reports success and has appended exactly the given
    row with the time stamp and "Pending" behind it, or reports failure
    and has appended nothing; the Users table and the sessions are
    untouched. *)
Theorem add_payment_request_appends_or_reports (payment_data : list pyval)
    (w : World) :
  exists ok message w',
    add_payment_request payment_data w = (Ok (ok, message), w') /\
    store_only w w' /\
    users_rows w' = users_rows w /\
    payments_rows w'
    = (if (ok : bool)
       then payments_rows w ++
            [(payment_data ++ [PyStr (clock w)]) ++ [PyStr "Pending"]]
       else payments_rows w)%list.
Proof.
  pose proof (ensure_headers_reads PaymentsSheet PAYMENT_HEADERS w) as R1.
  unfold add_payment_request, try_except, mbind, M_bind, bind.
  destruct (ensure_headers PaymentsSheet PAYMENT_HEADERS w) as [[b|e] w1];
    cbn in R1.
  2: { eexists false, _, _. split; [reflexivity|].
       split; [now apply reads_only_store_only|]. split; apply R1. }
  unfold get_world, values_append_payments, execute, mbind, M_bind, bind, modify.
  destruct (faults w1) as [|[msg|] rest]; cbn.
  - eexists true, _, _. split; [reflexivity|]. cbn.
    rewrite (ro_payments _ _ R1), (ro_clock _ _ R1).
    split; [|split; [apply R1|reflexivity]].
    destruct R1. now constructor.
  - eexists false, _, _. split; [reflexivity|]. cbn.
    split; [|split; apply R1]. destruct R1. now constructor.
  - eexists true, _, _. split; [reflexivity|]. cbn.
    rewrite (ro_payments _ _ R1), (ro_clock _ _ R1).
    split; [|split; [apply R1|reflexivity]].
    destruct R1. now constructor.
Qed.

Lemma find_from_alter_other u (g : list string -> list string) rows k i :
  (forall r, rows !! k = Some r -> row_is u r = false /\ row_is u (g r) = false) ->
  find_from u (alter g k rows) i = find_from u rows i.
Proof.
  revert k i. induction rows as [|r rows IH]; intros k i H; [reflexivity|].
  destruct k as [|k]; cbn [alter list_alter]; rewrite !find_from_cons.
  - destruct (H r eq_refl) as [-> ->]. reflexivity.
  - rewrite IH; [reflexivity|]. intros r' Hr'. now apply H.
Qed.

Lemma row_is_other name other r :
  head r = Some name -> other <> name -> row_is (Some other) r = false.
Proof.
  intros Hr Hne. destruct (row_is (Some other) r) eqn:E; [|reflexivity].
  apply row_is_head in E. congruence.
Qed.

Lemma alter_found_insert {A} (g : A -> A) (l : list A) k x :
  l !! k = Some x -> alter g k l = <[k := g x]> l.
Proof.
  intros H. apply list_eq. intros j.
  destruct (decide (j = k)) as [->|Hne].
  - rewrite list_lookup_alter_eq, H.
    rewrite list_lookup_insert_eq; [reflexivity|]. now apply lookup_lt_Some in H.
  - rewrite list_lookup_alter_ne by congruence.
    now rewrite list_lookup_insert_ne by congruence.
Qed.

(** X11.  A balance written by [update_user_balance] is the balance
    [get_user_balance] reads back, and the write touches nobody else: the
    table keeps its length and every other username keeps its balance.
    For a username the table does not hold the update reports "User not
    found" and changes no data row, session, login flag or reply (the
    header row may be healed on the way). *)
Theorem update_user_balance_round_trip (u : string) (new_balance : float)
    (w : World) :
  faults w = [] ->
  (has_username u (users_rows w) ->
   exists w',
     update_user_balance (Some u) new_balance w
       = (Ok (true, "Balance updated successfully"), w') /\
     fst (get_user_balance (Some u) w') = Ok (py_str_float new_balance) /\
     length (users_rows w') = length (users_rows w) /\
     (forall other, other <> u ->
        stored_balance (Some other) (users_rows w')
        = stored_balance (Some other) (users_rows w)) /\
     payments_rows w' = payments_rows w /\
     store_only w w') /\
  (~ has_username u (users_rows w) ->
   exists w',
     update_user_balance (Some u) new_balance w = (Ok (false, "User not found"), w') /\
     reads_only w w').
Proof.
  intros Hf. split.
  - intros Hhas.
    destruct (find_from_Some u (users_rows w) 2 Hhas) as (row & i & Hfind & _ & Hhead).
    destruct (update_user_balance_ok (Some u) new_balance row i w Hf Hfind)
      as (w' & E & Hrows & Hpay & SO & F).
    exists w'. split; [exact E|].
    destruct (get_user_balance_ok (Some u) w' F) as [Eb _].
    split.
    { rewrite Eb. f_equal. unfold stored_balance. rewrite Hrows.
      rewrite (find_from_set_cell _ _ _ _ _ 7%nat _ Hfind) by lia.
      now rewrite set_cell_lookup. }
    split; [rewrite Hrows; apply length_alter|].
    split; [|auto].
    intros other Hne. unfold stored_balance. rewrite Hrows.
    rewrite find_from_alter_other; [reflexivity|].
    intros r Hr. destruct (find_from_lookup _ _ _ _ _ Hfind) as (_ & Hl & Hrow).
    assert (r = row) as -> by congruence.
    split; [now apply row_is_other with (name := u)|].
    apply row_is_other with (name := u); [|assumption].
    rewrite head_set_cell; [assumption|lia|]. now apply row_is_nonempty in Hrow.
  - intros Hfresh. apply find_from_None with (i := 2%nat) in Hfresh.
    destruct (find_user_by_username_ok (Some u) w Hf) as [E _].
    pose proof (find_user_by_username_reads (Some u) w) as RO.
    rewrite Hfresh in E.
    unfold update_user_balance, try_except. rewrite (bind_run _ _ _ _ E). cbn.
    eexists. split; [reflexivity|exact RO].
Qed.

Lemma update_user_profile_ok u field col value row i w :
  faults w = [] ->
  find_from u (users_rows w) 2 = Some (row, i) ->
  column_of field = Some col ->
  exists w',
    update_user_profile u field value w
      = (Ok (true, title (replace_underscore (py_str (of_opt field)))
                   +:+ " updated successfully"), w') /\
    users_rows w' = alter (set_cell col value) (i - 2)%nat (users_rows w) /\
    payments_rows w' = payments_rows w /\
    store_only w w' /\
    faults w' = [].
Proof.
  intros Hf Hfind Hcol. unfold update_user_profile, try_except.
  destruct (find_user_by_username_ok u w Hf) as [E F].
  pose proof (find_user_by_username_reads u w) as RO.
  rewrite Hfind in E. rewrite (bind_run _ _ _ _ E), Hcol.
  unfold values_update_users_cell. rewrite bind_assoc.
  rewrite bind_run with (a := tt) by now rewrite execute_ok.
  rewrite execute_ok by assumption. cbn [snd].
  rewrite bind_modify.
  eexists. split; [reflexivity|]. cbn.
  rewrite (ro_users _ _ RO), (ro_payments _ _ RO).
  repeat split; auto; apply RO.
Qed.

(** X12.  With a transport that answers, [update_user_profile] on a field
    of its [field_map] writes the value into the column of that field, in
    the first row that starts with the username, and into no other cell;
    the payment details that [get_user_payment_info] reads afterwards are
    those of the rewritten row. *)
Theorem update_user_profile_writes_the_column (u field value : string)
    (col : nat) (w : World) :
  faults w = [] ->
  has_username u (users_rows w) ->
  field_map !! field = Some col ->
  exists w' k row,
    update_user_profile (Some u) (Some field) value w
      = (Ok (true, title (replace_underscore field) +:+ " updated successfully"),
         w') /\
    users_rows w !! k = Some row /\
    head row = Some u /\
    (forall j r, (j < k)%nat -> users_rows w !! j = Some r -> head r <> Some u) /\
    users_rows w' = <[k := set_cell col value row]> (users_rows w) /\
    set_cell col value row !! col = Some value /\
    (forall c, c <> col -> (c < length row)%nat ->
       set_cell col value row !! c = row !! c) /\
    fst (get_user_payment_info (Some u) w')
      = Ok (Some (payment_info_of (set_cell col value row))) /\
    payments_rows w' = payments_rows w /\
    store_only w w'.
Proof.
  intros Hf Hhas Hcol.
  destruct (find_from_Some u (users_rows w) 2 Hhas) as (row & n & Hfind & _).
  destruct (find_from_first _ _ _ _ _ Hfind) as (k & -> & Hl & Hh & Hfirst).
  destruct (update_user_profile_ok (Some u) (Some field) col value row _ w
              Hf Hfind Hcol) as (w' & E & Hrows & Hpay & SO & F).
  replace (k + 2 - 2)%nat with k in Hrows by lia.
  exists w', k, row. split; [exact E|].
  split; [exact Hl|]. split; [exact Hh|]. split; [exact Hfirst|].
  split; [rewrite Hrows; now apply alter_found_insert|].
  split; [apply set_cell_lookup|].
  split; [intros c Hne Hc; apply lookup_set_cell_ne; auto|].
  split; [|auto].
  destruct (get_user_payment_info_ok (Some u) w' F) as [Ei _].
  rewrite Ei, Hrows.
  assert (Hpos : (0 < col)%nat).
  { assert (column_of (Some field) = Some col) as B by exact Hcol.
    apply column_of_bounds in B. lia. }
  pose proof (find_from_set_cell _ _ _ _ _ col value Hfind Hpos) as Hfound.
  replace (k + 2 - 2)%nat with k in Hfound by lia.
  now rewrite Hfound.
Qed.

Lemma update_user_profile_rows u field value w :
  users_rows (snd (update_user_profile u field value w)) = users_rows w \/
  exists row i col,
    find_from u (users_rows w) 2 = Some (row, i) /\
    column_of field = Some col /\
    users_rows (snd (update_user_profile u field value w))
    = alter (set_cell col value) (i - 2)%nat (users_rows w).
Proof.
  unfold update_user_profile.
  destruct (find_user_by_username_soft u w) as (r & E & Hr).
  pose proof (find_user_by_username_reads u w) as RO.
  unfold try_except. rewrite (bind_run _ _ _ _ E).
  set (w1 := snd (find_user_by_username u w)) in *.
  destruct Hr as [->| ->]; [|left; apply RO].
  destruct (find_from u (users_rows w) 2) as [[row i]|] eqn:Hfind;
    [|left; apply RO].
  destruct (column_of field) as [col|] eqn:Hcol; [|left; apply RO].
  assert (Hfind1 : find_from u (users_rows w1) 2 = Some (row, i))
    by now rewrite (ro_users _ _ RO).
  destruct (values_update_users_cell_found u row i col value w1 Hfind1)
    as [_ H]; [apply column_of_bounds in Hcol; lia|].
  change (users_rows (snd (try_except
            (values_update_users_cell i col value;;
             ret (true, title (replace_underscore (py_str (of_opt field)))
                        +:+ " updated successfully"))
            (fun e => ret (false, "Error: " +:+ exn_str e)) w1)) = users_rows w \/
          exists row0 i0 col0,
            Some (row, i) = Some (row0, i0) /\ Some col = Some col0 /\
            users_rows (snd (try_except
              (values_update_users_cell i col value;;
               ret (true, title (replace_underscore (py_str (of_opt field)))
                          +:+ " updated successfully"))
              (fun e => ret (false, "Error: " +:+ exn_str e)) w1))
            = alter (set_cell col0 value) (i0 - 2)%nat (users_rows w)).
  rewrite snd_try_ret, <- (ro_users _ _ RO).
  destruct H as [H|H]; [now left|right; eauto 6].
Qed.

(** X13.  No profile update, valid or not and whatever the transport
    does, changes a username or a balance: after [update_user_profile]
    the Users table has the rows it had, each with its first cell and its
    balance cell, and the Payments table is as it was. *)
Theorem update_user_profile_keeps_identity (u field : option string)
    (value : string) (w : World) (i : nat) :
  let w' := snd (update_user_profile u field value w) in
  length (users_rows w') = length (users_rows w) /\
  head <$> users_rows w' !! i = head <$> users_rows w !! i /\
  (fun row => row !! 7%nat) <$> users_rows w' !! i
    = (fun row => row !! 7%nat) <$> users_rows w !! i /\
  payments_rows w' = payments_rows w.
Proof.
  cbn zeta.
  pose proof (update_user_profile_cell_write u field value w) as [_ Hh Hp _].
  destruct (update_user_profile_rows u field value w)
    as [->|(row & n & col & Hfind & Hcol & ->)]; [auto|].
  split; [apply length_alter|]. split; [|split; [|exact Hp]].
  - rewrite <- !list_lookup_fmap. now rewrite heads_alter_found with (u := u) (row := row)
      by (assumption || (apply column_of_bounds in Hcol; lia)).
  - destruct (decide (i = (n - 2)%nat)) as [->|Hne].
    + rewrite list_lookup_alter_eq.
      destruct (users_rows w !! (n - 2)%nat) as [r|]; [|reflexivity]. cbn.
      f_equal. apply lookup_set_cell_ne; [|right];
        apply column_of_bounds in Hcol; lia.
    + now rewrite list_lookup_alter_ne by congruence.
Qed.

(** * The record store, with a transport that fails *)

Lemma execute_pop w rest :
  faults w = None :: rest -> execute w = (Ok tt, set_faults rest w).
Proof. intros H. unfold execute. now rewrite H. Qed.

Lemma execute_raise w msg rest :
  faults w = Some msg :: rest ->
  execute w = (Raise (HttpError msg), set_faults rest w).
Proof. intros H. unfold execute. now rewrite H. Qed.

Lemma ensure_headers_pop w rest :
  users_header w = USER_HEADERS ->
  faults w = None :: rest ->
  ensure_headers UsersSheet USER_HEADERS w = (Ok true, set_faults rest w).
Proof.
  intros Hh Hf. unfold ensure_headers, try_except, values_get_header.
  rewrite bind_assoc.
  rewrite bind_run with (a := tt) by now rewrite (execute_pop _ _ Hf).
  rewrite (execute_pop _ _ Hf). cbn [snd]. rewrite bind_assoc, bind_get_world.
  cbn. now rewrite Hh.
Qed.

(** X14.  The duplicate check of the helper's [register_user] fails open.
    When the read of the rows fails (here: the two header reads are
    answered, the read of the rows raises, the append is answered), the
    table reads as empty, the username counts as new and the row is
    appended, also when a row of the table already starts with that
    username; the table then holds the username twice. *)
Theorem duplicate_check_fails_open (name msg : string) (rest : list string)
    (w : World) :
  users_header w = USER_HEADERS ->
  faults w = [None; None; Some msg] ->
  exists w',
    sheets_register_user (name :: rest) w
      = (Ok (true, "User registered successfully"), w') /\
    users_rows w' = (users_rows w ++ [name :: rest])%list /\
    (has_username name (users_rows w) -> ~ unique_usernames (users_rows w')).
Proof.
  intros Hh Hf. unfold sheets_register_user, try_except.
  rewrite bind_run with (a := true) by now rewrite (ensure_headers_pop _ _ Hh Hf).
  rewrite (ensure_headers_pop _ _ Hh Hf). cbn [snd]. rewrite bind_ret.
  set (w1 := set_faults [None; Some msg] w).
  assert (E : find_user_by_username (Some name) w1 = (Ok None, set_faults [] w)).
  { assert (G : get_all_users w1 = (Ok [], set_faults [] w)).
    { unfold get_all_users, try_except.
      rewrite bind_run with (a := true)
        by now rewrite (ensure_headers_pop w1 [Some msg] Hh eq_refl).
      rewrite (ensure_headers_pop w1 [Some msg] Hh eq_refl). cbn [snd].
      unfold values_get_users.
      rewrite bind_raises with (e := HttpError msg)
        by now rewrite (execute_raise (set_faults [Some msg] w1) msg []).
      now rewrite (execute_raise (set_faults [Some msg] w1) msg []). }
    unfold find_user_by_username.
    rewrite bind_run with (a := []) by now rewrite G.
    now rewrite G. }
  rewrite bind_run with (a := None) by now rewrite E.
  rewrite E. cbn [snd].
  rewrite bind_run with (a := tt) by now rewrite values_append_users_ok.
  rewrite values_append_users_ok by reflexivity. cbn.
  eexists. split; [reflexivity|]. split; [reflexivity|].
  intros (row & Hin & Hrow) U.
  apply list_elem_of_lookup_1 in Hin as [i Hi].
  assert (i = length (users_rows w)).
  { apply (U i (length (users_rows w)) row (name :: rest) name).
    - cbn. now apply lookup_app_l_Some.
    - cbn. rewrite lookup_app_r by lia. now rewrite Nat.sub_diag.
    - exact Hrow.
    - reflexivity. }
  apply lookup_lt_Some in Hi. lia.
Qed.

(** * The router *)

Lemma with_session_lookup user_id w :
  active_users (with_session user_id w) !! user_id
  = Some (session_or_new user_id w).
Proof.
  unfold with_session, session_or_new.
  destruct (active_users w !! user_id) as [s|] eqn:E; cbn; [exact E|].
  apply lookup_insert_eq.
Qed.

Lemma handle_message_with_session user_id text w :
  handle_message user_id text w
  = handle_message user_id text (with_session user_id w).
Proof.
  pose proof (with_session_lookup user_id w) as Hs.
  unfold handle_message. rewrite !bind_get_world. rewrite Hs.
  rewrite (bool_decide_eq_true_2 (is_Some (Some _))) by eauto.
  unfold with_session in *.
  destruct (active_users w !! user_id) as [s|] eqn:E.
  - now rewrite bool_decide_eq_true_2 by eauto.
  - rewrite bool_decide_eq_false_2 by (intros [? ?]; discriminate).
    unfold start_session at 1. rewrite bind_modify, E. reflexivity.
Qed.

Lemma handle_dialogue_routes user_id text s w :
  active_users w !! user_id = Some s ->
  handle_dialogue user_id text w
  = run_route user_id text
      (match if_truthy (registration_state s) with
       | Some state => ToRegistration state
       | None =>
           if negb (logged_in s) && bool_decide (user_id ∈ pending_login w)
           then ToProcessLogin
           else
             match if_truthy (withdraw_state s) with
             | Some state => ToWithdrawal state
             | None =>
                 match if_truthy (update_profile_state s) with
                 | Some state => ToProfileUpdate state
                 | None => ToDefaultReply
                 end
             end
       end) w.
Proof.
  intros Hs. unfold handle_dialogue.
  rewrite (run_get_registration_state _ _ _ Hs).
  destruct (if_truthy (registration_state s)); [reflexivity|].
  rewrite (run_is_logged_in _ _ _ Hs), bind_get_world.
  destruct (negb (logged_in s) && bool_decide (user_id ∈ pending_login w));
    [reflexivity|].
  rewrite (run_get_withdraw_state _ _ _ Hs).
  destruct (if_truthy (withdraw_state s)); [reflexivity|].
  rewrite (run_get_update_profile_state _ _ _ Hs).
  destruct (if_truthy (update_profile_state s)); reflexivity.
Qed.

(** [handle_message] runs the handler of the route of the text, in the
    world where the sender has a session. *)
Lemma handle_message_run_route (user_id : Z) (text : string) (w : World) :
  handle_message user_id text w
  = run_route user_id text
      (route_of text (session_or_new user_id w)
         (bool_decide (user_id ∈ pending_login w)))
      (with_session user_id w).
Proof.
  rewrite handle_message_with_session.
  pose proof (with_session_lookup user_id w) as Hs.
  assert (Hp : pending_login (with_session user_id w) = pending_login w).
  { unfold with_session. now destruct (active_users w !! user_id). }
  set (s := session_or_new user_id w) in *.
  set (w0 := with_session user_id w) in *.
  unfold handle_message. rewrite bind_get_world, Hs.
  rewrite bool_decide_eq_true_2 by eauto. rewrite bind_ret.
  unfold route_of.
  destruct (String.eqb text "1. Signup" || String.eqb text "Signup");
    [reflexivity|].
  destruct (String.eqb text "2. Login" || String.eqb text "Login");
    [reflexivity|].
  destruct (String.eqb text "Logout"); [reflexivity|].
  rewrite (run_is_logged_in _ _ _ Hs).
  destruct (logged_in s) eqn:Hlog;
    [|now rewrite (handle_dialogue_routes _ _ _ _ Hs), Hp, Hlog].
  unfold menu_route.
  destruct (String.eqb text "1. Check Balance" || String.eqb text "Check Balance");
    [reflexivity|].
  destruct (String.eqb text "2. Withdraw Funds" || String.eqb text "Withdraw Funds");
    [reflexivity|].
  destruct (String.eqb text "3. Join Channel" || String.eqb text "Join Channel");
    [reflexivity|].
  destruct (String.eqb text "4. Update Profile" || String.eqb text "Update Profile");
    [reflexivity|].
  destruct (String.eqb text "Back to Main Menu"); [reflexivity|].
  now rewrite (handle_dialogue_routes _ _ _ _ Hs), Hp, Hlog.
Qed.

(** X15.  The handler that [handle_message] runs is a function of the
    text, of the session of the sender (a new one when the sender has
    none) and of the login flag of the sender, in this order of
    precedence: the signup and login labels, the logout, the labels of
    the main menu when the sender is logged in, a registration in
    progress, a login that waits for its username, a withdrawal in
    progress, a profile update in progress, and the default reply. *)
Theorem handle_message_routes (user_id : Z) (text : string) (w : World) :
  handle_message user_id text w
  = run_route user_id text
      (route_of text (session_or_new user_id w)
         (bool_decide (user_id ∈ pending_login w)))
      (with_session user_id w).
Proof. apply handle_message_run_route. Qed.

(** ** Entering and leaving *)

(** [/start] never resets a session.  It creates a new session for
    a sender who has none and leaves an existing session as it is, logged
    in and in the middle of its dialogues if it was; either way the only
    other effect is the welcome message. *)
Lemma start_keeps_the_session (user_id : Z) (w : World) :
  dispatch user_id StartCommand w
  = (Ok tt,
     send (mkReply user_id WELCOME_MESSAGE get_welcome_keyboard)
       (with_session user_id w)) /\
  active_users (with_session user_id w) !! user_id
  = Some (session_or_new user_id w) /\
  (is_Some (active_users w !! user_id) -> with_session user_id w = w).
Proof.
  split; [|split; [apply with_session_lookup|]].
  - cbn [dispatch]. unfold start, start_session, with_session.
    rewrite bind_modify. now destruct (active_users w !! user_id).
  - intros [s Hs]. unfold with_session. now rewrite Hs.
Qed.

(** X16.  "Logout" is taken in every state of every dialogue: the session
    of the sender is deleted, with the login and all the dialogue states
    and answers it held, so the next message of the sender starts from a
    new session.  The sheets are untouched.  The login flag of the sender
    is not part of the session and survives the logout. *)
Theorem logout_forgets_the_session (user_id : Z) (w : World) :
  exists w',
    handle_message user_id "Logout" w = (Ok tt, w') /\
    active_users w' = delete user_id (active_users w) /\
    session_or_new user_id w' = new_session /\
    pending_login w' = pending_login w /\
    users_rows w' = users_rows w /\
    payments_rows w' = payments_rows w /\
    faults w' = faults w /\
    outbox w'
    = (outbox w ++
       [mkReply user_id "You have been logged out. Type /start to begin again."
          ReplyKeyboardRemove])%list.
Proof.
  rewrite handle_message_run_route.
  change (route_of "Logout" _ _) with ToLogout. cbn [run_route].
  pose proof (with_session_lookup user_id w) as Hs.
  unfold logout, end_session. rewrite bind_modify, Hs.
  eexists. split; [reflexivity|]. cbn.
  assert (D : delete user_id (active_users (with_session user_id w))
              = delete user_id (active_users w)).
  { unfold with_session. destruct (active_users w !! user_id); [reflexivity|].
    cbn. apply delete_insert_eq. }
  split; [exact D|]. split.
  { unfold session_or_new. cbn. now rewrite lookup_delete_eq. }
  unfold with_session. destruct (active_users w !! user_id); auto 10.
Qed.

(** X17.  "Back to Main Menu" from a user who is logged in is answered by
    the router itself, which shows the main menu and changes nothing
    else.  The branch of the profile dialogue that resets
    [update_profile_state] on this label is therefore not the one that
    runs: a session that was selecting a field of the profile is still
    selecting a field afterwards. *)
Theorem back_to_main_menu_keeps_the_dialogue (user_id : Z) (s : Session)
    (w : World) :
  active_users w !! user_id = Some s ->
  logged_in s = true ->
  handle_message user_id "Back to Main Menu" w
  = (Ok tt, send (mkReply user_id MAIN_MENU get_main_menu_keyboard) w).
Proof.
  intros Hs Hlog. rewrite handle_message_run_route.
  assert (W : with_session user_id w = w)
    by (unfold with_session; now rewrite Hs).
  assert (S : session_or_new user_id w = s)
    by (unfold session_or_new; now rewrite Hs).
  rewrite W, S. unfold route_of. rewrite Hlog. cbn [run_route].
  change (String.eqb "Back to Main Menu" "1. Signup"
          || String.eqb "Back to Main Menu" "Signup") with false.
  cbn. unfold main_menu. rewrite (run_is_logged_in _ _ _ Hs), Hlog.
  reflexivity.
Qed.

(** ** Answers that a dialogue refuses *)

(** The payment mode is one of the two labels, letter for letter.
    In each of the three dialogues that ask for it (registration,
    withdrawal with a new mode, profile update) a text other than "UPI"
    and "Bank Account" only gets the prompt again: the world is otherwise
    unchanged, so the dialogue stays where it is. *)
Lemma payment_mode_is_one_of_two_labels (user_id : Z) (text : string)
    (w : World) :
  text <> "UPI" -> text <> "Bank Account" ->
  let w' := send (mkReply user_id "Please select a valid payment mode:"
                    get_payment_mode_keyboard) w in
  handle_registration user_id text "awaiting_payment_mode" w = (Ok tt, w') /\
  handle_withdrawal user_id text "awaiting_new_payment_mode" w = (Ok tt, w') /\
  handle_profile_update user_id text "updating_payment_mode" w = (Ok tt, w').
Proof.
  intros H1 H2. cbn zeta.
  assert (E : negb (String.eqb text "UPI" || String.eqb text "Bank Account") = true).
  { apply String.eqb_neq in H1, H2. now rewrite H1, H2. }
  repeat apply conj.
  - unfold handle_registration. cbn [String.eqb Ascii.eqb Bool.eqb].
    now rewrite E.
  - unfold handle_withdrawal. rewrite run_get_username_any.
    cbn [String.eqb Ascii.eqb Bool.eqb]. now rewrite E.
  - unfold handle_profile_update. rewrite run_get_username_any.
    cbn [String.eqb Ascii.eqb Bool.eqb]. now rewrite E.
Qed.

Lemma register_user_taken user_id s w :
  active_users w !! user_id = Some s ->
  faults w = [] ->
  has_username (get_or_empty (registration_data s) "username") (users_rows w) ->
  exists w',
    register_user user_id w = (Ok (false, "Username already exists"), w') /\
    reads_only w w' /\ faults w' = [].
Proof.
  intros Hs Hf Hhas. unfold register_user.
  rewrite (run_session_of _ _ _ Hs).
  destruct (sheets_register_user_taken _ _ w Hf (head_user_row_of _) Hhas)
    as (w1 & E & RO & F).
  rewrite bind_run with (a := (false, "Username already exists"))
    by now rewrite E.
  rewrite E. cbn. eauto.
Qed.

(** X18.  A username that has been taken since it was entered makes the
    confirmation fail: no row is appended, the user is told that the
    username already exists, and the session is left exactly as it was,
    not logged in and with the registration still waiting for its
    confirmation. *)
Theorem taken_username_fails_at_confirmation (user_id : Z) (text : string)
    (s : Session) (w : World) :
  active_users w !! user_id = Some s ->
  faults w = [] ->
  lower text = "yes" ->
  has_username (get_or_empty (registration_data s) "username") (users_rows w) ->
  exists w',
    handle_registration user_id text "awaiting_confirmation" w = (Ok tt, w') /\
    active_users w' = active_users w /\
    users_rows w' = users_rows w /\
    payments_rows w' = payments_rows w /\
    outbox w'
    = (outbox w ++
       [mkReply user_id
          "Registration failed: Username already exists. Please try again."
          get_welcome_keyboard])%list.
Proof.
  intros Hs Hf Hyes Hhas. unfold handle_registration.
  cbn [String.eqb Ascii.eqb Bool.eqb]. rewrite Hyes.
  cbn [String.eqb Ascii.eqb Bool.eqb].
  destruct (register_user_taken _ _ _ Hs Hf Hhas) as (w1 & E & RO & F).
  rewrite bind_run with (a := (false, "Username already exists"))
    by now rewrite E.
  rewrite E. cbn.
  eexists. split; [reflexivity|]. cbn.
  rewrite (ro_active _ _ RO), (ro_users _ _ RO), (ro_payments _ _ RO),
    (ro_outbox _ _ RO). auto.
Qed.

(** ** Login *)

Lemma login_user_run user_id name s w :
  active_users w !! user_id = Some s ->
  faults w = [] ->
  exists w0,
    reads_only w w0 /\ faults w0 = [] /\
    ((has_username name (users_rows w) /\
      login_user user_id name w
      = (Ok true,
         put_session user_id (with_logged_in true (with_username (Some name) s))
           w0)) \/
     (~ has_username name (users_rows w) /\
      login_user user_id name w = (Ok false, w0))).
Proof.
  intros Hs Hf.
  destruct (find_user_by_username_ok (Some name) w Hf) as [E F].
  pose proof (find_user_by_username_reads (Some name) w) as RO.
  exists (snd (find_user_by_username (Some name) w)).
  split; [exact RO|]. split; [exact F|].
  assert (Hs0 : active_users (snd (find_user_by_username (Some name) w)) !! user_id
                = Some s) by now rewrite (ro_active _ _ RO).
  unfold login_user. rewrite (bind_run _ _ _ _ E).
  destruct (find_from (Some name) (users_rows w) 2) as [[row j]|] eqn:Hfind.
  - left. split.
    + destruct (find_from_lookup _ _ _ _ _ Hfind) as (_ & Hl & Hr).
      exists row. split; [eapply list_elem_of_lookup_2; eauto|].
      now apply row_is_head.
    + run_session. cbn. unfold put_session. cbn.
      now rewrite insert_insert_eq.
  - right. split; [now apply find_from_None in Hfind|reflexivity].
Qed.

(** X19.  The login dialogue.  A sender who is not logged in and is in no
    registration sends the login label and then a username, with the
    sheet answering.  If a row of the Users table starts with the
    username, the session is logged in under it (there is no password)
    and keeps everything else it held; if not, the session is as it was
    and the login is refused.  Either way the login flag is cleared, so
    the next text is not read as a username, and no row of either sheet
    is written. *)
Theorem login_dialogue (user_id : Z) (label name : string) (w : World) :
  label = "Login" \/ label = "2. Login" ->
  faults w = [] ->
  logged_in (session_or_new user_id w) = false ->
  if_truthy (registration_state (session_or_new user_id w)) = None ->
  intercepted false name = false ->
  let s := session_or_new user_id w in
  let w' := after_messages user_id [label; name] w in
  (user_id ∉ pending_login w') /\
  users_rows w' = users_rows w /\
  payments_rows w' = payments_rows w /\
  (has_username name (users_rows w) ->
   active_users w' !! user_id
     = Some (with_logged_in true (with_username (Some name) s)) /\
   last (outbox w')
     = Some (mkReply user_id
               ("Login successful! Welcome back, " +:+ name +:+ ".")
               get_main_menu_keyboard)) /\
  (~ has_username name (users_rows w) ->
   active_users w' !! user_id = Some s /\
   last (outbox w')
     = Some (mkReply user_id "Login failed. Username not found."
               get_welcome_keyboard)).
Proof.
  intros Hlabel Hf Hlog Hreg Hname. cbn zeta.
  set (s := session_or_new user_id w) in *.
  cbn [after_messages].
  (* the label *)
  assert (E1 : handle_message user_id label w
               = prompt_login_username user_id (with_session user_id w)).
  { rewrite handle_message_run_route.
    destruct Hlabel; subst label; reflexivity. }
  rewrite E1.
  change (prompt_login_username user_id (with_session user_id w))
    with (Ok tt,
          set_pending_login
            ({[user_id]} ∪ pending_login (with_session user_id w))
            (send (mkReply user_id "Please enter your username:"
                     ReplyKeyboardRemove)
               (with_session user_id w))).
  cbn [snd].
  set (w1 := set_pending_login _ _).
  assert (Hs1 : active_users w1 !! user_id = Some s)
    by apply with_session_lookup.
  assert (Hp1 : user_id ∈ pending_login w1).
  { subst w1. cbn. apply elem_of_union_l. now apply elem_of_singleton. }
  assert (Hf1 : faults w1 = []).
  { subst w1. cbn. unfold with_session.
    now destruct (active_users w !! user_id). }
  assert (Hr1 : users_rows w1 = users_rows w /\ payments_rows w1 = payments_rows w).
  { subst w1. cbn. unfold with_session.
    now destruct (active_users w !! user_id). }
  (* the username *)
  assert (E2 : handle_message user_id name w1 = process_login user_id name w1).
  { rewrite (handle_message_plain _ _ _ _ Hs1) by now rewrite Hlog.
    rewrite (handle_dialogue_routes _ _ _ _ Hs1), Hreg, Hlog.
    now rewrite bool_decide_eq_true_2 by assumption. }
  rewrite E2. unfold process_login.
  destruct (login_user_run user_id name s w1 Hs1 Hf1) as (w2 & RO & F2 & H).
  assert (Hp2 : user_id ∈ pending_login w2) by now rewrite (ro_pending _ _ RO).
  destruct Hr1 as [Hu1 Hy1].
  assert (Hhas : has_username name (users_rows w1) <-> has_username name (users_rows w))
    by now rewrite Hu1.
  destruct H as [[Hyes E]|[Hno E]].
  - rewrite bind_run with (a := true) by now rewrite E.
    rewrite E. cbn [snd]. unfold del_login_username_provided.
    rewrite bind_assoc, bind_get_world. cbn [pending_login put_session set_active_users].
    rewrite bool_decide_eq_true_2 by assumption.
    rewrite bind_modify. cbn.
    split; [rewrite elem_of_difference, elem_of_singleton; tauto|].
    rewrite (ro_users _ _ RO), (ro_payments _ _ RO).
    split; [assumption|]. split; [assumption|]. split.
    + intros _. split; [apply lookup_insert_eq|apply last_snoc].
    + intros Hno. now apply Hhas in Hyes.
  - rewrite bind_run with (a := false) by now rewrite E.
    rewrite E. cbn [snd]. unfold del_login_username_provided.
    rewrite bind_assoc, bind_get_world.
    rewrite bool_decide_eq_true_2 by assumption.
    rewrite bind_modify. cbn.
    split; [rewrite elem_of_difference, elem_of_singleton; tauto|].
    rewrite (ro_users _ _ RO), (ro_payments _ _ RO).
    split; [assumption|]. split; [assumption|]. split.
    + intros Hyes. now apply Hhas in Hyes.
    + intros _. split; [now rewrite (ro_active _ _ RO)|apply last_snoc].
Qed.

(** ** The balance *)

(** X20.  "Check Balance" for a user who is logged in never fails and
    changes no session and no data row of either sheet: the reply shows
    the balance cell of the first row of the user when the sheet
    answers, and "0" when the user has no row, when the row has no
    balance cell, or when the sheet cannot be read.  (The header row
    may be healed on the way.) *)
Theorem check_balance_reports_the_stored_balance (user_id : Z) (u : string)
    (s : Session) (w : World) :
  active_users w !! user_id = Some s ->
  logged_in s = true ->
  username s = Some u ->
  u <> "" ->
  exists balance w',
    check_balance user_id w = (Ok tt, w') /\
    outbox w'
    = (outbox w ++
       [mkReply user_id ("Your current balance is: ₹" +:+ balance)
          get_main_menu_keyboard])%list /\
    (balance = stored_balance (Some u) (users_rows w) \/ balance = "0") /\
    (faults w = [] -> balance = stored_balance (Some u) (users_rows w)) /\
    active_users w' = active_users w /\
    users_rows w' = users_rows w /\
    payments_rows w' = payments_rows w.
Proof.
  intros Hs Hlog Hu Hne. unfold check_balance.
  rewrite (run_get_username _ _ _ Hs), Hlog, Hu.
  assert (T : negb (truthy_opt (Some u)) = false).
  { cbn. apply String.eqb_neq in Hne. now rewrite Hne. }
  rewrite T.
  destruct (get_user_balance_soft (Some u) w) as (b & E & Hb).
  pose proof (get_user_balance_reads (Some u) w) as RO.
  rewrite (bind_run _ _ _ _ E).
  exists b. eexists. split; [reflexivity|]. cbn.
  rewrite (ro_outbox _ _ RO), (ro_active _ _ RO), (ro_users _ _ RO),
    (ro_payments _ _ RO).
  split; [reflexivity|]. split; [exact Hb|]. split; [|auto].
  intros Hf. destruct (get_user_balance_ok (Some u) w Hf) as [E' _]. congruence.
Qed.

(** ** The amount of a withdrawal *)

(** X21.  A balance cell that [float] cannot read is blamed on the amount.
    In state [awaiting_amount], with the sheet answering, a positive
    amount meets a stored balance that is no number: the [ValueError] of
    the balance is caught by the handler of the amount, the user is
    asked for a valid number, the amount is already in the withdrawal
    answers, and the withdrawal stays in [awaiting_amount]. *)
Theorem unreadable_balance_blames_the_amount (user_id : Z) (text : string)
    (amount : float) (s : Session) (w : World) :
  active_users w !! user_id = Some s ->
  faults w = [] ->
  py_float text = Some amount ->
  (amount <=? 0)%float = false ->
  py_float (stored_balance (current_username user_id w) (users_rows w)) = None ->
  exists w',
    handle_withdrawal user_id text "awaiting_amount" w = (Ok tt, w') /\
    active_users w' !! user_id
    = Some (with_withdraw_data (<["amount" := PyFloat amount]> (withdraw_data s)) s) /\
    users_rows w' = users_rows w /\
    payments_rows w' = payments_rows w /\
    outbox w'
    = (outbox w ++ [mkReply user_id "Please enter a valid number:" NoMarkup])%list.
Proof.
  intros Hs Hf Hamt Hpos Hbal. unfold handle_withdrawal.
  rewrite run_get_username_any. cbn [String.eqb Ascii.eqb Bool.eqb].
  unfold try_except_ValueError.
  rewrite (float_of_Some _ _ Hamt), bind_ret, Hpos.
  run_session.
  set (w1 := put_session user_id _ w).
  assert (Hf1 : faults w1 = []) by exact Hf.
  destruct (get_user_balance_ok (current_username user_id w) w1 Hf1) as [E F].
  pose proof (get_user_balance_reads (current_username user_id w) w1) as RO.
  change (users_rows w1) with (users_rows w) in E.
  rewrite (bind_run _ _ _ _ E).
  unfold float_of at 1. rewrite Hbal. cbn.
  eexists. split; [reflexivity|]. cbn.
  rewrite (ro_active _ _ RO), (ro_users _ _ RO), (ro_payments _ _ RO),
    (ro_outbox _ _ RO).
  split; [apply lookup_insert_eq|]. auto.
Qed.

Lemma sufficient_balance_run (user_id : Z) (text u : string)
    (amount balance : float) (s : Session) (w : World) :
  active_users w !! user_id = Some s ->
  logged_in s = true ->
  username s = Some u ->
  has_username u (users_rows w) ->
  faults w = [] ->
  py_float text = Some amount ->
  (amount <=? 0)%float = false ->
  py_float (stored_balance (Some u) (users_rows w)) = Some balance ->
  (balance <? amount)%float = false ->
  exists w' row k,
    handle_withdrawal user_id text "awaiting_amount" w = (Ok tt, w') /\
    users_rows w !! k = Some row /\ head row = Some u /\
    active_users w' !! user_id
    = Some (with_withdraw_state (Some "awaiting_payment_mode_confirmation")
              (with_withdraw_data
                 (<["amount" := PyFloat amount]> (withdraw_data s)) s)) /\
    users_rows w' = users_rows w /\
    payments_rows w' = payments_rows w /\
    outbox w'
    = (outbox w ++
       [mkReply user_id
          ("Your default payment mode is: " +:+ py_str (of_opt (row !! 3%nat))
           +:+ nl +:+ "Would you like to use this payment mode?")
          get_yes_no_keyboard])%list.
Proof.
  intros Hs Hlog Hu Hhas Hf Hamt Hpos Hbal Hge.
  destruct (find_from_Some u (users_rows w) 2 Hhas) as (row & i & Hfind & _ & Hhead).
  destruct (find_from_lookup _ _ _ _ _ Hfind) as (_ & Hrow & _).
  unfold handle_withdrawal.
  rewrite (run_get_username _ _ _ Hs), Hlog, Hu.
  cbn [String.eqb Ascii.eqb Bool.eqb].
  unfold try_except_ValueError.
  rewrite (float_of_Some _ _ Hamt), bind_ret, Hpos.
  run_session.
  set (w1 := put_session user_id _ w).
  assert (Hf1 : faults w1 = []) by exact Hf.
  destruct (get_user_balance_ok (Some u) w1 Hf1) as [E F].
  pose proof (get_user_balance_reads (Some u) w1) as RO.
  change (users_rows w1) with (users_rows w) in E.
  rewrite (bind_run _ _ _ _ E).
  rewrite (float_of_Some _ _ Hbal), bind_ret, Hge.
  set (w2 := snd (get_user_balance (Some u) w1)) in *.
  destruct (get_user_payment_info_ok (Some u) w2 F) as [E2 F2].
  pose proof (get_user_payment_info_reads (Some u) w2) as RO2.
  assert (Hrows2 : users_rows w2 = users_rows w) by apply RO.
  rewrite Hrows2, Hfind in E2.
  rewrite (bind_run _ _ _ _ E2), info_get_Some, bind_ret.
  assert (Hs3 : active_users (snd (get_user_payment_info (Some u) w2)) !! user_id
                = Some (with_withdraw_data
                          (<["amount" := PyFloat amount]> (withdraw_data s)) s)).
  { rewrite (ro_active _ _ RO2), (ro_active _ _ RO). apply lookup_put_session. }
  run_session.
  eexists _, row, (i - 2)%nat. split; [reflexivity|]. cbn.
  rewrite (ro_users _ _ RO2), (ro_payments _ _ RO2), (ro_outbox _ _ RO2),
    Hrows2, (ro_payments _ _ RO), (ro_outbox _ _ RO).
  split; [exact Hrow|]. split; [exact Hhead|].
  split; [apply lookup_insert_eq|].
  split; [reflexivity|]. split; [reflexivity|].
  assert (Hm : default (PyStr "Unknown") (payment_info_of row !! "preferred_mode")
               = of_opt (row !! 3%nat))
    by (unfold payment_info_of; now rewrite lookup_insert_eq).
  now rewrite Hm.
Qed.

(** X22.  An amount that passes both checks.  In state [awaiting_amount],
    with the sheet answering, for a user whose row is in the table: an
    amount for which [amount <= 0] and [amount > balance] are both false
    is stored in the withdrawal answers, the dialogue moves to
    [awaiting_payment_mode_confirmation], and the user is shown the
    payment mode of the profile; no row is written. *)
Theorem sufficient_balance_asks_for_the_mode (user_id : Z) (text u : string)
    (amount balance : float) (s : Session) (w : World) :
  active_users w !! user_id = Some s ->
  logged_in s = true ->
  username s = Some u ->
  has_username u (users_rows w) ->
  faults w = [] ->
  py_float text = Some amount ->
  (amount <=? 0)%float = false ->
  py_float (stored_balance (Some u) (users_rows w)) = Some balance ->
  (balance <? amount)%float = false ->
  exists w' row k,
    handle_withdrawal user_id text "awaiting_amount" w = (Ok tt, w') /\
    users_rows w !! k = Some row /\ head row = Some u /\
    active_users w' !! user_id
    = Some (with_withdraw_state (Some "awaiting_payment_mode_confirmation")
              (with_withdraw_data
                 (<["amount" := PyFloat amount]> (withdraw_data s)) s)) /\
    users_rows w' = users_rows w /\
    payments_rows w' = payments_rows w /\
    outbox w'
    = (outbox w ++
       [mkReply user_id
          ("Your default payment mode is: " +:+ py_str (of_opt (row !! 3%nat))
           +:+ nl +:+ "Would you like to use this payment mode?")
          get_yes_no_keyboard])%list.
Proof. apply sufficient_balance_run. Qed.

Lemma is_nan_Prim2SF f : is_nan f = true -> Prim2SF f = S754_nan.
Proof.
  unfold is_nan. rewrite FloatAxioms.eqb_spec. unfold SFeqb.
  destruct (Prim2SF f) as [sg|sg| |sg m e]; cbn; try discriminate; try reflexivity.
  - now destruct sg.
  - rewrite Z.compare_refl, Pos.compare_cont_refl. now destruct sg.
Qed.

Lemma nan_leb f x : is_nan f = true -> (f <=? x)%float = false.
Proof. intros H. rewrite FloatAxioms.leb_spec, (is_nan_Prim2SF _ H). reflexivity. Qed.

Lemma nan_ltb f x : is_nan f = true -> (x <? f)%float = false.
Proof.
  intros H. rewrite FloatAxioms.ltb_spec, (is_nan_Prim2SF _ H). unfold SFltb.
  now destruct (Prim2SF x).
Qed.

(** X23.  The amount [nan] passes both checks.  [float] reads the text
    "nan" as the number that is neither at most zero nor greater than any
    balance, so in state [awaiting_amount] it is accepted as the amount
    of the withdrawal whatever the balance of the user is, and the
    dialogue goes on to the payment mode. *)
Theorem nan_amount_passes_both_checks (user_id : Z) (text u : string)
    (amount balance : float) (s : Session) (w : World) :
  active_users w !! user_id = Some s ->
  logged_in s = true ->
  username s = Some u ->
  has_username u (users_rows w) ->
  faults w = [] ->
  py_float text = Some amount ->
  is_nan amount = true ->
  py_float (stored_balance (Some u) (users_rows w)) = Some balance ->
  exists w',
    handle_withdrawal user_id text "awaiting_amount" w = (Ok tt, w') /\
    active_users w' !! user_id
    = Some (with_withdraw_state (Some "awaiting_payment_mode_confirmation")
              (with_withdraw_data
                 (<["amount" := PyFloat amount]> (withdraw_data s)) s)) /\
    users_rows w' = users_rows w /\
    payments_rows w' = payments_rows w.
Proof.
  intros Hs Hlog Hu Hhas Hf Hamt Hnan Hbal.
  destruct (sufficient_balance_run user_id text u amount balance s w
              Hs Hlog Hu Hhas Hf Hamt (nan_leb _ _ Hnan) Hbal (nan_ltb _ _ Hnan))
    as (w' & row & k & E & _ & _ & Hs' & Hrows & Hpay & _).
  eauto.
Qed.

(** ** The profile dialogue *)

Lemma selecting_field_run user_id label field s w :
  field_mapping !! label = Some field ->
  field <> "payment_mode" ->
  label <> "Back to Main Menu" ->
  active_users w !! user_id = Some s ->
  handle_profile_update user_id label "selecting_field" w
  = (Ok tt,
     send (mkReply user_id ("Please enter your new " +:+ label +:+ ":")
             ReplyKeyboardRemove)
       (put_session user_id
          (with_update_profile_state (Some "updating_field")
             (with_update_field (Some field) s)) w)).
Proof.
  intros Hmap Hfield Hlabel Hs. unfold handle_profile_update.
  rewrite run_get_username_any. cbn [String.eqb Ascii.eqb Bool.eqb].
  apply String.eqb_neq in Hlabel, Hfield. rewrite Hlabel, Hmap.
  run_session. rewrite Hfield. run_session.
  unfold put_session. cbn. now rewrite insert_insert_eq.
Qed.

Lemma updating_field_run user_id value u field col row i s w :
  active_users w !! user_id = Some s ->
  logged_in s = true ->
  username s = Some u ->
  update_field s = Some field ->
  field_map !! field = Some col ->
  faults w = [] ->
  find_from (Some u) (users_rows w) 2 = Some (row, i) ->
  exists w',
    handle_profile_update user_id value "updating_field" w = (Ok tt, w') /\
    users_rows w' = alter (set_cell col value) (i - 2)%nat (users_rows w) /\
    payments_rows w' = payments_rows w /\
    active_users w' = <[user_id := with_update_profile_state None s]> (active_users w) /\
    outbox w'
    = (outbox w ++
       [mkReply user_id "Your profile has been updated successfully."
          get_main_menu_keyboard])%list.
Proof.
  intros Hs Hlog Hu Hfield Hcol Hf Hfind. unfold handle_profile_update.
  rewrite (run_get_username _ _ _ Hs), Hlog, Hu.
  cbn [String.eqb Ascii.eqb Bool.eqb].
  run_session. rewrite Hfield.
  destruct (update_user_profile_ok (Some u) (Some field) col value row i w
              Hf Hfind Hcol) as (w1 & E & Hrows & Hpay & SO & F).
  match type of E with _ = (Ok ?r, _) =>
    rewrite bind_run with (a := r) by now rewrite E
  end.
  rewrite E. cbn [snd].
  assert (Hs1 : active_users w1 !! user_id = Some s)
    by now rewrite (so_active _ _ SO).
  run_session. eexists. split; [reflexivity|]. cbn.
  rewrite (so_active _ _ SO), (so_outbox _ _ SO). auto.
Qed.

(** X24.  The five profile fields other than the payment mode can be
    updated.  A user who is logged in and has a row in the Users table
    selects "First Name", "Last Name", "UPI ID", "Bank Account" or "IFSC
    Code" and then sends the new value, with the sheet answering: the
    value is written into the column of that field in the row of the
    user, no other row changes, the profile dialogue is over and the
    user is told of the success. *)
Theorem profile_field_update_succeeds (user_id : Z)
    (label field value u : string) (col : nat) (s : Session) (w : World) :
  (label, field, col) ∈
    [("First Name", "first_name", 1%nat); ("Last Name", "last_name", 2%nat);
     ("UPI ID", "upi_id", 4%nat); ("Bank Account", "bank_account", 5%nat);
     ("IFSC Code", "ifsc_code", 6%nat)] ->
  active_users w !! user_id = Some s ->
  logged_in s = true ->
  username s = Some u ->
  has_username u (users_rows w) ->
  faults w = [] ->
  let w1 := snd (handle_profile_update user_id label "selecting_field" w) in
  (exists s1,
     active_users w1 !! user_id = Some s1 /\
     update_profile_state s1 = Some "updating_field" /\
     update_field s1 = Some field) /\
  users_rows w1 = users_rows w /\
  exists w2 k row,
    handle_profile_update user_id value "updating_field" w1 = (Ok tt, w2) /\
    users_rows w !! k = Some row /\
    head row = Some u /\
    users_rows w2 = <[k := set_cell col value row]> (users_rows w) /\
    set_cell col value row !! col = Some value /\
    (exists s2, active_users w2 !! user_id = Some s2 /\
                update_profile_state s2 = None) /\
    last (outbox w2)
    = Some (mkReply user_id "Your profile has been updated successfully."
              get_main_menu_keyboard).
Proof.
  intros Hin Hs Hlog Hu Hhas Hf.
  destruct (find_from_Some u (users_rows w) 2 Hhas) as (row & i & Hfind & _ & Hhead).
  destruct (find_from_lookup _ _ _ _ _ Hfind) as (_ & Hrow & _).
  assert (H : field_mapping !! label = Some field /\ field <> "payment_mode" /\
              label <> "Back to Main Menu" /\ field_map !! field = Some col).
  { repeat (apply elem_of_cons in Hin; destruct Hin as [Hin|Hin];
            [injection Hin as -> -> ->; repeat split; discriminate|]).
    now apply elem_of_nil in Hin. }
  destruct H as (Hmap & Hfield & Hlabel & Hcol).
  cbn zeta. rewrite (selecting_field_run _ _ _ _ _ Hmap Hfield Hlabel Hs).
  cbn [snd].
  set (s1 := with_update_profile_state (Some "updating_field")
               (with_update_field (Some field) s)).
  set (w1 := send _ (put_session user_id s1 w)).
  assert (Hs1 : active_users w1 !! user_id = Some s1)
    by apply lookup_send, lookup_put_session.
  split; [exists s1; auto|]. split; [reflexivity|].
  destruct (updating_field_run user_id value u field col row i s1 w1
              Hs1 Hlog Hu eq_refl Hcol Hf Hfind)
    as (w2 & E & Hrows & _ & Hact & Hout).
  exists w2, (i - 2)%nat, row. split; [exact E|].
  split; [exact Hrow|]. split; [exact Hhead|].
  split; [rewrite Hrows; now apply alter_found_insert|].
  split; [apply set_cell_lookup|].
  split; [eexists; split; [rewrite Hact; apply lookup_insert_eq|reflexivity]|].
  rewrite Hout. apply last_snoc.
Qed.

(** ** The commit of a withdrawal *)

Lemma commit_run user_id payment_mode u A s w row i :
  active_users w !! user_id = Some s ->
  logged_in s = true ->
  username s = Some u ->
  withdraw_data s !! "amount" = Some (PyFloat A) ->
  faults w = [] ->
  find_from (Some u) (users_rows w) 2 = Some (row, i) ->
  let ids := payment_identifiers payment_mode (withdraw_data s) row in
  let payment :=
    [PyStr u; PyStr (py_str_float A); payment_mode; fst ids; snd ids;
     PyStr (clock w); PyStr "Pending"] in
  match py_float (stored_balance (Some u) (users_rows w)) with
  | Some B =>
      exists w',
        process_withdrawal_request user_id payment_mode w = (Ok tt, w') /\
        payments_rows w' = (payments_rows w ++ [payment])%list /\
        users_rows w'
        = alter (set_cell 7 (py_str_float (B - A))) (i - 2)%nat (users_rows w) /\
        active_users w'
        = <[user_id := with_withdraw_state None s]> (active_users w) /\
        outbox w'
        = (outbox w ++
           [mkReply user_id (payment_received (py_str_float A))
              get_main_menu_keyboard])%list
  | None =>
      exists w',
        process_withdrawal_request user_id payment_mode w
          = (Raise ValueError, w') /\
        payments_rows w' = (payments_rows w ++ [payment])%list /\
        users_rows w' = users_rows w /\
        active_users w' = active_users w /\
        outbox w' = outbox w
  end.
Proof.
  intros Hs Hlog Hu Hamt Hf Hfind. cbn zeta.
  unfold process_withdrawal_request.
  run_session. rewrite Hlog, Hu, Hamt. cbn [default from_option id of_opt py_str].
  (* the identifiers *)
  lazymatch goal with
  | |- context [(?m ≫= ?k) w] =>
      assert (P : fst (m w)
                  = Ok [PyStr u; PyStr (py_str_float A); payment_mode;
                        fst (payment_identifiers payment_mode (withdraw_data s) row);
                        snd (payment_identifiers payment_mode (withdraw_data s) row)]
                  /\ reads_only w (snd (m w)) /\ faults (snd (m w)) = [])
  end.
  { destruct (get_user_payment_info_ok (Some u) w Hf) as [E F].
    pose proof (get_user_payment_info_reads (Some u) w) as RO.
    rewrite Hfind in E. unfold payment_identifiers.
    destruct (is_str payment_mode "UPI").
    - destruct (truthy _); cbn [negb].
      + rewrite bind_ret. split; [reflexivity|]. split; [reflexivity|exact Hf].
      + rewrite bind_assoc, (bind_run _ _ _ _ E), info_get_Some, bind_ret.
        split; [|split; assumption]. cbn. unfold payment_info_of.
        now rewrite lookup_insert_ne, lookup_insert_eq by discriminate.
    - destruct (negb (truthy _) || negb (truthy _)).
      + rewrite !bind_assoc, (bind_run _ _ _ _ E).
        repeat (rewrite ?bind_assoc, ?info_get_Some, ?bind_ret).
        split; [|split; assumption]. cbn. unfold payment_info_of.
        now rewrite !lookup_insert_ne, !lookup_insert_eq by discriminate.
      + rewrite bind_ret. split; [reflexivity|]. split; [reflexivity|exact Hf]. }
  destruct P as (E0 & R0 & F0).
  set (ids := payment_identifiers payment_mode (withdraw_data s) row) in *.
  rewrite (bind_run _ _ _ _ E0).
  match type of R0 with reads_only _ ?w0 => set (w1 := w0) in * end.
  clear E0.
  (* the payment row *)
  destruct (add_payment_request_ok
              [PyStr u; PyStr (py_str_float A); payment_mode; fst ids; snd ids]
              w1 F0)
    as (w2 & E2 & Hpay2 & Hrows2 & SO2 & F2).
  rewrite bind_run with (a := (true, "Payment request added successfully"))
    by now rewrite E2.
  rewrite E2. cbn [snd]. clear E2.
  (* the balance *)
  destruct (get_user_balance_ok (Some u) w2 F2) as [E3 F3].
  pose proof (get_user_balance_reads (Some u) w2) as R3.
  rewrite Hrows2, (ro_users _ _ R0) in E3.
  rewrite (bind_run _ _ _ _ E3). clear E3.
  set (w3 := snd (get_user_balance (Some u) w2)) in *.
  assert (Hrows3 : users_rows w3 = users_rows w)
    by (rewrite (ro_users _ _ R3), Hrows2; apply R0).
  assert (Hpay3 : payments_rows w3
                  = (payments_rows w ++
                     [[PyStr u; PyStr (py_str_float A); payment_mode; fst ids;
                       snd ids; PyStr (clock w); PyStr "Pending"]])%list).
  { rewrite (ro_payments _ _ R3), Hpay2, (ro_payments _ _ R0).
    now rewrite (ro_clock _ _ R0). }
  assert (Hact3 : active_users w3 = active_users w).
  { rewrite (ro_active _ _ R3), (so_active _ _ SO2). apply R0. }
  assert (Hout3 : outbox w3 = outbox w).
  { rewrite (ro_outbox _ _ R3), (so_outbox _ _ SO2). apply R0. }
  destruct (py_float (stored_balance (Some u) (users_rows w))) as [B|] eqn:HB.
  - rewrite (float_of_Some _ _ HB), bind_ret. cbn [float_sub]. rewrite bind_ret.
    destruct (update_user_balance_ok (Some u) (B - A)%float row i w3 F3)
      as (w4 & E4 & Hrows4 & Hpay4 & SO4 & F4); [now rewrite Hrows3|].
    rewrite bind_run with (a := (true, "Balance updated successfully"))
      by now rewrite E4.
    rewrite E4. cbn [snd]. clear E4.
    assert (Hs4 : active_users w4 !! user_id = Some s)
      by now rewrite (so_active _ _ SO4), Hact3.
    run_session. eexists. split; [reflexivity|]. cbn.
    rewrite Hpay4, Hrows4, Hrows3, (so_active _ _ SO4), Hact3,
      (so_outbox _ _ SO4), Hout3.
    auto.
  - unfold float_of at 1. rewrite HB. cbn.
    eexists. split; [reflexivity|]. auto.
Qed.

(** X25.  What the payment row of a withdrawal holds.  At the commit, for
    a user [u] who is logged in with a row in the Users table and a
    balance that [float] reads, with the sheets answering, the row
    appended to the Payments table is: [u], the text of the amount, the
    payment mode, the two identifiers, the time stamp and "Pending".
    The identifiers are those that the session holds from this or an
    earlier withdrawal when they are complete for the payment mode, and
    those of the profile row only otherwise.  The reply names the
    amount, the payment date and the invoice bot. *)
Theorem withdrawal_row_identifiers (user_id : Z) (payment_mode : pyval)
    (u : string) (A B : float) (s : Session) (w : World) :
  active_users w !! user_id = Some s ->
  logged_in s = true ->
  username s = Some u ->
  withdraw_data s !! "amount" = Some (PyFloat A) ->
  faults w = [] ->
  has_username u (users_rows w) ->
  py_float (stored_balance (Some u) (users_rows w)) = Some B ->
  exists w' k row,
    process_withdrawal_request user_id payment_mode w = (Ok tt, w') /\
    users_rows w !! k = Some row /\
    head row = Some u /\
    (forall j r, (j < k)%nat -> users_rows w !! j = Some r -> head r <> Some u) /\
    payments_rows w'
    = (payments_rows w ++
       [[PyStr u; PyStr (py_str_float A); payment_mode;
         fst (payment_identifiers payment_mode (withdraw_data s) row);
         snd (payment_identifiers payment_mode (withdraw_data s) row);
         PyStr (clock w); PyStr "Pending"]])%list /\
    outbox w'
    = (outbox w ++
       [mkReply user_id (payment_received (py_str_float A))
          get_main_menu_keyboard])%list.
Proof.
  intros Hs Hlog Hu Hamt Hf Hhas HB.
  destruct (find_from_Some u (users_rows w) 2 Hhas) as (row & n & Hfind & _).
  destruct (find_from_first _ _ _ _ _ Hfind) as (k & -> & Hl & Hh & Hfirst).
  pose proof (commit_run user_id payment_mode u A s w row _
                Hs Hlog Hu Hamt Hf Hfind) as H.
  cbn zeta in H. rewrite HB in H.
  destruct H as (w' & E & Hpay & _ & _ & Hout).
  exists w', k, row. auto 10.
Qed.

(** X26.  The commit is not atomic.  When the balance cell of the user
    holds a text that [float] cannot read, the commit of a withdrawal
    appends the payment row and then raises [ValueError] at the balance:
    the balance is not written, no reply is sent, and the session keeps
    its withdrawal state, so the payment request stays in the sheet with
    nothing deducted. *)
Theorem commit_stops_after_the_payment_row (user_id : Z) (payment_mode : pyval)
    (u : string) (A : float) (s : Session) (w : World) :
  active_users w !! user_id = Some s ->
  logged_in s = true ->
  username s = Some u ->
  withdraw_data s !! "amount" = Some (PyFloat A) ->
  faults w = [] ->
  has_username u (users_rows w) ->
  py_float (stored_balance (Some u) (users_rows w)) = None ->
  exists w' id1 id2,
    process_withdrawal_request user_id payment_mode w = (Raise ValueError, w') /\
    payments_rows w'
    = (payments_rows w ++
       [[PyStr u; PyStr (py_str_float A); payment_mode; id1; id2;
         PyStr (clock w); PyStr "Pending"]])%list /\
    users_rows w' = users_rows w /\
    active_users w' = active_users w /\
    outbox w' = outbox w.
Proof.
  intros Hs Hlog Hu Hamt Hf Hhas HB.
  destruct (find_from_Some u (users_rows w) 2 Hhas) as (row & n & Hfind & _).
  pose proof (commit_run user_id payment_mode u A s w row _
                Hs Hlog Hu Hamt Hf Hfind) as H.
  cbn zeta in H. rewrite HB in H.
  destruct H as (w' & E & Hpay & Hrows & Hact & Hout).
  eexists w', _, _. eauto 10.
Qed.

(** * Every message is answered *)

#[local] Instance outbox_kept_preorder : PreOrder outbox_kept.
Proof.
  split; [now intros w|].
  intros w1 w2 w3 H1 H2. unfold outbox_kept in *. congruence.
Qed.

Lemma store_keeps_outbox {A} (m : M A) : keeps store_only m -> keeps outbox_kept m.
Proof. apply keeps_weaken. intros w w' []. assumption. Qed.

Lemma update_session_silent user_id f : keeps outbox_kept (update_session user_id f).
Proof.
  apply keeps_modify. intros w. unfold outbox_kept.
  now destruct (active_users w !! user_id).
Qed.

Lemma assign_session_silent user_id f : keeps outbox_kept (assign_session user_id f).
Proof.
  unfold assign_session, session_of. keeps_auto. now apply keeps_modify.
Qed.

Lemma session_of_silent user_id : keeps outbox_kept (session_of user_id).
Proof. unfold session_of. keeps_auto. Qed.

Lemma getters_silent user_id :
  keeps outbox_kept (is_logged_in user_id) /\
  keeps outbox_kept (get_username user_id) /\
  keeps outbox_kept (get_registration_state user_id) /\
  keeps outbox_kept (get_registration_data user_id) /\
  keeps outbox_kept (get_withdraw_state user_id) /\
  keeps outbox_kept (get_withdraw_data user_id) /\
  keeps outbox_kept (get_update_profile_state user_id) /\
  keeps outbox_kept (get_update_field user_id).
Proof.
  repeat apply conj;
    try (intros w; rewrite get_username_run; reflexivity);
    unfold is_logged_in, get_registration_state, get_registration_data,
      get_withdraw_state, get_withdraw_data, get_update_profile_state,
      get_update_field; keeps_auto.
Qed.

Lemma is_logged_in_silent user_id : keeps outbox_kept (is_logged_in user_id).
Proof. apply getters_silent. Qed.

Lemma get_username_silent user_id : keeps outbox_kept (get_username user_id).
Proof. apply getters_silent. Qed.

Lemma get_registration_data_silent user_id :
  keeps outbox_kept (get_registration_data user_id).
Proof. apply getters_silent. Qed.

Lemma get_withdraw_data_silent user_id :
  keeps outbox_kept (get_withdraw_data user_id).
Proof. apply getters_silent. Qed.

Lemma get_update_field_silent user_id :
  keeps outbox_kept (get_update_field user_id).
Proof. apply getters_silent. Qed.

Lemma sheets_silent :
  (forall u, keeps outbox_kept (find_user_by_username u)) /\
  (forall u, keeps outbox_kept (get_user_balance u)) /\
  (forall u, keeps outbox_kept (get_user_payment_info u)) /\
  (forall row, keeps outbox_kept (add_payment_request row)) /\
  (forall u b, keeps outbox_kept (update_user_balance u b)) /\
  (forall u f v, keeps outbox_kept (update_user_profile u f v)).
Proof.
  repeat apply conj; intros; apply store_keeps_outbox; auto with keeps.
Qed.

Lemma sheets_register_user_silent row :
  keeps outbox_kept (sheets_register_user row).
Proof.
  intros w. destruct (sheets_register_user_rows row w) as [[] _]. assumption.
Qed.

Lemma find_user_by_username_silent u : keeps outbox_kept (find_user_by_username u).
Proof. apply sheets_silent. Qed.

Lemma get_user_balance_silent u : keeps outbox_kept (get_user_balance u).
Proof. apply sheets_silent. Qed.

Lemma get_user_payment_info_silent u : keeps outbox_kept (get_user_payment_info u).
Proof. apply sheets_silent. Qed.

Lemma add_payment_request_silent row : keeps outbox_kept (add_payment_request row).
Proof. apply sheets_silent. Qed.

Lemma update_user_balance_silent u b : keeps outbox_kept (update_user_balance u b).
Proof. apply sheets_silent. Qed.

Lemma update_user_profile_silent u f v :
  keeps outbox_kept (update_user_profile u f v).
Proof. apply sheets_silent. Qed.

#[local] Hint Resolve update_session_silent assign_session_silent
  session_of_silent is_logged_in_silent get_username_silent
  get_registration_data_silent get_withdraw_data_silent get_update_field_silent
  find_user_by_username_silent get_user_balance_silent
  get_user_payment_info_silent add_payment_request_silent
  update_user_balance_silent update_user_profile_silent
  sheets_register_user_silent : keeps.

Lemma register_user_silent user_id : keeps outbox_kept (register_user user_id).
Proof. unfold register_user. keeps_auto. Qed.

Lemma login_user_silent user_id name : keeps outbox_kept (login_user user_id name).
Proof. unfold login_user. keeps_auto. Qed.

Lemma del_login_username_provided_silent user_id :
  keeps outbox_kept (del_login_username_provided user_id).
Proof.
  intros w. unfold del_login_username_provided. rewrite bind_get_world.
  now case_bool_decide.
Qed.

#[local] Hint Resolve register_user_silent login_user_silent
  del_login_username_provided_silent : keeps.

Lemma once_reply user_id text m : answers_once user_id (reply_text user_id text m).
Proof. intros w. cbn. eauto. Qed.

Lemma once_bind {A B} user_id (m : M A) (k : A -> M B) :
  keeps outbox_kept m -> (forall a, answers_once user_id (k a)) ->
  answers_once user_id (m ≫= k).
Proof.
  intros Hm Hk w. specialize (Hm w). unfold outbox_kept in Hm.
  unfold mbind, M_bind, bind. destruct (m w) as [[a|e] w1]; cbn in Hm.
  - specialize (Hk a w1). destruct (k a w1) as [[b|e] w2]; now rewrite <- Hm.
  - exact Hm.
Qed.

Lemma once_try_except_ValueError {A} user_id (m h : M A) :
  answers_once user_id m -> answers_once user_id h ->
  answers_once user_id (try_except_ValueError m h).
Proof.
  intros Hm Hh w. specialize (Hm w). unfold try_except_ValueError.
  destruct (m w) as [[a|e] w1]; [exact Hm|].
  destruct e; try exact Hm.
  specialize (Hh w1). destruct (h w1) as [[b|e] w2]; now rewrite <- Hm.
Qed.

Create HintDb once.

#[local] Hint Resolve once_reply : once.

(** Breaks a goal [answers_once user_id m] down along the structure of
    [m]: what comes before the reply sends nothing. *)
Ltac once_step :=
  first
    [ solve [auto with once nocore]
    | apply once_try_except_ValueError
    | apply once_bind; [solve [keeps_auto]|]
    | progress intros
    | match goal with
      | |- answers_once _ (if ?x then _ else _) => destruct x
      | |- answers_once _ (match ?x with _ => _ end) => destruct x
      | |- answers_once _ (let '(_, _) := ?x in _) => destruct x
      end ].

Ltac once_auto :=
  unfold set_registration_state, set_registration_data, set_withdraw_state,
    set_withdraw_data, set_update_profile_state, set_update_field,
    info_get, float_of, float_sub;
  repeat once_step.

Lemma once_main_menu user_id : answers_once user_id (main_menu user_id).
Proof. unfold main_menu. once_auto. Qed.

Lemma once_process_withdrawal_request user_id payment_mode :
  answers_once user_id (process_withdrawal_request user_id payment_mode).
Proof. unfold process_withdrawal_request. once_auto. Qed.

#[local] Hint Resolve once_main_menu once_process_withdrawal_request : once.

Lemma once_prompt_login_username user_id :
  answers_once user_id (prompt_login_username user_id).
Proof.
  intros w. unfold prompt_login_username, reply_text, mbind, M_bind, bind, modify.
  cbn. eexists. split; reflexivity.
Qed.

Lemma once_logout user_id : answers_once user_id (logout user_id).
Proof.
  intros w. unfold logout, end_session. rewrite bind_modify. cbn.
  destruct (active_users w !! user_id); cbn; eauto.
Qed.

Lemma once_handle_registration user_id text state :
  state ∈ registration_states ->
  answers_once user_id (handle_registration user_id text state).
Proof.
  intros Hin. unfold registration_states in Hin.
  repeat (apply elem_of_cons in Hin; destruct Hin as [->|Hin]);
    [..|now apply elem_of_nil in Hin];
    unfold handle_registration; cbn [String.eqb Ascii.eqb Bool.eqb]; once_auto.
Qed.

Lemma once_handle_withdrawal user_id text state :
  state ∈ withdraw_states ->
  answers_once user_id (handle_withdrawal user_id text state).
Proof.
  intros Hin. unfold withdraw_states in Hin.
  repeat (apply elem_of_cons in Hin; destruct Hin as [->|Hin]);
    [..|now apply elem_of_nil in Hin];
    unfold handle_withdrawal;
    (apply once_bind; [auto with keeps|]; intros name);
    cbn [String.eqb Ascii.eqb Bool.eqb]; once_auto.
Qed.

Lemma once_handle_profile_update user_id text state :
  state ∈ profile_states ->
  answers_once user_id (handle_profile_update user_id text state).
Proof.
  intros Hin. unfold profile_states in Hin.
  repeat (apply elem_of_cons in Hin; destruct Hin as [->|Hin]);
    [..|now apply elem_of_nil in Hin];
    unfold handle_profile_update;
    (apply once_bind; [auto with keeps|]; intros name);
    cbn [String.eqb Ascii.eqb Bool.eqb]; once_auto.
Qed.

Lemma if_truthy_known names state name :
  known_state names state -> if_truthy state = Some name -> name ∈ names.
Proof.
  destruct state as [st|]; [|discriminate]. cbn.
  destruct (String.eqb st ""); [discriminate|]. now intros H [= <-].
Qed.

Lemma once_run_route user_id text s pending :
  known_states s ->
  answers_once user_id (run_route user_id text (route_of text s pending)).
Proof.
  intros (Hr & Hw & Hp). unfold route_of.
  destruct (String.eqb text "1. Signup" || String.eqb text "Signup").
  { unfold run_route, start_registration. once_auto. }
  destruct (String.eqb text "2. Login" || String.eqb text "Login").
  { apply once_prompt_login_username. }
  destruct (String.eqb text "Logout"); [apply once_logout|].
  assert (D : answers_once user_id
                (run_route user_id text
                   match if_truthy (registration_state s) with
                   | Some state => ToRegistration state
                   | None =>
                       if negb (logged_in s) && pending then ToProcessLogin
                       else
                         match if_truthy (withdraw_state s) with
                         | Some state => ToWithdrawal state
                         | None =>
                             match if_truthy (update_profile_state s) with
                             | Some state => ToProfileUpdate state
                             | None => ToDefaultReply
                             end
                         end
                   end)).
  { destruct (if_truthy (registration_state s)) as [st|] eqn:E1.
    { apply once_handle_registration. eapply if_truthy_known; eauto. }
    destruct (negb (logged_in s) && pending).
    { unfold run_route, process_login. once_auto. }
    destruct (if_truthy (withdraw_state s)) as [st|] eqn:E2.
    { apply once_handle_withdrawal. eapply if_truthy_known; eauto. }
    destruct (if_truthy (update_profile_state s)) as [st|] eqn:E3.
    { apply once_handle_profile_update. eapply if_truthy_known; eauto. }
    unfold run_route, default_reply. once_auto. }
  destruct (logged_in s); [|exact D].
  unfold menu_route.
  repeat match goal with
  | |- context [if ?c then Some _ else _] =>
      destruct c;
      [unfold run_route, check_balance, start_withdrawal, join_channel,
         start_profile_update; once_auto|]
  end.
  exact D.
Qed.

(** X27.  Every message gets one reply.  For a sender whose dialogue
    states are names the handlers know (or who has no session yet), the
    handling of a message either returns, and has then sent exactly one
    reply, to the sender, or raises, and has then sent none. *)
Theorem every_message_gets_one_reply (user_id : Z) (text : string) (w : World) :
  known_states (session_or_new user_id w) ->
  match handle_message user_id text w with
  | (Ok _, w') =>
      exists r, outbox w' = (outbox w ++ [r])%list /\ chat r = user_id
  | (Raise _, w') => outbox w' = outbox w
  end.
Proof.
  intros Hk. rewrite handle_message_run_route.
  pose proof (once_run_route user_id text _
                (bool_decide (user_id ∈ pending_login w)) Hk
                (with_session user_id w)) as H.
  assert (O : outbox (with_session user_id w) = outbox w).
  { unfold with_session. now destruct (active_users w !! user_id). }
  now rewrite O in H.
Qed.

(** * The states of the dialogues *)

#[local] Instance sessions_kept_preorder : PreOrder sessions_kept.
Proof.
  split; [now intros w|].
  intros w1 w2 w3 H1 H2. unfold sessions_kept in *. congruence.
Qed.

#[local] Instance states_kept_preorder user_id : PreOrder (states_kept user_id).
Proof.
  split; [now intros w H|].
  intros w1 w2 w3 H1 H2 H. apply H2, H1, H.
Qed.

Section KnownStates.

Context (user_id : Z).

Lemma sessions_kept_states {A} (m : M A) :
  keeps sessions_kept m -> keeps (states_kept user_id) m.
Proof.
  apply keeps_weaken. intros w w' E H s'. unfold sessions_kept in E.
  rewrite E. apply H.
Qed.

Lemma store_keeps_sessions {A} (m : M A) :
  keeps store_only m -> keeps sessions_kept m.
Proof. apply keeps_weaken. intros w w' []. assumption. Qed.

Lemma update_session_states f :
  (forall s, known_states s -> known_states (f s)) ->
  keeps (states_kept user_id) (update_session user_id f).
Proof.
  intros Hf. apply keeps_modify. intros w H s'.
  destruct (active_users w !! user_id) as [s|] eqn:E; [|now rewrite E].
  cbn. rewrite lookup_insert_eq. intros [= <-]. now apply Hf, H.
Qed.

Lemma assign_session_states f :
  (forall s, known_states s -> known_states (f s)) ->
  keeps (states_kept user_id) (assign_session user_id f).
Proof.
  intros Hf w H s'. unfold assign_session, session_of.
  rewrite bind_assoc, bind_get_world.
  destruct (active_users w !! user_id) as [s|] eqn:E.
  - rewrite bind_ret. cbn. rewrite lookup_insert_eq. intros [= <-].
    now apply Hf, H.
  - unfold mbind, M_bind, bind, raise. cbn. rewrite E. discriminate.
Qed.

Lemma session_of_states : keeps (states_kept user_id) (session_of user_id).
Proof. unfold session_of. keeps_auto. Qed.

Lemma start_session_states : keeps (states_kept user_id) (start_session user_id).
Proof.
  apply keeps_modify. intros w H s'.
  destruct (active_users w !! user_id) as [s|] eqn:E; [rewrite E; apply H|].
  cbn. rewrite lookup_insert_eq. intros [= <-]. now repeat split.
Qed.

Lemma end_session_states : keeps (states_kept user_id) (end_session user_id).
Proof.
  apply keeps_modify. intros w H s'.
  destruct (active_users w !! user_id) as [s|] eqn:E; [|now rewrite E].
  cbn. now rewrite lookup_delete_eq.
Qed.

Lemma reply_text_states text m :
  keeps (states_kept user_id) (reply_text user_id text m).
Proof. apply sessions_kept_states, keeps_modify. now intros w. Qed.

Lemma prompt_login_username_states :
  keeps (states_kept user_id) (prompt_login_username user_id).
Proof. apply sessions_kept_states. now intros w. Qed.

Lemma del_login_username_provided_states :
  keeps (states_kept user_id) (del_login_username_provided user_id).
Proof.
  apply sessions_kept_states. intros w. unfold del_login_username_provided.
  rewrite bind_get_world. now case_bool_decide.
Qed.

Lemma getters_states :
  keeps (states_kept user_id) (is_logged_in user_id) /\
  keeps (states_kept user_id) (get_username user_id) /\
  keeps (states_kept user_id) (get_registration_state user_id) /\
  keeps (states_kept user_id) (get_registration_data user_id) /\
  keeps (states_kept user_id) (get_withdraw_state user_id) /\
  keeps (states_kept user_id) (get_withdraw_data user_id) /\
  keeps (states_kept user_id) (get_update_profile_state user_id) /\
  keeps (states_kept user_id) (get_update_field user_id).
Proof.
  repeat apply conj;
    try (intros w; rewrite get_username_run; reflexivity);
    unfold is_logged_in, get_registration_state, get_registration_data,
      get_withdraw_state, get_withdraw_data, get_update_profile_state,
      get_update_field; keeps_auto.
Qed.

Lemma is_logged_in_states : keeps (states_kept user_id) (is_logged_in user_id).
Proof. apply getters_states. Qed.

Lemma get_username_states : keeps (states_kept user_id) (get_username user_id).
Proof. apply getters_states. Qed.

Lemma get_registration_state_states :
  keeps (states_kept user_id) (get_registration_state user_id).
Proof. apply getters_states. Qed.

Lemma get_registration_data_states :
  keeps (states_kept user_id) (get_registration_data user_id).
Proof. apply getters_states. Qed.

Lemma get_withdraw_state_states :
  keeps (states_kept user_id) (get_withdraw_state user_id).
Proof. apply getters_states. Qed.

Lemma get_withdraw_data_states :
  keeps (states_kept user_id) (get_withdraw_data user_id).
Proof. apply getters_states. Qed.

Lemma get_update_profile_state_states :
  keeps (states_kept user_id) (get_update_profile_state user_id).
Proof. apply getters_states. Qed.

Lemma get_update_field_states :
  keeps (states_kept user_id) (get_update_field user_id).
Proof. apply getters_states. Qed.

Lemma sheets_states :
  (forall u, keeps (states_kept user_id) (find_user_by_username u)) /\
  (forall u, keeps (states_kept user_id) (get_user_balance u)) /\
  (forall u, keeps (states_kept user_id) (get_user_payment_info u)) /\
  (forall row, keeps (states_kept user_id) (add_payment_request row)) /\
  (forall u b, keeps (states_kept user_id) (update_user_balance u b)) /\
  (forall u f v, keeps (states_kept user_id) (update_user_profile u f v)) /\
  (forall row, keeps (states_kept user_id) (sheets_register_user row)).
Proof.
  repeat apply conj; intros; apply sessions_kept_states;
    try (apply store_keeps_sessions; solve [auto with keeps]).
  intros w. destruct (sheets_register_user_rows row w) as [[] _]. assumption.
Qed.

Lemma find_user_by_username_states u :
  keeps (states_kept user_id) (find_user_by_username u).
Proof. apply sheets_states. Qed.

Lemma get_user_balance_states u : keeps (states_kept user_id) (get_user_balance u).
Proof. apply sheets_states. Qed.

Lemma get_user_payment_info_states u :
  keeps (states_kept user_id) (get_user_payment_info u).
Proof. apply sheets_states. Qed.

Lemma add_payment_request_states row :
  keeps (states_kept user_id) (add_payment_request row).
Proof. apply sheets_states. Qed.

Lemma update_user_balance_states u b :
  keeps (states_kept user_id) (update_user_balance u b).
Proof. apply sheets_states. Qed.

Lemma update_user_profile_states u f v :
  keeps (states_kept user_id) (update_user_profile u f v).
Proof. apply sheets_states. Qed.

Lemma sheets_register_user_states row :
  keeps (states_kept user_id) (sheets_register_user row).
Proof. apply sheets_states. Qed.

#[local] Hint Resolve session_of_states start_session_states end_session_states
  reply_text_states prompt_login_username_states
  del_login_username_provided_states is_logged_in_states get_username_states
  get_registration_state_states get_registration_data_states
  get_withdraw_state_states get_withdraw_data_states
  get_update_profile_state_states get_update_field_states
  find_user_by_username_states get_user_balance_states
  get_user_payment_info_states add_payment_request_states
  update_user_balance_states update_user_profile_states
  sheets_register_user_states : keeps.

(** A change of the session that keeps the states known: it leaves the
    states alone, clears one, or sets one to a name of its dialogue. *)
Ltac known_change :=
  let s := fresh "s" in
  let Hr := fresh "Hr" in
  let Hw := fresh "Hw" in
  let Hp := fresh "Hp" in
  intros s (Hr & Hw & Hp); repeat split; cbn;
  try assumption; try exact I;
  unfold registration_states, withdraw_states, profile_states;
  repeat constructor.

#[local] Hint Extern 1 (keeps (states_kept _) (update_session _ _)) =>
  apply update_session_states; solve [known_change] : keeps.
#[local] Hint Extern 1 (keeps (states_kept _) (assign_session _ _)) =>
  apply assign_session_states; solve [known_change] : keeps.

Ltac states_auto :=
  unfold set_registration_state, set_registration_data, set_withdraw_state,
    set_withdraw_data, set_update_profile_state, set_update_field,
    info_get, float_of, float_sub;
  keeps_auto.

Lemma main_menu_states : keeps (states_kept user_id) (main_menu user_id).
Proof. unfold main_menu. states_auto. Qed.

Lemma register_user_states : keeps (states_kept user_id) (register_user user_id).
Proof. unfold register_user. states_auto. Qed.

Lemma login_user_states name : keeps (states_kept user_id) (login_user user_id name).
Proof. unfold login_user. states_auto. Qed.

#[local] Hint Resolve main_menu_states register_user_states login_user_states
  : keeps.

Lemma handle_registration_states text state :
  keeps (states_kept user_id) (handle_registration user_id text state).
Proof. unfold handle_registration. states_auto. Qed.

Lemma process_login_states text :
  keeps (states_kept user_id) (process_login user_id text).
Proof. unfold process_login. states_auto. Qed.

Lemma process_withdrawal_request_states payment_mode :
  keeps (states_kept user_id) (process_withdrawal_request user_id payment_mode).
Proof. unfold process_withdrawal_request. states_auto. Qed.

#[local] Hint Resolve process_withdrawal_request_states : keeps.

Lemma handle_withdrawal_states text state :
  keeps (states_kept user_id) (handle_withdrawal user_id text state).
Proof. unfold handle_withdrawal. states_auto. Qed.

Lemma handle_profile_update_states text state :
  keeps (states_kept user_id) (handle_profile_update user_id text state).
Proof. unfold handle_profile_update. states_auto. Qed.

#[local] Hint Resolve handle_registration_states process_login_states
  handle_withdrawal_states handle_profile_update_states : keeps.

Lemma handle_dialogue_states text :
  keeps (states_kept user_id) (handle_dialogue user_id text).
Proof. unfold handle_dialogue. states_auto. Qed.

#[local] Hint Resolve handle_dialogue_states : keeps.

Lemma dispatch_states u : keeps (states_kept user_id) (dispatch user_id u).
Proof.
  destruct u; cbn [dispatch]; [unfold start; states_auto|keeps_auto|].
  unfold handle_message, start, logout, start_registration, check_balance,
    start_withdrawal, join_channel, start_profile_update.
  states_auto.
Qed.

End KnownStates.

(** X28.  The dialogue states only ever hold names the handlers test for.
    If the three states of every session are [None] or such a name, as
    they are when no session exists yet, the same holds after any run of
    the bot; the branch of a state machine that does nothing for an
    unknown state is never the one that runs. *)
Theorem dialogue_states_stay_known (updates : list (Z * update)) (w : World) :
  all_known w -> all_known (after_updates updates w).
Proof.
  revert w. induction updates as [|[user_id u] updates IH]; intros w H; [exact H|].
  cbn [after_updates]. apply IH. intros other s Hs.
  destruct (decide (other = user_id)) as [->|Hne].
  - apply (dispatch_states user_id u w (H user_id) s Hs).
  - rewrite (ms_sessions _ _ _ (dispatch_step user_id u w) other Hne) in Hs.
    now apply (H other).
Qed.

(** * Handlers that return *)

Lemma returns_ret {A} user_id flags (a : A) : returns user_id flags (ret a).
Proof. intros w Hs Hp. now exists a. Qed.

Lemma returns_bind {A B} user_id flags (m : M A) (k : A -> M B) :
  returns user_id flags m -> (forall a, returns user_id flags (k a)) ->
  returns user_id flags (m ≫= k).
Proof.
  intros Hm Hk w Hs Hp. destruct (Hm w Hs Hp) as (a & E & Hs1 & Hp1).
  rewrite (bind_run _ _ _ _ E). now apply Hk.
Qed.

Lemma returns_try_except {A} user_id flags (m : M A) h :
  keeps store_only m -> (forall e, returns user_id flags (h e)) ->
  returns user_id flags (try_except m h).
Proof.
  intros Hm Hh w Hs Hp. pose proof (Hm w) as SO. unfold try_except.
  destruct (m w) as [[a|e] w1]; cbn in SO.
  - exists a. cbn. rewrite (so_active _ _ SO), (so_pending _ _ SO). auto.
  - apply Hh; [now rewrite (so_active _ _ SO)|now rewrite (so_pending _ _ SO)].
Qed.

(** A computation that never raises and leaves the sessions and the
    login flags alone. *)
Lemma returns_store {A} user_id flags (m : M A) :
  total m -> keeps store_only m -> returns user_id flags m.
Proof.
  intros Ht Hm w Hs Hp. destruct (Ht w) as [a E]. pose proof (Hm w) as SO.
  exists a. rewrite (so_active _ _ SO), (so_pending _ _ SO). auto.
Qed.

Lemma returns_get_world user_id flags : returns user_id flags get_world.
Proof. intros w Hs Hp. now exists w. Qed.

Lemma returns_update_session user_id flags f :
  returns user_id flags (update_session user_id f).
Proof.
  intros w [s Hs] Hp. exists tt. unfold update_session, modify. rewrite Hs. cbn.
  rewrite lookup_insert_eq. eauto.
Qed.

Lemma returns_session_of user_id flags : returns user_id flags (session_of user_id).
Proof.
  intros w [s Hs] Hp. exists s. unfold session_of.
  rewrite bind_get_world, Hs. cbn. rewrite Hs. eauto.
Qed.

Lemma returns_assign_session user_id flags f :
  returns user_id flags (assign_session user_id f).
Proof.
  intros w [s Hs] Hp. exists tt.
  unfold assign_session. rewrite (run_session_of _ _ _ Hs).
  cbn. rewrite lookup_insert_eq. eauto.
Qed.

Lemma returns_reply_text user_id flags text m :
  returns user_id flags (reply_text user_id text m).
Proof. intros w Hs Hp. now exists tt. Qed.

Lemma returns_getters user_id flags :
  returns user_id flags (is_logged_in user_id) /\
  returns user_id flags (get_username user_id) /\
  returns user_id flags (get_registration_state user_id) /\
  returns user_id flags (get_registration_data user_id) /\
  returns user_id flags (get_withdraw_state user_id) /\
  returns user_id flags (get_withdraw_data user_id) /\
  returns user_id flags (get_update_profile_state user_id) /\
  returns user_id flags (get_update_field user_id).
Proof.
  repeat apply conj; intros w [s Hs] Hp;
    try (rewrite get_username_run; now eauto);
    unfold is_logged_in, get_registration_state, get_registration_data,
      get_withdraw_state, get_withdraw_data, get_update_profile_state,
      get_update_field; rewrite bind_get_world, Hs; eexists; cbn;
    rewrite Hs; eauto.
Qed.

Lemma get_user_payment_info_total u : total (get_user_payment_info u).
Proof.
  apply total_bind; [apply find_user_by_username_total|].
  intros [[row i]|]; apply total_ret.
Qed.

Lemma sheets_register_user_total row : total (sheets_register_user row).
Proof. apply total_try_except. intros e. apply total_ret. Qed.

Lemma sheets_register_user_store row : keeps store_only (sheets_register_user row).
Proof. intros w. apply sheets_register_user_rows. Qed.

Section Returns.

Context (user_id : Z) (flags : gset Z).

Lemma returns_is_logged_in : returns user_id flags (is_logged_in user_id).
Proof. apply returns_getters. Qed.

Lemma returns_get_username : returns user_id flags (get_username user_id).
Proof. apply returns_getters. Qed.

Lemma returns_get_registration_data :
  returns user_id flags (get_registration_data user_id).
Proof. apply returns_getters. Qed.

Lemma returns_get_update_field : returns user_id flags (get_update_field user_id).
Proof. apply returns_getters. Qed.

Lemma returns_find_user_by_username u :
  returns user_id flags (find_user_by_username u).
Proof.
  apply returns_store;
    [apply find_user_by_username_total|apply find_user_by_username_store].
Qed.

Lemma returns_get_user_balance u : returns user_id flags (get_user_balance u).
Proof.
  apply returns_store; [apply get_user_balance_total|apply get_user_balance_store].
Qed.

Lemma returns_sheets_register_user row :
  returns user_id flags (sheets_register_user row).
Proof.
  apply returns_store;
    [apply sheets_register_user_total|apply sheets_register_user_store].
Qed.

Lemma returns_update_user_profile u f v :
  returns user_id flags (update_user_profile u f v).
Proof.
  apply returns_store;
    [apply update_user_profile_total|apply update_user_profile_store].
Qed.

Create HintDb returns.

#[local] Hint Resolve returns_ret returns_get_world returns_update_session
  returns_session_of returns_assign_session returns_reply_text
  returns_is_logged_in returns_get_username returns_get_registration_data
  returns_get_update_field returns_find_user_by_username
  returns_get_user_balance returns_sheets_register_user
  returns_update_user_profile : returns.

Ltac returns_step :=
  first
    [ solve [auto with returns nocore]
    | apply returns_bind
    | progress intros
    | match goal with
      | |- returns _ _ (if ?x then _ else _) => destruct x
      | |- returns _ _ (match ?x with _ => _ end) => destruct x
      | |- returns _ _ (let '(_, _) := ?x in _) => destruct x
      end ].

Ltac returns_auto :=
  unfold set_registration_state, set_registration_data, set_withdraw_state,
    set_withdraw_data, set_update_profile_state, set_update_field;
  repeat returns_step.

Lemma returns_main_menu : returns user_id flags (main_menu user_id).
Proof. unfold main_menu. returns_auto. Qed.

Lemma returns_register_user : returns user_id flags (register_user user_id).
Proof. unfold register_user. returns_auto. Qed.

Lemma returns_login_user name : returns user_id flags (login_user user_id name).
Proof. unfold login_user. returns_auto. Qed.

#[local] Hint Resolve returns_main_menu returns_register_user : returns.

Lemma returns_handle_registration text state :
  returns user_id flags (handle_registration user_id text state).
Proof. unfold handle_registration. returns_auto. Qed.

Lemma returns_handle_profile_update text state :
  returns user_id flags (handle_profile_update user_id text state).
Proof. unfold handle_profile_update. returns_auto. Qed.

Lemma returns_menu :
  returns user_id flags (start_registration user_id) /\
  returns user_id flags (check_balance user_id) /\
  returns user_id flags (start_withdrawal user_id) /\
  returns user_id flags (join_channel user_id) /\
  returns user_id flags (start_profile_update user_id) /\
  returns user_id flags (default_reply user_id).
Proof.
  repeat apply conj;
    unfold start_registration, check_balance, start_withdrawal, join_channel,
      start_profile_update, default_reply; returns_auto.
Qed.

End Returns.

Lemma process_login_returns user_id text w :
  is_Some (active_users w !! user_id) ->
  user_id ∈ pending_login w ->
  exists w', process_login user_id text w = (Ok tt, w').
Proof.
  intros Hs Hp.
  destruct (returns_login_user user_id {[user_id]} text w Hs) as (ok & E & _ & Hp1);
    [now apply singleton_subseteq_l|].
  apply singleton_subseteq_l in Hp1.
  unfold process_login. rewrite (bind_run _ _ _ _ E).
  assert (D : del_login_username_provided user_id (snd (login_user user_id text w))
              = (Ok tt,
                 set_pending_login
                   (pending_login (snd (login_user user_id text w)) ∖ {[user_id]})
                   (snd (login_user user_id text w)))).
  { unfold del_login_username_provided. rewrite bind_get_world.
    now rewrite bool_decide_eq_true_2 by assumption. }
  destruct ok; rewrite bind_run with (a := tt) by (now rewrite D);
    rewrite D; eexists; reflexivity.
Qed.

Lemma route_of_login text s pending :
  route_of text s pending = ToProcessLogin -> pending = true.
Proof.
  destruct pending; [reflexivity|]. unfold route_of, menu_route.
  rewrite andb_false_r.
  repeat first
    [ discriminate
    | match goal with
      | |- context [match if_truthy ?x with _ => _ end] => destruct (if_truthy x)
      | |- context [if ?c then _ else _] => destruct c
      end ].
Qed.

(** X29.  Outside the withdrawal dialogue no message makes the handler
    raise.  Whatever the transport does and whatever the session holds,
    a message that the router does not hand to [handle_withdrawal] is
    handled to the end: signup, login, logout, the main menu, the
    registration and profile dialogues and the default reply all
    return. *)
Theorem messages_outside_a_withdrawal_return (user_id : Z) (text : string)
    (w : World) :
  (forall state,
     route_of text (session_or_new user_id w)
       (bool_decide (user_id ∈ pending_login w)) <> ToWithdrawal state) ->
  exists w', handle_message user_id text w = (Ok tt, w').
Proof.
  intros Hroute. rewrite handle_message_run_route.
  assert (Hs : is_Some (active_users (with_session user_id w) !! user_id))
    by (rewrite with_session_lookup; eauto).
  assert (Hp : pending_login (with_session user_id w) = pending_login w).
  { unfold with_session. now destruct (active_users w !! user_id). }
  assert (Done : forall m : M unit,
            returns user_id ∅ m ->
            exists w', m (with_session user_id w) = (Ok tt, w')).
  { intros m Hm. destruct (Hm _ Hs) as ([] & E & _); [apply empty_subseteq|].
    destruct (m (with_session user_id w)) as [r w']. cbn in E. subst r. eauto. }
  destruct (route_of text (session_or_new user_id w)
              (bool_decide (user_id ∈ pending_login w))) eqn:R;
    cbn [run_route]; try (apply Done; apply returns_menu).
  - eexists. reflexivity.
  - unfold logout, end_session. rewrite bind_modify. eexists. reflexivity.
  - apply Done, returns_main_menu.
  - apply Done, returns_handle_registration.
  - apply process_login_returns; [exact Hs|].
    apply route_of_login in R. apply bool_decide_eq_true_1 in R. now rewrite Hp.
  - now destruct (Hroute state).
  - apply Done, returns_handle_profile_update.
Qed.

(** * The session store behind the router *)

(** A login with a username that no row of the table starts with
    returns [False] and leaves the sessions alone, with or without a
    session and whatever the transport does. *)
Lemma login_user_not_found user_id name w :
  ~ has_username name (users_rows w) ->
  fst (login_user user_id name w) = Ok false /\
  active_users (snd (login_user user_id name w)) = active_users w.
Proof.
  intros Hfresh.
  destruct (find_user_by_username_soft (Some name) w) as (found & E & Hfound).
  assert (found = None) as ->.
  { destruct Hfound as [->| ->]; [|reflexivity]. now apply find_from_None. }
  unfold login_user. rewrite (bind_run _ _ _ _ E). cbn.
  split; [reflexivity|].
  apply (ro_active _ _ (find_user_by_username_reads (Some name) w)).
Qed.

(** C9, as the code has it.  On an id that has no session the accessors
    of the session store return their defaults or do nothing, and none
    of them raises; a login with a username the table does not hold
    returns [False].  Login with a username that is found and
    registration commit are not among them: they index the session and
    raise [KeyError] without one.  The router creates the session of
    the sender before it runs a handler; with a session both return,
    whatever the transport does, and so does every message that the
    router hands to the login or the registration handler, the only
    callers of the two. *)
Theorem session_store_without_session (user_id : Z) (w : World) :
  active_users w !! user_id = None ->
  (* the accessors *)
  (is_logged_in user_id w = (Ok false, w) /\
   get_username user_id w = (Ok None, w) /\
   get_registration_state user_id w = (Ok None, w) /\
   get_registration_data user_id w = (Ok ∅, w) /\
   get_withdraw_state user_id w = (Ok None, w) /\
   get_withdraw_data user_id w = (Ok ∅, w) /\
   get_update_profile_state user_id w = (Ok None, w) /\
   get_update_field user_id w = (Ok None, w) /\
   (forall f, update_session user_id f w = (Ok tt, w)) /\
   end_session user_id w = (Ok tt, w) /\
   (forall name, ~ has_username name (users_rows w) ->
      fst (login_user user_id name w) = Ok false /\
      active_users (snd (login_user user_id name w)) = active_users w)) /\
  (* login and registration commit without a session *)
  register_user user_id w = (Raise (KeyError (pretty user_id)), w) /\
  (forall name, faults w = [] -> has_username name (users_rows w) ->
     fst (login_user user_id name w) = Raise (KeyError (pretty user_id))) /\
  (* the router creates the session first *)
  (forall text,
     handle_message user_id text w
     = handle_message user_id text (put_session user_id new_session w)) /\
  (* with a session, login and registration commit return *)
  (forall w0 name, is_Some (active_users w0 !! user_id) ->
     (exists ok, fst (login_user user_id name w0) = Ok ok) /\
     (exists result, fst (register_user user_id w0) = Ok result)) /\
  (* and so do the messages handed to their callers *)
  (forall w0 text,
     route_of text (session_or_new user_id w0)
       (bool_decide (user_id ∈ pending_login w0)) = ToProcessLogin \/
     (exists state,
        route_of text (session_or_new user_id w0)
          (bool_decide (user_id ∈ pending_login w0)) = ToRegistration state) ->
     exists w', handle_message user_id text w0 = (Ok tt, w')).
Proof.
  intros Hnone.
  split.
  { destruct (accessors_without_session user_id w Hnone)
      as (H1 & H2 & H3 & H4 & H5 & H6 & H7 & H8 & H9 & H10 & _).
    repeat (split; [assumption|]).
    intros name. apply login_user_not_found. }
  destruct (login_and_register_without_session user_id "" w Hnone) as [Hreg _].
  split; [exact Hreg|].
  split.
  { intros name. apply (login_and_register_without_session user_id name w Hnone). }
  split.
  { intros text. rewrite handle_message_with_session.
    unfold with_session. now rewrite Hnone. }
  split.
  { intros w0 name Hs. split.
    - destruct (returns_login_user user_id ∅ name w0 Hs (empty_subseteq _))
        as (ok & E & _). eauto.
    - destruct (returns_register_user user_id ∅ w0 Hs (empty_subseteq _))
        as (result & E & _). eauto. }
  intros w0 text Hroute. rewrite handle_message_run_route.
  assert (Hs : is_Some (active_users (with_session user_id w0) !! user_id))
    by (rewrite with_session_lookup; eauto).
  destruct Hroute as [R|[state R]]; rewrite R; cbn [run_route].
  - apply process_login_returns; [exact Hs|].
    apply route_of_login in R. apply bool_decide_eq_true_1 in R.
    unfold with_session. now destruct (active_users w0 !! user_id).
  - destruct (returns_handle_registration user_id ∅ text state _ Hs
                (empty_subseteq _)) as ([] & E & _).
    destruct (handle_registration user_id text state (with_session user_id w0))
      as [r w']. cbn in E. subst r. eauto.
Qed.

(** * What a sender who is not logged in can do *)

#[local] Instance guest_step_preorder : PreOrder guest_step.
Proof.
  split.
  - intros w. now constructor.
  - intros w1 w2 w3 [] []. constructor; etransitivity; eassumption.
Qed.

Lemma rows_keeps_guest {A} (m : M A) : keeps rows_kept m -> keeps guest_step m.
Proof. apply keeps_weaken. intros w w' [Hu Hp]. constructor; now rewrite ?Hu. Qed.

Lemma assign_session_rows user_id f : keeps rows_kept (assign_session user_id f).
Proof.
  unfold assign_session, session_of. keeps_auto.
  apply keeps_modify. intros w. now constructor.
Qed.

Lemma session_of_rows user_id : keeps rows_kept (session_of user_id).
Proof. unfold session_of. keeps_auto. Qed.

Lemma session_reads_rows user_id :
  keeps rows_kept (is_logged_in user_id) /\
  keeps rows_kept (get_registration_data user_id) /\
  keeps rows_kept (get_update_field user_id) /\
  keeps rows_kept (end_session user_id) /\
  keeps rows_kept (prompt_login_username user_id) /\
  keeps rows_kept (del_login_username_provided user_id).
Proof.
  repeat apply conj.
  - unfold is_logged_in. keeps_auto.
  - unfold get_registration_data. keeps_auto.
  - unfold get_update_field. keeps_auto.
  - apply keeps_modify. intros w. now destruct (active_users w !! user_id).
  - now intros w.
  - intros w. unfold del_login_username_provided. rewrite bind_get_world.
    now case_bool_decide.
Qed.

Lemma find_from_nobody rows n : find_from None rows n = None.
Proof.
  revert n. induction rows as [|row rows IH]; intros n; [reflexivity|].
  rewrite find_from_cons. destruct row; apply IH.
Qed.

Lemma update_user_profile_nobody field value :
  keeps rows_kept (update_user_profile None field value).
Proof.
  intros w. unfold update_user_profile, try_except.
  destruct (find_user_by_username_soft None w) as (r & E & Hr).
  pose proof (find_user_by_username_rows None w) as RK.
  assert (r = None) as ->
    by (destruct Hr as [->| ->]; [apply find_from_nobody|reflexivity]).
  now rewrite (bind_run _ _ _ _ E).
Qed.

Lemma values_append_users_guest row : keeps guest_step (values_append_users row).
Proof.
  intros w. unfold values_append_users, execute, mbind, M_bind, bind, modify.
  destruct (faults w) as [|[msg|] rest]; cbn; constructor; cbn;
    try reflexivity; now apply prefix_app_r.
Qed.

Lemma ensure_headers_guest sh h : keeps guest_step (ensure_headers sh h).
Proof. apply rows_keeps_guest, reads_keeps_rows, ensure_headers_reads. Qed.

Lemma find_user_by_username_guest u : keeps guest_step (find_user_by_username u).
Proof. apply rows_keeps_guest, find_user_by_username_rows. Qed.

#[local] Hint Resolve values_append_users_guest ensure_headers_guest
  find_user_by_username_guest : keeps.

Lemma sheets_register_user_guest row : keeps guest_step (sheets_register_user row).
Proof. unfold sheets_register_user. keeps_auto. Qed.

Section Guest.

Context (user_id : Z).

Lemma guest_update_session f : keeps guest_step (update_session user_id f).
Proof. apply rows_keeps_guest, update_session_rows. Qed.

Lemma guest_assign_session f : keeps guest_step (assign_session user_id f).
Proof. apply rows_keeps_guest, assign_session_rows. Qed.

Lemma guest_session_of : keeps guest_step (session_of user_id).
Proof. apply rows_keeps_guest, session_of_rows. Qed.

Lemma guest_reply_text text m : keeps guest_step (reply_text user_id text m).
Proof. apply rows_keeps_guest, reply_text_rows. Qed.

Lemma guest_get_username : keeps guest_step (get_username user_id).
Proof. apply rows_keeps_guest, get_username_rows. Qed.

Lemma guest_is_logged_in : keeps guest_step (is_logged_in user_id).
Proof. apply rows_keeps_guest, session_reads_rows. Qed.

Lemma guest_get_registration_data : keeps guest_step (get_registration_data user_id).
Proof. apply rows_keeps_guest, session_reads_rows. Qed.

Lemma guest_get_update_field : keeps guest_step (get_update_field user_id).
Proof. apply rows_keeps_guest, session_reads_rows. Qed.

Lemma guest_end_session : keeps guest_step (end_session user_id).
Proof. apply rows_keeps_guest, session_reads_rows. Qed.

Lemma guest_prompt_login_username : keeps guest_step (prompt_login_username user_id).
Proof. apply rows_keeps_guest, session_reads_rows. Qed.

Lemma guest_del_login_username_provided :
  keeps guest_step (del_login_username_provided user_id).
Proof. apply rows_keeps_guest, session_reads_rows. Qed.

Lemma guest_update_user_profile field value :
  keeps guest_step (update_user_profile None field value).
Proof. apply rows_keeps_guest, update_user_profile_nobody. Qed.

#[local] Hint Resolve guest_update_session guest_assign_session guest_session_of
  guest_reply_text guest_get_username guest_is_logged_in
  guest_get_registration_data guest_get_update_field guest_end_session
  guest_prompt_login_username guest_del_login_username_provided
  guest_update_user_profile sheets_register_user_guest : keeps.

Ltac guest_auto :=
  unfold set_registration_state, set_registration_data,
    set_update_profile_state, set_update_field;
  keeps_auto.

Lemma guest_main_menu : keeps guest_step (main_menu user_id).
Proof. unfold main_menu. guest_auto. Qed.

Lemma guest_register_user : keeps guest_step (register_user user_id).
Proof. unfold register_user. guest_auto. Qed.

#[local] Hint Resolve guest_main_menu guest_register_user : keeps.

Lemma guest_handle_registration text state :
  keeps guest_step (handle_registration user_id text state).
Proof. unfold handle_registration. guest_auto. Qed.

Lemma guest_process_login text : keeps guest_step (process_login user_id text).
Proof. unfold process_login, login_user. guest_auto. Qed.

Lemma guest_handle_profile_update text state w :
  current_username user_id w = None ->
  guest_step w (snd (handle_profile_update user_id text state w)).
Proof.
  intros Hu. unfold handle_profile_update. rewrite run_get_username_any, Hu.
  match goal with |- guest_step w (snd (?m w)) =>
    assert (K : keeps guest_step m) by guest_auto; apply K
  end.
Qed.

Lemma guest_entry :
  keeps guest_step (start_registration user_id) /\
  keeps guest_step (logout user_id) /\
  keeps guest_step (default_reply user_id).
Proof.
  repeat apply conj; unfold start_registration, logout, default_reply; guest_auto.
Qed.

End Guest.

(** X30.  A sender who is not logged in can only register.  A message of
    a sender who is not logged in and has no withdrawal in progress
    leaves every payment row and every user row as it was, whatever the
    text, the session and the transport: at most, a registration appends
    a user row.  The main menu, the balances and the profiles are out of
    reach. *)
Theorem guests_can_only_register (user_id : Z) (text : string) (w : World) :
  logged_in (session_or_new user_id w) = false ->
  if_truthy (withdraw_state (session_or_new user_id w)) = None ->
  users_rows w `prefix_of` users_rows (snd (handle_message user_id text w)) /\
  payments_rows (snd (handle_message user_id text w)) = payments_rows w.
Proof.
  intros Hlog Hwd. rewrite handle_message_run_route.
  pose proof (with_session_lookup user_id w) as Hs.
  set (s := session_or_new user_id w) in *.
  assert (W : guest_step w (with_session user_id w)).
  { unfold with_session. now destruct (active_users w !! user_id). }
  assert (G : guest_step (with_session user_id w)
                (snd (run_route user_id text
                        (route_of text s (bool_decide (user_id ∈ pending_login w)))
                        (with_session user_id w)))).
  { unfold route_of. rewrite Hlog, Hwd. cbn [negb andb].
    destruct (String.eqb text "1. Signup" || String.eqb text "Signup");
      [apply guest_entry|].
    destruct (String.eqb text "2. Login" || String.eqb text "Login");
      [apply guest_prompt_login_username|].
    destruct (String.eqb text "Logout"); [apply guest_entry|].
    destruct (if_truthy (registration_state s));
      [apply guest_handle_registration|].
    destruct (bool_decide (user_id ∈ pending_login w));
      [apply guest_process_login|].
    destruct (if_truthy (update_profile_state s)); [|apply guest_entry].
    apply guest_handle_profile_update. unfold current_username.
    now rewrite Hs, Hlog. }
  destruct (transitivity W G) as [Hu Hp]. auto.
Qed.

End Bot.

(** * Examples

    The theorems above at concrete worlds, with [sample_float] and
    [sample_str] for the builtins. *)


Lemma withdrawal_commit_witness :
  exists w' id1 id2 k row,
    process_withdrawal_request sample_float sample_str 1 (PyStr "UPI")
      commit_world = (Ok tt, w') /\
    payments_rows w'
      = (payments_rows commit_world ++
         [[PyStr "alice"; PyStr (sample_str 30); PyStr "UPI"; id1; id2;
           PyStr (clock commit_world); PyStr "Pending"]])%list /\
    users_rows commit_world !! k = Some row /\
    head row = Some "alice" /\
    users_rows w'
      = <[k := set_cell 7 (sample_str (100 - 30)) row]>
          (users_rows commit_world) /\
    stored_balance (Some "alice") (users_rows w') = sample_str (100 - 30) /\
    (exists s', active_users w' !! 1 = Some s' /\
                withdraw_state s' = None /\
                withdraw_data s' = {["amount" := PyFloat 30%float]}).
Proof.
  refine (withdrawal_commit sample_float sample_str 1 (PyStr "UPI") "alice"
            30%float 100%float
            (alice_session (Some "awaiting_payment_mode_confirmation") None
               {["amount" := PyFloat 30%float]})
            commit_world _ _ _ _ _ _ _).
  - reflexivity.
  - reflexivity.
  - reflexivity.
  - reflexivity.
  - reflexivity.
  - exists (alice_row "100"). split; [left|reflexivity].
  - reflexivity.
Defined.

(** The same commit, run: the stored balance becomes "70.0" and the
    Payments table gets its row. *)
Example commit_of_30_from_100 :
  let w' := snd (process_withdrawal_request sample_float sample_str 1
                   (PyStr "UPI") commit_world) in
  users_rows w' = [alice_row "70.0"] /\
  payments_rows w'
    = [[PyStr "alice"; PyStr "30.0"; PyStr "UPI"; PyStr "alice@upi"; PyStr "";
        PyStr "2024-05-01 10:00:00"; PyStr "Pending"]].
Proof. vm_compute. split; reflexivity. Qed.

(** The same withdrawal as a dialogue, from the login on. *)
Example withdrawal_scenario :
  let w' := after_messages sample_float sample_str 1
              ["Login"; "alice"; "Withdraw Funds"; "30"; "Yes"]
              registered_world in
  users_rows w' = [alice_row "70.0"] /\
  payments_rows w'
    = [[PyStr "alice"; PyStr "30.0"; PyStr "UPI"; PyStr "alice@upi"; PyStr "";
        PyStr "2024-05-01 10:00:00"; PyStr "Pending"]] /\
  (withdraw_state <$> active_users w' !! 1) = Some None.
Proof. vm_compute. repeat split; reflexivity. Qed.

(** C1 as stated fails in two ways.  When the read of the rows for the
    balance fails during the commit, the balance reads as "0": the
    payment row is appended, the user is told of the success, and the
    balance stored for alice, who had 100 and withdraws 30, is "-30.0"
    and not the text of 70.  And the balance that is written is the
    text of a binary64 difference, not of a decimal one: for a balance
    of "0.3" and an amount of "0.1" the number handed to [str],
    whatever [str] prints for it, is strictly below the number that
    [float] reads from "0.2". *)
Lemma withdrawal_commit_counterexample :
  (exists w',
     sample_float
       (stored_balance (Some "alice") (users_rows failed_read_commit_world))
     = Some 100%float /\
     process_withdrawal_request sample_float sample_str 1 (PyStr "UPI")
       failed_read_commit_world = (Ok tt, w') /\
     payments_rows w'
     = [[PyStr "alice"; PyStr "30.0"; PyStr "UPI"; PyStr "alice@upi"; PyStr "";
         PyStr "2024-05-01 10:00:00"; PyStr "Pending"]] /\
     stored_balance (Some "alice") (users_rows w') = "-30.0" /\
     stored_balance (Some "alice") (users_rows w') <> sample_str (100 - 30)) /\
  (exists B A C,
     sample_float
       (stored_balance (Some "alice") (users_rows fraction_commit_world))
     = Some B /\
     sample_float "0.1" = Some A /\
     sample_float "0.2" = Some C /\
     (forall str,
        stored_balance (Some "alice")
          (users_rows
             (snd (process_withdrawal_request sample_float str 1 (PyStr "UPI")
                     fraction_commit_world)))
        = str (B - A)%float) /\
     (B - A <? C)%float = true).
Proof.
  split.
  - eexists. split; [reflexivity|]. split; [vm_compute; reflexivity|].
    split; [reflexivity|]. split; [reflexivity|]. vm_compute. discriminate.
  - eexists _, _, _. split; [vm_compute; reflexivity|].
    split; [vm_compute; reflexivity|]. split; [vm_compute; reflexivity|].
    split; [|vm_compute; reflexivity].
    intros str. vm_compute. reflexivity.
Qed.


Example signup_scenario :
  let w' := after_messages sample_float sample_str 1
              ["Signup"; "alice"; "Alice"; "Lee"; "UPI"; "alice@upi"; "Yes"]
              (snd (start 1 fresh_world)) in
  users_header w' = USER_HEADERS /\
  users_rows w' = [alice_row "0"] /\
  (username <$> active_users w' !! 1) = Some (Some "alice") /\
  (logged_in <$> active_users w' !! 1) = Some true /\
  stored_balance (Some "alice") (users_rows w') = "0".
Proof. vm_compute. repeat split; reflexivity. Qed.

(** A withdrawal of 150 from a balance of 100. *)
Lemma insufficient_balance_aborts_witness :
  exists w',
    handle_withdrawal sample_float sample_str 1 "150" "awaiting_amount"
      (awaiting_amount_world "100") = (Ok tt, w') /\
    (exists s', active_users w' !! 1 = Some s' /\ withdraw_state s' = None) /\
    users_rows w' = users_rows (awaiting_amount_world "100") /\
    payments_rows w' = payments_rows (awaiting_amount_world "100") /\
    stored_balance (current_username 1 (awaiting_amount_world "100"))
      (users_rows w')
    = stored_balance (current_username 1 (awaiting_amount_world "100"))
        (users_rows (awaiting_amount_world "100")) /\
    outbox w' =
      (outbox (awaiting_amount_world "100") ++
       [mkReply 1
          ("Insufficient balance. Your current balance is: ₹" +:+
           sample_str 100)
          get_main_menu_keyboard])%list.
Proof.
  refine (insufficient_balance_aborts sample_float sample_str 1 "150"
            150%float 100%float
            (alice_session (Some "awaiting_amount") None ∅)
            (awaiting_amount_world "100") _ _ _ _ _ _ _); reflexivity.
Defined.

(** How the bot itself overdraws an account: two Telegram users log in
    as alice, each asks for the whole balance of 100 while it is still
    there, and both confirm.  User 1 then starts another withdrawal, in
    front of a stored balance of "-100.0". *)
Example overdraft_is_reachable :
  let w :=
    after_turns sample_float sample_str
      [(1, "Login"); (1, "alice"); (2, "Login"); (2, "alice");
       (1, "Withdraw Funds"); (1, "100"); (2, "Withdraw Funds"); (2, "100");
       (1, "Yes"); (2, "Yes"); (1, "Withdraw Funds")]
      registered_world in
  users_rows w = users_rows (awaiting_amount_world "-100.0") /\
  length (payments_rows w) = 2%nat /\
  (withdraw_state <$> active_users w !! 1) = Some (Some "awaiting_amount") /\
  current_username 1 w = current_username 1 (awaiting_amount_world "-100.0").
Proof. vm_compute. repeat split; reflexivity. Qed.

(** C5 as stated fails on an overdrawn account: the stored balance is
    "-100.0" and the entered amount "-1" parses to a value strictly
    greater than it, yet the withdrawal is not aborted.  The amount is
    refused for not being positive: the reply does not report the
    balance, and the withdrawal state is still [awaiting_amount].  It
    also fails when the read of the rows fails: the stored balance is
    "20" and the amount 50 exceeds it, the withdrawal is aborted, but
    the balance that was read is "0" and the reply reports 0.0, not the
    stored balance. *)
Lemma insufficient_balance_counterexample :
  (exists amount balance w',
    (withdraw_state <$> active_users (awaiting_amount_world "-100.0") !! 1)
    = Some (Some "awaiting_amount") /\
    sample_float "-1" = Some amount /\
    sample_float
      (stored_balance (current_username 1 (awaiting_amount_world "-100.0"))
         (users_rows (awaiting_amount_world "-100.0")))
      = Some balance /\
    (balance <? amount)%float = true /\
    handle_withdrawal sample_float sample_str 1 "-1" "awaiting_amount"
      (awaiting_amount_world "-100.0") = (Ok tt, w') /\
    outbox w' = [mkReply 1 "Please enter a positive amount:" NoMarkup] /\
    (withdraw_state <$> active_users w' !! 1) = Some (Some "awaiting_amount") /\
    ~ (exists s', active_users w' !! 1 = Some s' /\ withdraw_state s' = None)) /\
  (exists amount balance w',
    sample_float "50" = Some amount /\
    stored_balance (current_username 1 failed_read_amount_world)
      (users_rows failed_read_amount_world) = "20" /\
    sample_float "20" = Some balance /\
    (balance <? amount)%float = true /\
    handle_withdrawal sample_float sample_str 1 "50" "awaiting_amount"
      failed_read_amount_world = (Ok tt, w') /\
    outbox w'
    = [mkReply 1 "Insufficient balance. Your current balance is: ₹0.0"
         get_main_menu_keyboard] /\
    outbox w'
    <> [mkReply 1
          ("Insufficient balance. Your current balance is: ₹" +:+
           sample_str balance)
          get_main_menu_keyboard]).
Proof.
  split.
  - exists (-1)%float, (-100)%float. eexists.
    split; [reflexivity|]. split; [reflexivity|].
    split; [reflexivity|]. split; [reflexivity|].
    split; [vm_compute; reflexivity|].
    split; [reflexivity|]. split; [reflexivity|].
    intros (s' & Hs' & Hnone). vm_compute in Hs'.
    injection Hs' as <-. discriminate Hnone.
  - exists 50%float, 20%float. eexists.
    split; [reflexivity|]. split; [reflexivity|].
    split; [reflexivity|]. split; [reflexivity|].
    split; [vm_compute; reflexivity|].
    split; [reflexivity|]. vm_compute. discriminate.
Qed.



Lemma duplicate_username_reprompts_witness :
  exists w',
    handle_registration sample_str 1 "alice" "awaiting_username"
      (world_with
         (with_registration_state (Some "awaiting_username") new_session)
         [alice_row "100"]) = (Ok tt, w') /\
    users_rows w' = [alice_row "100"] /\
    active_users w'
      = {[1 := with_registration_state (Some "awaiting_username") new_session]} /\
    (exists s', active_users w' !! 1 = Some s' /\
                registration_state s' = Some "awaiting_username") /\
    outbox w' =
      [mkReply 1 "This username already exists. Please choose another username:"
         NoMarkup].
Proof.
  refine (duplicate_username_reprompts sample_str 1 "alice"
            (with_registration_state (Some "awaiting_username") new_session)
            (world_with
               (with_registration_state (Some "awaiting_username") new_session)
               [alice_row "100"]) _ _ _ _).
  - reflexivity.
  - reflexivity.
  - reflexivity.
  - exists (alice_row "100"). split; [left|reflexivity].
Defined.

(** C6 as stated fails when the Users sheet cannot be read: the read
    of the rows raises, the table reads as empty, and "alice", a
    username the table holds, is accepted: the session does not stay
    in [awaiting_username], it holds the name and waits for the first
    name. *)
Lemma duplicate_username_counterexample :
  exists w' s',
    has_username "alice" (users_rows unreadable_table_world) /\
    (registration_state <$> active_users unreadable_table_world !! 1)
    = Some (Some "awaiting_username") /\
    handle_registration sample_str 1 "alice" "awaiting_username"
      unreadable_table_world = (Ok tt, w') /\
    active_users w' !! 1 = Some s' /\
    registration_state s' = Some "awaiting_first_name" /\
    registration_data s' !! "username" = Some "alice" /\
    users_rows w' = users_rows unreadable_table_world /\
    outbox w' = [mkReply 1 "Please enter your first name:" NoMarkup].
Proof.
  eexists _, _.
  split; [exists (alice_row "100"); split; [left|reflexivity]|].
  split; [reflexivity|]. split; [vm_compute; reflexivity|].
  repeat split; reflexivity.
Qed.

(** The same through the router, from the signup label on. *)
Example duplicate_username_run :
  let w' := after_messages sample_float sample_str 1 ["Signup"; "alice"]
              (set_faults [None; Some "timeout"] registered_world) in
  (registration_state <$> active_users w' !! 1)
  = Some (Some "awaiting_first_name") /\
  last (outbox w') = Some (mkReply 1 "Please enter your first name:" NoMarkup).
Proof. vm_compute. split; reflexivity. Qed.

Lemma check_balance_preempts_withdrawal_witness :
  handle_message sample_float sample_str 1 "Check Balance"
    (awaiting_amount_world "100")
  = check_balance 1 (awaiting_amount_world "100") /\
  fst (handle_message sample_float sample_str 1 "Check Balance"
         (awaiting_amount_world "100")) = Ok tt /\
  active_users
    (snd (handle_message sample_float sample_str 1 "Check Balance"
            (awaiting_amount_world "100")))
  = active_users (awaiting_amount_world "100") /\
  exists s',
    active_users
      (snd (handle_message sample_float sample_str 1 "Check Balance"
              (awaiting_amount_world "100"))) !! 1 = Some s' /\
    withdraw_state s' = Some "awaiting_amount".
Proof.
  refine (check_balance_preempts_withdrawal sample_float sample_str 1
            "Check Balance" (alice_session (Some "awaiting_amount") None ∅)
            (awaiting_amount_world "100") _ _ _ _).
  - reflexivity.
  - reflexivity.
  - reflexivity.
  - now left.
Defined.

(** The reply of the balance handler in that world. *)
Example check_balance_mid_withdrawal :
  outbox (snd (handle_message sample_float sample_str 1 "Check Balance"
                 (awaiting_amount_world "100")))
  = [mkReply 1 "Your current balance is: ₹100" get_main_menu_keyboard].
Proof. vm_compute. reflexivity. Qed.

Lemma payment_mode_update_is_refused_witness :
  (exists s1,
     active_users
       (snd (handle_profile_update sample_str 1 "Payment Mode"
               "selecting_field" profile_world)) !! 1 = Some s1 /\
     update_profile_state s1 = Some "updating_payment_mode" /\
     update_field s1 = Some "payment_mode") /\
  exists w2,
    handle_profile_update sample_str 1 "Bank Account"
      "updating_payment_mode"
      (snd (handle_profile_update sample_str 1 "Payment Mode"
              "selecting_field" profile_world)) = (Ok tt, w2) /\
    users_rows w2 = users_rows profile_world /\
    outbox w2 =
      (outbox (snd (handle_profile_update sample_str 1
                      "Payment Mode" "selecting_field" profile_world)) ++
       [mkReply 1 "Failed to update profile: Invalid field: payment_mode"
          get_main_menu_keyboard])%list /\
    (exists s2, active_users w2 !! 1 = Some s2 /\
                update_profile_state s2 = None).
Proof.
  refine (payment_mode_update_is_refused sample_str 1
            "Bank Account" "alice"
            (alice_session None (Some "selecting_field") ∅)
            profile_world _ _ _ _ _ _).
  - reflexivity.
  - reflexivity.
  - reflexivity.
  - exists (alice_row "100"). split; [left|reflexivity].
  - reflexivity.
  - now right.
Defined.

(** The whole dialogue through the router: the Users table is as it
    was, alice's preferred mode still "UPI". *)
Example payment_mode_update_run :
  let w' := after_messages sample_float sample_str 1
              ["Update Profile"; "Payment Mode"; "Bank Account"]
              (world_with (alice_session None None ∅) [alice_row "100"]) in
  users_rows w' = [alice_row "100"] /\
  last (outbox w')
  = Some (mkReply 1 "Failed to update profile: Invalid field: payment_mode"
            get_main_menu_keyboard).
Proof. vm_compute. split; reflexivity. Qed.

(** Nobody has a session in [registered_world], and alice is in the
    table: the accessors answer with their defaults for user 1, a login
    as "zoe" returns [False], and a login as "alice" through the router
    goes through, on the session the router has created. *)
Lemma session_store_without_session_witness :
  is_logged_in 1 registered_world = (Ok false, registered_world) /\
  get_withdraw_data 1 registered_world = (Ok ∅, registered_world) /\
  end_session 1 registered_world = (Ok tt, registered_world) /\
  fst (login_user 1 "zoe" registered_world) = Ok false /\
  handle_message sample_float sample_str 1 "alice" registered_world
  = handle_message sample_float sample_str 1 "alice"
      (put_session 1 new_session registered_world) /\
  exists w',
    handle_message sample_float sample_str 1 "alice"
      (set_pending_login {[1]} registered_world) = (Ok tt, w').
Proof.
  destruct (session_store_without_session sample_float sample_str 1
              registered_world eq_refl)
    as ((Hlogged & _ & _ & _ & _ & Hdata & _ & _ & _ & Hend & Hlogin) & _ & _
        & Hrouter & _ & Hhandled).
  split; [exact Hlogged|]. split; [exact Hdata|]. split; [exact Hend|].
  split.
  { apply Hlogin.
    intros (row & Hin & Hrow). apply list_elem_of_singleton in Hin. subst row.
    discriminate Hrow. }
  split; [apply Hrouter|].
  apply Hhandled. left. reflexivity.
Defined.

(** C9 as stated fails on login and registration commit: on an id
    that has no session, [register_user] raises [KeyError], and so does
    the login of a username that the table holds. *)
Lemma session_store_counterexample :
  active_users registered_world !! 1 = None /\
  register_user 1 registered_world
  = (Raise (KeyError "1"), registered_world) /\
  has_username "alice" (users_rows registered_world) /\
  fst (login_user 1 "alice" registered_world) = Raise (KeyError "1").
Proof.
  split; [reflexivity|]. split; [vm_compute; reflexivity|].
  split; [exists (alice_row "100"); split; [left|reflexivity]|].
  vm_compute. reflexivity.
Qed.

(** A login of a registered username on an id that has no session. *)
Example login_without_session :
  fst (login_user 7 "alice" (awaiting_amount_world "100"))
  = Raise (KeyError "7").
Proof. vm_compute. reflexivity. Qed.


(** ** The record store *)

Lemma ensure_headers_heals_witness :
  exists w',
    ensure_headers UsersSheet USER_HEADERS fresh_world = (Ok true, w') /\
    header_of UsersSheet w'
    = (USER_HEADERS ++ drop (length USER_HEADERS) (header_of UsersSheet fresh_world))%list /\
    (forall other, other <> UsersSheet ->
       header_of other w' = header_of other fresh_world) /\
    reads_only fresh_world w' /\
    faults w' = [] /\
    ensure_headers UsersSheet USER_HEADERS w' = (Ok true, w').
Proof. apply (ensure_headers_heals UsersSheet USER_HEADERS fresh_world). reflexivity. Defined.

Lemma find_user_by_username_first_match_witness :
  exists found w',
    find_user_by_username (Some "alice") registered_world = (Ok found, w') /\
    reads_only registered_world w' /\
    match found with
    | Some (row, n) =>
        exists i, n = (i + 2)%nat /\ users_rows registered_world !! i = Some row /\
                  head row = Some "alice" /\
                  forall j r, (j < i)%nat -> users_rows registered_world !! j = Some r ->
                              head r <> Some "alice"
    | None => ~ has_username "alice" (users_rows registered_world)
    end.
Proof. apply (find_user_by_username_first_match "alice" registered_world). reflexivity. Defined.

Lemma sheets_register_user_accepts_fresh_names_witness :
  exists w',
    store_only registered_world w' /\
    payments_rows w' = payments_rows registered_world /\ faults w' = [] /\
    ((has_username "bob" (users_rows registered_world) /\
      sheets_register_user ("bob" :: tail bob_row) registered_world
        = (Ok (false, "Username already exists"), w') /\
      users_rows w' = users_rows registered_world) \/
     (~ has_username "bob" (users_rows registered_world) /\
      sheets_register_user ("bob" :: tail bob_row) registered_world
        = (Ok (true, "User registered successfully"), w') /\
      users_rows w' = (users_rows registered_world ++ ["bob" :: tail bob_row])%list)).
Proof.
  apply (sheets_register_user_accepts_fresh_names "bob" (tail bob_row) registered_world).
  reflexivity.
Defined.

Lemma update_user_balance_round_trip_witness :
  (has_username "alice" (users_rows registered_world) ->
   exists w',
     update_user_balance sample_str (Some "alice") 70 registered_world
       = (Ok (true, "Balance updated successfully"), w') /\
     fst (get_user_balance (Some "alice") w') = Ok (sample_str 70) /\
     length (users_rows w') = length (users_rows registered_world) /\
     (forall other, other <> "alice" ->
        stored_balance (Some other) (users_rows w')
        = stored_balance (Some other) (users_rows registered_world)) /\
     payments_rows w' = payments_rows registered_world /\
     store_only registered_world w') /\
  (~ has_username "alice" (users_rows registered_world) ->
   exists w',
     update_user_balance sample_str (Some "alice") 70 registered_world
       = (Ok (false, "User not found"), w') /\
     reads_only registered_world w').
Proof.
  apply (update_user_balance_round_trip sample_str "alice" 70%float registered_world).
  reflexivity.
Defined.

Lemma update_user_profile_writes_the_column_witness :
  exists w' k row,
    update_user_profile sample_str (Some "alice") (Some "upi_id") "lee@upi"
      registered_world
      = (Ok (true, title (replace_underscore "upi_id") +:+ " updated successfully"),
         w') /\
    users_rows registered_world !! k = Some row /\
    head row = Some "alice" /\
    (forall j r, (j < k)%nat -> users_rows registered_world !! j = Some r ->
                 head r <> Some "alice") /\
    users_rows w' = <[k := set_cell 4 "lee@upi" row]> (users_rows registered_world) /\
    set_cell 4 "lee@upi" row !! 4%nat = Some "lee@upi" /\
    (forall c, c <> 4%nat -> (c < length row)%nat ->
       set_cell 4 "lee@upi" row !! c = row !! c) /\
    fst (get_user_payment_info (Some "alice") w')
      = Ok (Some (payment_info_of (set_cell 4 "lee@upi" row))) /\
    payments_rows w' = payments_rows registered_world /\
    store_only registered_world w'.
Proof.
  refine (update_user_profile_writes_the_column sample_str "alice" "upi_id"
            "lee@upi" 4 registered_world _ _ _).
  - reflexivity.
  - exists (alice_row "100"). split; [left|reflexivity].
  - reflexivity.
Defined.

(** The same update, run: the message of success and the table. *)
Example upi_id_update_run :
  update_user_profile sample_str (Some "alice") (Some "upi_id") "lee@upi"
    registered_world
  = (Ok (true, "Upi Id updated successfully"),
     set_users_rows
       [["alice"; "Alice"; "Lee"; "UPI"; "lee@upi"; ""; ""; "100"]]
       registered_world).
Proof. vm_compute. reflexivity. Qed.

Lemma duplicate_check_fails_open_witness :
  exists w',
    sheets_register_user ("alice" :: tail (alice_row "0")) flaky_world
      = (Ok (true, "User registered successfully"), w') /\
    users_rows w'
    = (users_rows flaky_world ++ ["alice" :: tail (alice_row "0")])%list /\
    (has_username "alice" (users_rows flaky_world) ->
     ~ unique_usernames (users_rows w')).
Proof.
  apply (duplicate_check_fails_open "alice" "timeout" (tail (alice_row "0"))
           flaky_world); reflexivity.
Defined.

(** The same registration, run: alice is in the table twice. *)
Example duplicate_row_run :
  users_rows (snd (sheets_register_user (alice_row "0") flaky_world))
  = [alice_row "100"; alice_row "0"].
Proof. vm_compute. reflexivity. Qed.

(** ** Runs of the bot *)

Lemma updates_leave_other_users_alone_witness :
  active_users
    (after_updates sample_float sample_str second_user_run
       (awaiting_amount_world "100")) !! 1
  = active_users (awaiting_amount_world "100") !! 1 /\
  (1 ∈ pending_login
         (after_updates sample_float sample_str second_user_run
            (awaiting_amount_world "100")) <->
   1 ∈ pending_login (awaiting_amount_world "100")).
Proof.
  apply (updates_leave_other_users_alone sample_float sample_str 1
           second_user_run (awaiting_amount_world "100")).
  repeat (constructor; [cbn; discriminate|]). constructor.
Defined.

Lemma accounts_are_never_removed_or_renamed_witness :
  exists row',
    users_rows
      (after_updates sample_float sample_str second_user_run
         (awaiting_amount_world "100")) !! 0%nat = Some row' /\
    head row' = head (alice_row "100").
Proof.
  apply (accounts_are_never_removed_or_renamed sample_float sample_str
           second_user_run (awaiting_amount_world "100") 0 (alice_row "100")).
  reflexivity.
Defined.

Lemma usernames_stay_unique_witness :
  unique_usernames
    (users_rows
       (after_updates sample_float sample_str second_user_run
          (awaiting_amount_world "100"))).
Proof.
  apply (usernames_stay_unique sample_float sample_str second_user_run
           (awaiting_amount_world "100")).
  - reflexivity.
  - intros [|i] [|j] ri rj name Hi Hj; (discriminate || reflexivity).
Defined.

Lemma dialogue_states_stay_known_witness :
  all_known (after_updates sample_float sample_str second_user_run fresh_world).
Proof.
  apply (dialogue_states_stay_known sample_float sample_str second_user_run
           fresh_world).
  intros user_id s Hs. cbn in Hs. rewrite lookup_empty in Hs. discriminate.
Defined.

(** The run of the second user: the four replies, all to user 2, and
    the session of user 2, logged in as alice. *)
Example second_user_run_replies :
  let w' := after_updates sample_float sample_str second_user_run
              (awaiting_amount_world "100") in
  (chat <$> outbox w') = [2; 2; 2; 2] /\
  last (body <$> outbox w') = Some "Your current balance is: ₹100" /\
  (username <$> active_users w' !! 2) = Some (Some "alice").
Proof. vm_compute. repeat split; reflexivity. Qed.

(** ** The router and the dialogues *)

Lemma back_to_main_menu_keeps_the_dialogue_witness :
  handle_message sample_float sample_str 1 "Back to Main Menu" profile_world
  = (Ok tt, send (mkReply 1 MAIN_MENU get_main_menu_keyboard) profile_world).
Proof.
  apply (back_to_main_menu_keeps_the_dialogue sample_float sample_str 1
           (alice_session None (Some "selecting_field") ∅) profile_world);
    reflexivity.
Defined.

(** After "Back to Main Menu" the profile dialogue is still open: the
    next text is read as the choice of a field. *)
Example profile_dialogue_still_open :
  let w' := after_messages sample_float sample_str 1
              ["Back to Main Menu"; "hello"] profile_world in
  (update_profile_state <$> active_users w' !! 1) = Some (Some "selecting_field") /\
  last (body <$> outbox w') = Some "Please select a valid field to update:".
Proof. vm_compute. split; reflexivity. Qed.

Lemma taken_username_fails_at_confirmation_witness :
  exists w',
    handle_registration sample_str 1 "Yes" "awaiting_confirmation" taken_world
      = (Ok tt, w') /\
    active_users w' = active_users taken_world /\
    users_rows w' = users_rows taken_world /\
    payments_rows w' = payments_rows taken_world /\
    outbox w'
    = (outbox taken_world ++
       [mkReply 1
          "Registration failed: Username already exists. Please try again."
          get_welcome_keyboard])%list.
Proof.
  refine (taken_username_fails_at_confirmation sample_str 1 "Yes" bob_confirming
            taken_world _ _ _ _).
  - reflexivity.
  - reflexivity.
  - reflexivity.
  - exists bob_row. split; [right; left|reflexivity].
Defined.

Lemma login_dialogue_witness :
  let s := session_or_new 1 registered_world in
  let w' := after_messages sample_float sample_str 1 ["Login"; "alice"]
              registered_world in
  (1 ∉ pending_login w') /\
  users_rows w' = users_rows registered_world /\
  payments_rows w' = payments_rows registered_world /\
  (has_username "alice" (users_rows registered_world) ->
   active_users w' !! 1
     = Some (with_logged_in true (with_username (Some "alice") s)) /\
   last (outbox w')
     = Some (mkReply 1 ("Login successful! Welcome back, " +:+ "alice" +:+ ".")
               get_main_menu_keyboard)) /\
  (~ has_username "alice" (users_rows registered_world) ->
   active_users w' !! 1 = Some s /\
   last (outbox w')
     = Some (mkReply 1 "Login failed. Username not found." get_welcome_keyboard)).
Proof.
  apply (login_dialogue sample_float sample_str 1 "Login" "alice" registered_world).
  - now left.
  - reflexivity.
  - reflexivity.
  - reflexivity.
  - reflexivity.
Defined.

(** The same dialogue with a username the table does not hold, and the
    text that follows it: the login is refused, and the next text is not
    read as a username. *)
Example login_refused_run :
  let w' := after_messages sample_float sample_str 1 ["Login"; "carol"; "alice"]
              registered_world in
  (body <$> outbox w')
  = ["Please enter your username:"; "Login failed. Username not found.";
     "I didn't understand that. Please use the menu options."] /\
  (logged_in <$> active_users w' !! 1) = Some false.
Proof. vm_compute. split; reflexivity. Qed.

Lemma check_balance_reports_the_stored_balance_witness :
  exists balance w',
    check_balance 1 (awaiting_amount_world "100") = (Ok tt, w') /\
    outbox w'
    = (outbox (awaiting_amount_world "100") ++
       [mkReply 1 ("Your current balance is: ₹" +:+ balance)
          get_main_menu_keyboard])%list /\
    (balance = stored_balance (Some "alice") (users_rows (awaiting_amount_world "100"))
     \/ balance = "0") /\
    (faults (awaiting_amount_world "100") = [] ->
     balance = stored_balance (Some "alice") (users_rows (awaiting_amount_world "100"))) /\
    active_users w' = active_users (awaiting_amount_world "100") /\
    users_rows w' = users_rows (awaiting_amount_world "100") /\
    payments_rows w' = payments_rows (awaiting_amount_world "100").
Proof.
  refine (check_balance_reports_the_stored_balance 1 "alice"
            (alice_session (Some "awaiting_amount") None ∅)
            (awaiting_amount_world "100") _ _ _ _).
  - reflexivity.
  - reflexivity.
  - reflexivity.
  - discriminate.
Defined.

Lemma unreadable_balance_blames_the_amount_witness :
  exists w',
    handle_withdrawal sample_float sample_str 1 "30" "awaiting_amount"
      (awaiting_amount_world "n/a") = (Ok tt, w') /\
    active_users w' !! 1
    = Some (with_withdraw_data
              (<["amount" := PyFloat 30]>
                 (withdraw_data (alice_session (Some "awaiting_amount") None ∅)))
              (alice_session (Some "awaiting_amount") None ∅)) /\
    users_rows w' = users_rows (awaiting_amount_world "n/a") /\
    payments_rows w' = payments_rows (awaiting_amount_world "n/a") /\
    outbox w'
    = (outbox (awaiting_amount_world "n/a") ++
       [mkReply 1 "Please enter a valid number:" NoMarkup])%list.
Proof.
  refine (unreadable_balance_blames_the_amount sample_float sample_str 1 "30"
            30%float (alice_session (Some "awaiting_amount") None ∅)
            (awaiting_amount_world "n/a") _ _ _ _ _); reflexivity.
Defined.

Lemma sufficient_balance_asks_for_the_mode_witness :
  exists w' row k,
    handle_withdrawal sample_float sample_str 1 "30" "awaiting_amount"
      (awaiting_amount_world "100") = (Ok tt, w') /\
    users_rows (awaiting_amount_world "100") !! k = Some row /\
    head row = Some "alice" /\
    active_users w' !! 1
    = Some (with_withdraw_state (Some "awaiting_payment_mode_confirmation")
              (with_withdraw_data
                 (<["amount" := PyFloat 30]>
                    (withdraw_data (alice_session (Some "awaiting_amount") None ∅)))
                 (alice_session (Some "awaiting_amount") None ∅))) /\
    users_rows w' = users_rows (awaiting_amount_world "100") /\
    payments_rows w' = payments_rows (awaiting_amount_world "100") /\
    outbox w'
    = (outbox (awaiting_amount_world "100") ++
       [mkReply 1
          ("Your default payment mode is: " +:+
           py_str sample_str (of_opt (row !! 3%nat))
           +:+ nl +:+ "Would you like to use this payment mode?")
          get_yes_no_keyboard])%list.
Proof.
  refine (sufficient_balance_asks_for_the_mode sample_float sample_str 1 "30"
            "alice" 30%float 100%float
            (alice_session (Some "awaiting_amount") None ∅)
            (awaiting_amount_world "100") _ _ _ _ _ _ _ _ _); try reflexivity.
  exists (alice_row "100"). split; [left|reflexivity].
Defined.

Lemma nan_amount_passes_both_checks_witness :
  exists w',
    handle_withdrawal sample_float_nan sample_str 1 "nan" "awaiting_amount"
      (awaiting_amount_world "100") = (Ok tt, w') /\
    active_users w' !! 1
    = Some (with_withdraw_state (Some "awaiting_payment_mode_confirmation")
              (with_withdraw_data
                 (<["amount" := PyFloat nan]>
                    (withdraw_data (alice_session (Some "awaiting_amount") None ∅)))
                 (alice_session (Some "awaiting_amount") None ∅))) /\
    users_rows w' = users_rows (awaiting_amount_world "100") /\
    payments_rows w' = payments_rows (awaiting_amount_world "100").
Proof.
  refine (nan_amount_passes_both_checks sample_float_nan sample_str 1 "nan"
            "alice" nan 100%float
            (alice_session (Some "awaiting_amount") None ∅)
            (awaiting_amount_world "100") _ _ _ _ _ _ _ _); try reflexivity.
  exists (alice_row "100"). split; [left|reflexivity].
Defined.

(** The withdrawal of "nan", run to its end: the payment row carries
    the amount "nan", and so does the balance of alice afterwards, a
    balance that no later amount exceeds. *)
Example nan_withdrawal_run :
  let w' := after_messages sample_float_nan sample_str 1
              ["nan"; "Yes"; "Withdraw Funds"; "1000000"]
              (awaiting_amount_world "100") in
  users_rows w' = [alice_row "nan"] /\
  length (payments_rows w') = 1%nat /\
  (withdraw_state <$> active_users w' !! 1)
  = Some (Some "awaiting_payment_mode_confirmation").
Proof. vm_compute. repeat split; reflexivity. Qed.

Lemma profile_field_update_succeeds_witness :
  let w1 := snd (handle_profile_update sample_str 1 "UPI ID" "selecting_field"
                   profile_world) in
  (exists s1,
     active_users w1 !! 1 = Some s1 /\
     update_profile_state s1 = Some "updating_field" /\
     update_field s1 = Some "upi_id") /\
  users_rows w1 = users_rows profile_world /\
  exists w2 k row,
    handle_profile_update sample_str 1 "lee@upi" "updating_field" w1 = (Ok tt, w2) /\
    users_rows profile_world !! k = Some row /\
    head row = Some "alice" /\
    users_rows w2 = <[k := set_cell 4 "lee@upi" row]> (users_rows profile_world) /\
    set_cell 4 "lee@upi" row !! 4%nat = Some "lee@upi" /\
    (exists s2, active_users w2 !! 1 = Some s2 /\ update_profile_state s2 = None) /\
    last (outbox w2)
    = Some (mkReply 1 "Your profile has been updated successfully."
              get_main_menu_keyboard).
Proof.
  refine (profile_field_update_succeeds sample_str 1 "UPI ID" "upi_id" "lee@upi"
            "alice" 4 (alice_session None (Some "selecting_field") ∅)
            profile_world _ _ _ _ _ _); try reflexivity.
  - repeat constructor.
  - exists (alice_row "100"). split; [left|reflexivity].
Defined.

Lemma withdrawal_row_identifiers_witness :
  exists w' k row,
    process_withdrawal_request sample_float sample_str 1 (PyStr "UPI") commit_world
      = (Ok tt, w') /\
    users_rows commit_world !! k = Some row /\
    head row = Some "alice" /\
    (forall j r, (j < k)%nat -> users_rows commit_world !! j = Some r ->
                 head r <> Some "alice") /\
    payments_rows w'
    = (payments_rows commit_world ++
       [[PyStr "alice"; PyStr (sample_str 30); PyStr "UPI";
         fst (payment_identifiers (PyStr "UPI")
                (withdraw_data
                   (alice_session (Some "awaiting_payment_mode_confirmation") None
                      {["amount" := PyFloat 30]})) row);
         snd (payment_identifiers (PyStr "UPI")
                (withdraw_data
                   (alice_session (Some "awaiting_payment_mode_confirmation") None
                      {["amount" := PyFloat 30]})) row);
         PyStr (clock commit_world); PyStr "Pending"]])%list /\
    outbox w'
    = (outbox commit_world ++
       [mkReply 1 (payment_received (sample_str 30)) get_main_menu_keyboard])%list.
Proof.
  refine (withdrawal_row_identifiers sample_float sample_str 1 (PyStr "UPI")
            "alice" 30%float 100%float
            (alice_session (Some "awaiting_payment_mode_confirmation") None
               {["amount" := PyFloat 30%float]})
            commit_world _ _ _ _ _ _ _); try reflexivity.
  exists (alice_row "100"). split; [left|reflexivity].
Defined.

(** A UPI id typed in one withdrawal is the one of the next withdrawal
    too, although that one is made with the payment mode and the UPI id
    of the profile confirmed. *)
Example typed_upi_id_is_kept :
  let w' := after_messages sample_float sample_str 1
              ["10"; "No"; "UPI"; "other@upi"; "Withdraw Funds"; "20"; "Yes"]
              (awaiting_amount_world "100") in
  ((fun row => row !! 3%nat) <$> payments_rows w')
  = [Some (PyStr "other@upi"); Some (PyStr "other@upi")] /\
  users_rows w' = [alice_row "70.0"].
Proof. vm_compute. split; reflexivity. Qed.

Lemma commit_stops_after_the_payment_row_witness :
  exists w' id1 id2,
    process_withdrawal_request sample_float sample_str 1 (PyStr "UPI")
      unreadable_commit_world = (Raise ValueError, w') /\
    payments_rows w'
    = (payments_rows unreadable_commit_world ++
       [[PyStr "alice"; PyStr (sample_str 30); PyStr "UPI"; id1; id2;
         PyStr (clock unreadable_commit_world); PyStr "Pending"]])%list /\
    users_rows w' = users_rows unreadable_commit_world /\
    active_users w' = active_users unreadable_commit_world /\
    outbox w' = outbox unreadable_commit_world.
Proof.
  refine (commit_stops_after_the_payment_row sample_float sample_str 1
            (PyStr "UPI") "alice" 30%float
            (alice_session (Some "awaiting_payment_mode_confirmation") None
               {["amount" := PyFloat 30%float]})
            unreadable_commit_world _ _ _ _ _ _ _); try reflexivity.
  exists (alice_row "n/a"). split; [left|reflexivity].
Defined.

(** ** Every message *)

Lemma every_message_gets_one_reply_witness :
  match handle_message sample_float sample_str 1 "hello" fresh_world with
  | (Ok _, w') =>
      exists r, outbox w' = (outbox fresh_world ++ [r])%list /\ chat r = 1
  | (Raise _, w') => outbox w' = outbox fresh_world
  end.
Proof.
  apply (every_message_gets_one_reply sample_float sample_str 1 "hello" fresh_world).
  repeat split.
Defined.

Lemma messages_outside_a_withdrawal_return_witness :
  exists w',
    handle_message sample_float sample_str 1 "Logout" (awaiting_amount_world "100")
    = (Ok tt, w').
Proof.
  apply (messages_outside_a_withdrawal_return sample_float sample_str 1 "Logout"
           (awaiting_amount_world "100")).
  intros state. discriminate.
Defined.

(** A message that does raise: the confirmation of a withdrawal by a
    user whose row is no longer in the table. *)
Example withdrawal_raises :
  fst (handle_message sample_float sample_str 1 "Yes"
         (world_with
            (alice_session (Some "awaiting_payment_mode_confirmation") None
               {["amount" := PyFloat 30%float]})
            []))
  = Raise AttributeError.
Proof. vm_compute. reflexivity. Qed.

Lemma guests_can_only_register_witness :
  users_rows fresh_world
    `prefix_of` users_rows (snd (handle_message sample_float sample_str 1 "Signup"
                                   fresh_world)) /\
  payments_rows (snd (handle_message sample_float sample_str 1 "Signup" fresh_world))
  = payments_rows fresh_world.
Proof.
  apply (guests_can_only_register sample_float sample_str 1 "Signup" fresh_world);
    reflexivity.
Defined.
